(** * Livelib.ru metadata source: a shallow embedding of [src/__init__.py]

    The plugin ([LivelibMetadataSourcePlugin]) fetches a book page of
    livelib.ru, reads a JSON-LD block and the page markup, and builds a
    Calibre [Metadata] object; without a known identifier it first picks a
    book link on a search page.

    Conventions of the embedding.
    - A Python [str] is a Rocq [string] that holds its UTF-8 bytes.
      [str.strip] removes Python's white space, in the ASCII range and
      beyond it ([PyStr.wide_spaces]).  The regular expressions' [\d] is a
      digit 0-9 or a decimal digit outside ASCII; which characters those
      are is the interpreter's to say ([isdecimal] of the host).
    - A Python value read from JSON is a [value]; floats are IEEE binary64
      numbers ([spec_float] with [prec = 53], [emax = 1024]).
    - An lxml element is an [element]: tag, attributes, [text], children
      and [tail]; the XPath queries of the source are functions on that
      tree.  Comments and processing instructions are not represented.
    - Libraries outside the repository (the browser, the HTML and JSON
      parsers, [int] and [float] on text, [str.lower], the host's helpers)
      are the fields of a [host] record which every operation takes as a
      parameter.
    - An exception is a value of [exn]; a step of the source that can raise
      returns an [outcome], and only the handlers of the source turn a
      [Raise] into a result.
    - Logging and [time.sleep] have no effect on results and are left out. *)

From Stdlib Require Import Bool List String Ascii ZArith QArith Qpower Lia Lqa.
From Stdlib Require Import Floats.SpecFloat Numbers.DecimalString.
From Stdlib Require Lists.Finite.
Import ListNotations.

Set Warnings "-register-all".
Close Scope Q_scope.
Open Scope nat_scope.
Open Scope string_scope.
Open Scope list_scope.

(* ================================================================= *)
(** ** Python strings *)

Module PyStr.

(** [c.isspace()] on the ASCII range: TAB..CR, FS..US and the space. *)
Definition isspace (c : ascii) : bool :=
  let n := nat_of_ascii c in
  ((9 <=? n) && (n <=? 13))%nat || ((28 <=? n) && (n <=? 32))%nat.

(** [c] is one of [0-9]. *)
Definition isdigit (c : ascii) : bool :=
  let n := nat_of_ascii c in ((48 <=? n) && (n <=? 57))%nat.

(** [s[:n]] and [s[n:]] *)
Fixpoint take (n : nat) (s : string) : string :=
  match n, s with
  | S n', String c s' => String c (take n' s')
  | _, _ => EmptyString
  end.

Fixpoint drop (n : nat) (s : string) : string :=
  match n, s with
  | S n', String _ s' => drop n' s'
  | _, _ => s
  end.

(** The text of the given bytes. *)
Fixpoint of_codes (codes : list nat) : string :=
  match codes with
  | [] => EmptyString
  | n :: codes' => String (ascii_of_nat n) (of_codes codes')
  end.

(** The white space of [str.isspace] outside ASCII, as UTF-8: U+0085,
    U+00A0, U+1680, U+2000 to U+200A, U+2028, U+2029, U+202F, U+205F and
    U+3000. *)
Definition wide_spaces : list string :=
  Eval vm_compute in
  map of_codes
    [[194; 133]; [194; 160]; [225; 154; 128];
     [226; 128; 128]; [226; 128; 129]; [226; 128; 130]; [226; 128; 131];
     [226; 128; 132]; [226; 128; 133]; [226; 128; 134]; [226; 128; 135];
     [226; 128; 136]; [226; 128; 137]; [226; 128; 138];
     [226; 128; 168]; [226; 128; 169]; [226; 128; 175];
     [226; 129; 159]; [227; 128; 128]].

(** The length in bytes of the white space character [s] begins with; 0
    when it begins with none. *)
Definition space_len (s : string) : nat :=
  match s with
  | String c _ =>
      if isspace c then 1
      else
        match find (fun sp => prefix sp s) wide_spaces with
        | Some sp => String.length sp
        | None => 0
        end
  | EmptyString => 0
  end.

(** [s.lstrip()], after [skip] more bytes of a white space character. *)
Fixpoint lstrip_from (skip : nat) (s : string) {struct s} : string :=
  match s with
  | EmptyString => EmptyString
  | String _ s' =>
      match skip with
      | S k => lstrip_from k s'
      | O =>
          match space_len s with
          | O => s
          | S k => lstrip_from k s'
          end
      end
  end.

Definition lstrip (s : string) : string := lstrip_from 0 s.

(** [s.rstrip()]: [s] up to the end of its last character that is no white
    space.  In the search for that end [pos] bytes are read, [keep] is the
    end of the last character read that is no white space, and [skip]
    bytes of a white space character are still to pass. *)
Fixpoint rstrip_end (skip pos keep : nat) (s : string) {struct s} : nat :=
  match s with
  | EmptyString => keep
  | String _ s' =>
      match skip with
      | S k => rstrip_end k (S pos) keep s'
      | O =>
          match space_len s with
          | O => rstrip_end 0 (S pos) (S pos) s'
          | S k => rstrip_end k (S pos) keep s'
          end
      end
  end.

Definition rstrip (s : string) : string := take (rstrip_end 0 0 0 s) s.

(** [s.strip()] *)
Definition strip (s : string) : string := rstrip (lstrip s).

(** [not s] for a [str]. *)
Definition is_empty (s : string) : bool :=
  match s with EmptyString => true | _ => false end.

(** The double quote, as a string. *)
Definition dquote : string := String (ascii_of_nat 34) EmptyString.

(** [s.startswith(p)] *)
Definition startswith (s p : string) : bool := prefix p s.

(** [needle in hay] *)
Fixpoint contains (needle hay : string) : bool :=
  prefix needle hay ||
  match hay with
  | String _ hay' => contains needle hay'
  | EmptyString => false
  end.

(** The number of bytes of the character a byte begins. *)
Definition utf8_len (c : ascii) : nat :=
  let n := nat_of_ascii c in
  if (n <? 192)%nat then 1 else if (n <? 224)%nat then 2 else if (n <? 240)%nat then 3 else 4.

(** The first character of [s]. *)
Definition head_char (s : string) : string :=
  match s with
  | String c _ => take (utf8_len c) s
  | EmptyString => EmptyString
  end.

(** The regular expressions' [\d] at the head of [s]: the length in bytes
    of the decimal digit [s] begins with, 0 when it begins with none.  A
    digit is one of [0-9], or a character outside ASCII of which [wide]
    ([str.isdecimal]) holds. *)
Definition digit_len (wide : string -> bool) (s : string) : nat :=
  match s with
  | String c _ =>
      if isdigit c then 1
      else if (nat_of_ascii c <? 128)%nat then 0
      else if wide (head_char s) then String.length (head_char s) else 0
  | EmptyString => 0
  end.

(** The longest run of digits at the start of [s], after [skip] more bytes
    of a digit. *)
Fixpoint take_digits_from (wide : string -> bool) (skip : nat) (s : string) {struct s} : string :=
  match s with
  | EmptyString => EmptyString
  | String c s' =>
      match skip with
      | S k => String c (take_digits_from wide k s')
      | O =>
          match digit_len wide s with
          | O => EmptyString
          | S k => String c (take_digits_from wide k s')
          end
      end
  end.

Definition take_digits (wide : string -> bool) (s : string) : string :=
  take_digits_from wide 0 s.

(** A match of [lit(\d+)] starting exactly at the head of [s]: group 1. *)
Definition match_lit_digits (wide : string -> bool) (lit s : string) : option string :=
  if prefix lit s then
    match take_digits wide (drop (String.length lit) s) with
    | EmptyString => None
    | d => Some d
    end
  else None.

(** [re.search(lit + r'(\d+)', s)] for a literal [lit]: group 1 of the
    leftmost match, [None] when there is none. *)
Fixpoint re_search_lit_digits (wide : string -> bool) (lit s : string) : option string :=
  match match_lit_digits wide lit s with
  | Some d => Some d
  | None =>
      match s with
      | String _ s' => re_search_lit_digits wide lit s'
      | EmptyString => None
      end
  end.

(** [s] is made of the digits [0-9] only. *)
Fixpoint all_digits (s : string) : bool :=
  match s with
  | String c s' => isdigit c && all_digits s'
  | EmptyString => true
  end.

(** [str(z)] for an integer. *)
Definition str_of_int (z : Z) : string := NilZero.string_of_int (Z.to_int z).

(** [sep.join(parts)] *)
Fixpoint join (sep : string) (parts : list string) : string :=
  match parts with
  | [] => EmptyString
  | [p] => p
  | p :: rest => p ++ sep ++ join sep rest
  end.

End PyStr.

(* ================================================================= *)
(** ** Python values (the result of [json.loads]) *)

Definition prec64 : Z := 53.
Definition emax64 : Z := 1024.

Inductive value : Type :=
| VNone
| VBool (b : bool)
| VInt (z : Z)
| VFloat (f : spec_float)
| VStr (s : string)
| VList (l : list value)
| VDict (d : list (string * value)).

(** Truth value of a Python object ([if x:]). *)
Definition truthy (v : value) : bool :=
  match v with
  | VNone => false
  | VBool b => b
  | VInt z => negb (z =? 0)%Z
  | VFloat (S754_zero _) => false
  | VFloat _ => true
  | VStr s => negb (PyStr.is_empty s)
  | VList l => match l with [] => false | _ => true end
  | VDict d => match d with [] => false | _ => true end
  end.

(** A dict is the list of its items; keys are unique in a Python dict, a
    lookup takes the first item with the key. *)
Fixpoint dict_find {A : Type} (d : list (string * A)) (k : string) : option A :=
  match d with
  | [] => None
  | (k', v) :: d' => if String.eqb k' k then Some v else dict_find d' k
  end.

(** [d.get(k, default)] *)
Definition dict_get_default (d : list (string * value)) (k : string) (default : value) : value :=
  match dict_find d k with Some v => v | None => default end.

(** [d.get(k)] *)
Definition dict_get (d : list (string * value)) (k : string) : value :=
  dict_get_default d k VNone.

(** Exceptions.  ([JSONDecodeError] is a [ValueError] in Python; it is
    kept apart because the one handler that meets it, lines 83-84, names
    it.) *)
Inductive exn : Type :=
| ValueError
| TypeError
| OverflowError
| XPathEvalError
| JSONDecodeError
| RecursionError
| OtherError (name : string).

Inductive outcome (A : Type) : Type :=
| Ret (a : A)
| Raise (e : exn).
Arguments Ret {A} a.
Arguments Raise {A} e.

(** [float(z)] for an [int]: the nearest binary64 number, ties to even;
    [OverflowError] when that is out of range. *)
Definition float_of_int (z : Z) : outcome spec_float :=
  match binary_normalize prec64 emax64 z 0 false with
  | S754_infinity _ => Raise OverflowError
  | f => Ret f
  end.

(** The float [2.0], as [rating * 2] converts its [int] operand. *)
Definition float_two : spec_float :=
  Eval vm_compute in binary_normalize prec64 emax64 2 0 false.

(** [x * 2] for a [float] [x]. *)
Definition float_double (x : spec_float) : spec_float :=
  SFmul prec64 emax64 x float_two.

(** [if x:] for a [float]. *)
Definition float_truthy (x : spec_float) : bool :=
  match x with S754_zero _ => false | _ => true end.

(* ================================================================= *)
(** ** The document tree (lxml) and the XPath queries of the source *)

(** An lxml element.  [text] is the text before the first child, [tail] the
    text between the element's end tag and its next sibling; both are
    [None] when there is no such text. *)
Inductive element : Type :=
| Element (tag : string) (attrib : list (string * string))
          (text : option string) (children : list element)
          (tail : option string).

Module Dom.

Definition tag (e : element) : string :=
  match e with Element t _ _ _ _ => t end.
Definition attrib (e : element) : list (string * string) :=
  match e with Element _ a _ _ _ => a end.
Definition text (e : element) : option string :=
  match e with Element _ _ t _ _ => t end.
Definition children (e : element) : list element :=
  match e with Element _ _ _ c _ => c end.
Definition tail (e : element) : option string :=
  match e with Element _ _ _ _ t => t end.

(** The string value of an attribute node set: the attribute's value, the
    empty string when the element has no such attribute. *)
Definition attr_string (e : element) (name : string) : string :=
  match dict_find (attrib e) name with Some v => v | None => EmptyString end.

Definition opt_str (o : option string) : string :=
  match o with Some s => s | None => EmptyString end.

(** [e.text_content()]: all the text inside [e], in document order. *)
Fixpoint text_content (e : element) : string :=
  match e with
  | Element _ _ t cs _ =>
      (opt_str t ++
       (fix go (l : list element) : string :=
          match l with
          | [] => EmptyString
          | c :: l' => (text_content c ++ opt_str (tail c) ++ go l')%string
          end) cs)%string
  end.

(** Every element of the document, in document order, with its parent
    ([e.getparent()], [None] for the root). *)
Fixpoint walk (parent : option element) (e : element) : list (option element * element) :=
  match e with
  | Element _ _ _ cs _ =>
      (parent, e) ::
      (fix go (l : list element) : list (option element * element) :=
         match l with
         | [] => []
         | c :: l' => walk (Some e) c ++ go l'
         end) cs
  end.

Definition elements (root : element) : list element := map snd (walk None root).

Definition text_node (parent : element) (o : option string) : list (element * string) :=
  match o with Some s => [(parent, s)] | None => [] end.

(** Every text node of the document, in document order, with the element
    it is a child of: an element's [text], and the [tail] of each of its
    children. *)
Fixpoint text_nodes (e : element) : list (element * string) :=
  match e with
  | Element _ _ t cs _ =>
      text_node e t ++
      (fix go (l : list element) : list (element * string) :=
         match l with
         | [] => []
         | c :: l' => text_nodes c ++ text_node e (tail c) ++ go l'
         end) cs
  end.

(** [//tag[pred]/text()] *)
Definition xpath_text (root : element) (tg : string) (pred : element -> bool) : list string :=
  map snd (filter (fun n => String.eqb (tag (fst n)) tg && pred (fst n)) (text_nodes root)).

(** [//tag[pred]] *)
Definition xpath_elems (root : element) (tg : string) (pred : element -> bool) : list element :=
  filter (fun e => String.eqb (tag e) tg && pred e) (elements root).

(** [contains(@href, part)] *)
Definition href_contains (part : string) (e : element) : bool :=
  PyStr.contains part (attr_string e "href").

(** [//script[@type="application/ld+json"]/text()] *)
Definition ld_json_scripts (root : element) : list string :=
  xpath_text root "script"
    (fun e => match dict_find (attrib e) "type" with
              | Some v => String.eqb v "application/ld+json"
              | None => false
              end).

(** [//h1/text()] *)
Definition h1_texts (root : element) : list string :=
  xpath_text root "h1" (fun _ => true).

(** [//a[contains(@href, "/author/")]/text()] *)
Definition author_link_texts (root : element) : list string :=
  xpath_text root "a" (href_contains "/author/").

(** [//a[contains(@href, "/genre/")]/text()] *)
Definition genre_link_texts (root : element) : list string :=
  xpath_text root "a" (href_contains "/genre/").

(** [//a[contains(@href, "/series/") or contains(@href, "/pubseries/")]] *)
Definition series_link_elems (root : element) : list element :=
  xpath_elems root "a"
    (fun e => href_contains "/series/" e || href_contains "/pubseries/" e).

(** [//a[contains(@href, "/book/")]/@href] *)
Definition book_link_hrefs (root : element) : list string :=
  map (fun e => attr_string e "href") (xpath_elems root "a" (href_contains "/book/")).

(** [//a[@href="<href>"]], the text of [href] pasted between the quotes of
    the XPath literal: the matching links with their parents.  A [href]
    holding a double quote ends the literal early, and the expression left
    is another one: what lxml makes of it is [pasted root href]. *)
Definition links_with_href (pasted : element -> string -> outcome (list (option element * element)))
    (root : element) (href : string) : outcome (list (option element * element)) :=
  if PyStr.contains PyStr.dquote href then pasted root href
  else
    Ret (filter
           (fun pe => String.eqb (tag (snd pe)) "a" &&
                      match dict_find (attrib (snd pe)) "href" with
                      | Some v => String.eqb v href
                      | None => false
                      end)
           (walk None root)).

(** The label the publication year is found by. *)
Definition year_label : string := "Год издания".

(** [contains(text(), label)]: the first text node child of [e] holds the
    label. *)
Definition first_text_contains (label : string) (e : element) : bool :=
  match e with
  | Element _ _ t cs _ =>
      match t with
      | Some s => PyStr.contains label s
      | None =>
          (fix go (l : list element) : bool :=
             match l with
             | [] => false
             | c :: l' =>
                 match tail c with
                 | Some s => PyStr.contains label s
                 | None => go l'
                 end
             end) cs
      end
  end.

(** [//*[contains(text(), label)]/following-sibling::*/text()]: the text
    nodes, in document order, of every element that follows a sibling whose
    first text holds the label.  [sel] tells whether [e] itself is such a
    following sibling. *)
Fixpoint following_sibling_texts (label : string) (sel : bool) (e : element) : list string :=
  match e with
  | Element _ _ t cs _ =>
      (if sel then map snd (text_node e t) else []) ++
      (fix go (seen : bool) (l : list element) : list string :=
         match l with
         | [] => []
         | c :: l' =>
             following_sibling_texts label seen c ++
             (if sel then map snd (text_node e (tail c)) else []) ++
             go (seen || first_text_contains label c) l'
         end) false cs
  end.

Definition year_texts (root : element) : list string :=
  following_sibling_texts year_label false root.

End Dom.

(* ================================================================= *)
(** ** The host: Calibre and the libraries outside the repository *)

Definition bytes : Type := string.
Definition dict : Type := list (string * value).

(** The host's [Metadata] object, with the fields the plugin sets.  A field
    the plugin leaves alone keeps the host's null value ([None], or the
    empty list for [tags] and [identifiers]). *)
Record Metadata : Type := mkMetadata {
  mi_title : value;
  mi_authors : list value;
  mi_identifiers : list (string * value);
  mi_tags : list value;
  mi_series : option string;
  mi_series_index : option Z;
  mi_publisher : option value;
  mi_comments : option value;
  mi_rating : option spec_float;
  mi_pubdate : option string
}.

(** What lies outside the repository, taken as parameters:
    - [open_novisit url]: [self.browser.open_novisit(url, ...).read()],
      [None] when either call raises;
    - [fromstring raw]: [lxml.html.fromstring], [None] when it raises;
    - [json_loads s]: [json.loads], with the exception it raises:
      [JSONDecodeError] for malformed text, [RecursionError] for text
      nested too deep, [ValueError] for an integer of more digits than the
      interpreter converts;
    - [float_of_str s]: [float(s)] for a [str], [None] for [ValueError];
    - [py_int s]: [int(s)] for a [str], [None] for [ValueError] (text that
      is no integer, or has more digits than the interpreter converts);
    - [isdecimal ch]: [ch.isdecimal()] for a character outside ASCII, that
      is whether the regular expressions' [\d] matches it;
    - [lower]: [str.lower];
    - [xpath_pasted root href]: what the [root.xpath] of line 336 gives
      the loop of lines 336-358 for a [href] that holds a double quote:
      the elements selected with their parents, or the exception raised --
      by lxml at line 336 ([XPathEvalError]), or at line 340 when what is
      selected is not an element;
    - [get_title_tokens], [get_author_tokens] (called with
      [only_first_author=True]), [clean_downloaded_metadata]: methods of
      the host's [Source] class;
    - [quote s]: [urllib.parse.quote(s.encode('utf8'))];
    - [parse_only_date s]: the host's date parser, [None] when it raises
      (the date value is kept as an opaque string);
    - [abort_is_set n]: what the [n]-th call of [abort.is_set()] answers. *)
Record host : Type := mkHost {
  open_novisit : string -> option bytes;
  fromstring : bytes -> option element;
  json_loads : string -> outcome value;
  float_of_str : string -> option spec_float;
  py_int : string -> option Z;
  isdecimal : string -> bool;
  lower : string -> string;
  xpath_pasted : element -> string -> outcome (list (option element * element));
  get_title_tokens : string -> list string;
  get_author_tokens : list string -> list string;
  clean_downloaded_metadata : Metadata -> Metadata;
  quote : string -> string;
  parse_only_date : string -> option string;
  abort_is_set : nat -> bool
}.

(** What an operation puts into [result_queue]. *)
Inductive queue_item : Type :=
| QMetadata (mi : Metadata)
| QCover (cover_data : bytes).

(** The state an operation acts on: the URLs opened so far (oldest first),
    the result queue (oldest first), the host's cover URL cache, and the
    number of times the abort flag was read. *)
Record world : Type := mkWorld {
  requests : list string;
  result_queue : list queue_item;
  cover_urls : list (string * value);
  polls : nat
}.

Definition empty_world : world := mkWorld [] [] [] 0.

(** Computations: state passing, with exceptions. *)
Definition M (A : Type) : Type := world -> outcome A * world.

Definition ret {A : Type} (a : A) : M A := fun w => (Ret a, w).

Definition bind {A B : Type} (m : M A) (k : A -> M B) : M B :=
  fun w =>
    match m w with
    | (Ret a, w') => k a w'
    | (Raise e, w') => (Raise e, w')
    end.

Definition lift {A : Type} (o : outcome A) : M A := fun w => (o, w).

Declare Scope monad_scope.
Delimit Scope monad_scope with monad.
Notation "x <- m ;; k" := (bind m (fun x => k))
  (at level 61, m at next level, right associativity) : monad_scope.
Notation "m ;;; k" := (bind m (fun _ => k))
  (at level 61, right associativity) : monad_scope.
Open Scope monad_scope.

(* ================================================================= *)
(** ** The plugin *)

(** [BASE_URL] *)
Definition BASE_URL : string := "https://www.livelib.ru".

(** [get_book_url(identifiers)] (lines 42-47) *)
Definition get_book_url (identifiers : list (string * string)) : option string :=
  match dict_find identifiers "livelib" with
  | Some livelib_id =>
      if negb (PyStr.is_empty livelib_id)
      then Some (BASE_URL ++ "/book/" ++ livelib_id)%string
      else None
  | None => None
  end.

Section Plugin.

Variable h : host.

(** [id_from_url(url)] (lines 49-54): [re.search(r'/book/(\d+)', url)]. *)
Definition id_from_url (url : string) : option string :=
  PyStr.re_search_lit_digits (isdecimal h) "/book/" url.

(** The requests the browser is asked for are recorded in [requests]. *)
Definition browser_read (url : string) : M (option bytes) :=
  fun w =>
    (Ret (open_novisit h url),
     mkWorld (requests w ++ [url]) (result_queue w) (cover_urls w) (polls w)).

(** [_fetch_page(url, log, timeout)] (lines 64-73): any exception of the
    browser is caught and [None] returned. *)
Definition _fetch_page (url : string) : M (option bytes) := browser_read url.

(** [result_queue.put(item)] *)
Definition put (item : queue_item) : M unit :=
  fun w =>
    (Ret tt,
     mkWorld (requests w) (result_queue w ++ [item]) (cover_urls w) (polls w)).

(** [abort.is_set()] *)
Definition is_set : M bool :=
  fun w =>
    (Ret (abort_is_set h (polls w)),
     mkWorld (requests w) (result_queue w) (cover_urls w) (S (polls w))).

(** [self.cached_identifier_to_cover_url(key)] *)
Definition cached_identifier_to_cover_url (key : string) : M value :=
  fun w => (Ret (dict_get (cover_urls w) key), w).

(** [self.cache_identifier_to_cover_url(key, url)] *)
Definition cache_identifier_to_cover_url (key : string) (url : value) : M unit :=
  fun w =>
    (Ret tt,
     mkWorld (requests w) (result_queue w) ((key, url) :: cover_urls w) (polls w)).

(** [_extract_json_ld(root, log)] (lines 75-85): the first script that
    parses to a dict whose ['@type'] is ['Book'].  A script that raises
    [JSONDecodeError] is passed over; any other exception of [json.loads]
    leaves the function. *)
Fixpoint first_book_block (scripts : list string) : outcome (option dict) :=
  match scripts with
  | [] => Ret None
  | script :: rest =>
      match json_loads h script with
      | Ret (VDict data) =>
          match dict_get data "@type" with
          | VStr "Book" => Ret (Some data)
          | _ => first_book_block rest
          end
      | Ret _ => first_book_block rest
      | Raise JSONDecodeError => first_book_block rest
      | Raise e => Raise e
      end
  end.

Definition _extract_json_ld (root : element) : outcome (option dict) :=
  first_book_block (Dom.ld_json_scripts root).

(** [if json_ld:] -- the block, when it is there and not empty. *)
Definition if_json_ld (json_ld : option dict) : option dict :=
  match json_ld with
  | Some d => if truthy (VDict d) then Some d else None
  | None => None
  end.

(** [float(v)] *)
Definition py_float (v : value) : outcome spec_float :=
  match v with
  | VFloat f => Ret f
  | VInt z => float_of_int z
  | VBool b => float_of_int (if b then 1 else 0)
  | VStr s =>
      match float_of_str h s with
      | Some f => Ret f
      | None => Raise ValueError
      end
  | VNone | VList _ | VDict _ => Raise TypeError
  end.

(** *** [parse_book_page]: the fields, one by one (lines 101-215)

    Each definition below is the part of [parse_book_page] that computes one
    local variable: first from the JSON-LD block, then from the markup. *)

(** [title] (lines 104, 119, 169-173) *)
Definition title_from_json_ld (json_ld : option dict) : value :=
  match if_json_ld json_ld with
  | Some d => dict_get_default d "name" (VStr "")
  | None => VStr ""
  end.

Definition title_fallback (root : element) (title : value) : value :=
  if negb (truthy title) then
    match Dom.h1_texts root with
    | h1 :: _ => VStr (PyStr.strip h1)
    | [] => title
    end
  else title.

Definition resolve_title (json_ld : option dict) (root : element) : value :=
  title_fallback root (title_from_json_ld json_ld).

(** The [name] of an author object, when it is a dict with a true name. *)
Definition author_name (a : value) : list value :=
  match a with
  | VDict d => if truthy (dict_get d "name") then [dict_get d "name"] else []
  | _ => []
  end.

(** [authors] from JSON-LD (lines 105, 123-132) *)
Definition authors_from_json_ld (json_ld : option dict) : list value :=
  match if_json_ld json_ld with
  | Some d =>
      let author_data := dict_get d "author" in
      if truthy author_data then
        match author_data with
        | VDict _ => author_name author_data
        | VList l => flat_map author_name l
        | _ => []
        end
      else []
  | None => []
  end.

(** One turn of the loops of lines 177-180 and 202-205: strip, then append
    unless empty or already there. *)
Definition append_new (seen : list string) (raw : string) : list string :=
  let item := PyStr.strip raw in
  if negb (PyStr.is_empty item) && negb (existsb (String.eqb item) seen)
  then seen ++ [item]
  else seen.

(** [authors] from the markup (lines 176-180): the first three texts of
    author links. *)
Definition authors_from_html (root : element) : list string :=
  fold_left append_new (firstn 3 (Dom.author_link_texts root)) [].

Definition authors_fallback (root : element) (authors : list value) : list value :=
  match authors with
  | [] => map VStr (authors_from_html root)
  | _ => authors
  end.

Definition resolve_authors (json_ld : option dict) (root : element) : list value :=
  authors_fallback root (authors_from_json_ld json_ld).

(** [isbn], [description], [cover_url] (lines 135, 152, 164) *)
Definition field_from_json_ld (key : string) (json_ld : option dict) : value :=
  match if_json_ld json_ld with
  | Some d => dict_get d key
  | None => VNone
  end.

(** [publisher] (lines 139-141) *)
Definition publisher_from_json_ld (json_ld : option dict) : value :=
  match if_json_ld json_ld with
  | Some d =>
      match dict_get d "publisher" with
      | VDict ((_ :: _) as publisher_data) => dict_get publisher_data "name"
      | _ => VNone
      end
  | None => VNone
  end.

(** [genres] from JSON-LD (lines 144-149) *)
Definition genres_from_json_ld (json_ld : option dict) : list value :=
  match if_json_ld json_ld with
  | Some d =>
      let genre := dict_get d "genre" in
      if truthy genre then
        match genre with
        | VStr _ => [genre]
        | VList l => l
        | _ => []
        end
      else []
  | None => []
  end.

(** [genres] from the markup (lines 201-205) *)
Definition genres_from_html (root : element) : list string :=
  fold_left append_new (Dom.genre_link_texts root) [].

Definition genres_fallback (root : element) (genres : list value) : list value :=
  match genres with
  | [] => map VStr (genres_from_html root)
  | _ => genres
  end.

Definition resolve_genres (json_ld : option dict) (root : element) : list value :=
  genres_fallback root (genres_from_json_ld json_ld).

(** [rating] (lines 155-161): [ValueError] and [TypeError] of [float] are
    caught, any other exception goes on. *)
Definition rating_from_json_ld (json_ld : option dict) : outcome (option spec_float) :=
  match if_json_ld json_ld with
  | Some d =>
      match dict_get d "aggregateRating" with
      | VDict ((_ :: _) as rating_data) =>
          match py_float (dict_get_default rating_data "ratingValue" (VInt 0)) with
          | Ret rating => Ret (Some rating)
          | Raise ValueError | Raise TypeError => Ret None
          | Raise e => Raise e
          end
      | _ => Ret None
      end
  | None => Ret None
  end.

(** The series index after a series link (lines 191-195): [int] of the
    digits has no handler, its [ValueError] leaves the function. *)
Definition series_index_of (link : element) : outcome (option Z) :=
  match Dom.tail link with
  | Some tail =>
      match PyStr.re_search_lit_digits (isdecimal h) "#" tail with
      | Some digits =>
          match py_int h digits with
          | Some series_index => Ret (Some series_index)
          | None => Raise ValueError
          end
      | None => Ret None
      end
  | None => Ret None
  end.

(** [series], [series_index] (lines 184-197): the loop over the series
    links ends at the first one with text. *)
Fixpoint series_from_links (series_links : list element) : outcome (option string * option Z) :=
  match series_links with
  | [] => Ret (None, None)
  | link :: rest =>
      let series_text := PyStr.strip (Dom.text_content link) in
      if negb (PyStr.is_empty series_text)
      then
        match series_index_of link with
        | Ret series_index => Ret (Some series_text, series_index)
        | Raise e => Raise e
        end
      else series_from_links rest
  end.

Definition resolve_series (root : element) : outcome (option string * option Z) :=
  series_from_links (Dom.series_link_elems root).

(** [pub_year] (lines 209-215): the [ValueError] of [int] is caught. *)
Definition resolve_pub_year (root : element) : option Z :=
  match Dom.year_texts root with
  | y :: _ => py_int h (PyStr.strip y)
  | [] => None
  end.

(** The local variables of [parse_book_page] at line 218. *)
Record fields : Type := mkFields {
  title : value;
  authors : list value;
  isbn : value;
  publisher : value;
  genres : list value;
  series : option string;
  series_index : option Z;
  description : value;
  rating : option spec_float;
  cover_url : value;
  pub_year : option Z
}.

(** Lines 101-215.  Three steps can let an exception through, in this
    order: [json.loads] (line 80, called at line 102), the rating's [float]
    (line 158) and the series index's [int] (line 195); the first to raise
    ends the extraction. *)
Definition resolve_fields (root : element) : outcome fields :=
  match _extract_json_ld root with
  | Raise e => Raise e
  | Ret json_ld =>
      match rating_from_json_ld json_ld with
      | Raise e => Raise e
      | Ret rating =>
          match resolve_series root with
          | Raise e => Raise e
          | Ret (series, series_index) =>
              Ret (mkFields
                     (resolve_title json_ld root)
                     (resolve_authors json_ld root)
                     (field_from_json_ld "isbn" json_ld)
                     (publisher_from_json_ld json_ld)
                     (resolve_genres json_ld root)
                     series
                     series_index
                     (field_from_json_ld "description" json_ld)
                     rating
                     (field_from_json_ld "image" json_ld)
                     (resolve_pub_year root))
          end
      end
  end.

Definition some_if_true (v : value) : option value :=
  if truthy v then Some v else None.

(** Lines 225-256: the [Metadata] object. *)
Definition build_metadata (book_id : option string) (f : fields) : Metadata :=
  mkMetadata
    (title f)
    (authors f)
    ((match book_id with
      | Some id => if negb (PyStr.is_empty id) then [("livelib", VStr id)] else []
      | None => []
      end) ++
     (if truthy (isbn f) then [("isbn", isbn f)] else []))
    (genres f)
    (series f)
    (match series f with
     | Some s =>
         if negb (PyStr.is_empty s) then
           match series_index f with
           | Some i => if negb (i =? 0)%Z then Some i else None
           | None => None
           end
         else None
     | None => None
     end)
    (some_if_true (publisher f))
    (some_if_true (description f))
    (match rating f with
     | Some r => if float_truthy r then Some (float_double r) else None
     | None => None
     end)
    (match pub_year f with
     | Some y => if negb (y =? 0)%Z then parse_only_date h (PyStr.str_of_int y) else None
     | None => None
     end).

(** [not title or not authors] (line 220) *)
Definition missing_required (f : fields) : bool :=
  negb (truthy (title f)) || match authors f with [] => true | _ => false end.

(** The extraction core of [parse_book_page] (lines 101-263) on a parsed
    page: the record, or [None], and the cover URL to cache (lines 259-260)
    when there is one. *)
Definition extract (book_url : string) (root : element)
  : outcome (option (Metadata * option (string * value))) :=
  match resolve_fields root with
  | Raise e => Raise e
  | Ret f =>
      let book_id := id_from_url book_url in
      if missing_required f then Ret None
      else
        Ret (Some (build_metadata book_id f,
                   match book_id with
                   | Some id =>
                       if truthy (cover_url f) && negb (PyStr.is_empty id)
                       then Some (("livelib:" ++ id)%string, cover_url f)
                       else None
                   | None => None
                   end))
  end.

(** [parse_book_page(book_url, log, timeout)] (lines 87-263) *)
Definition parse_book_page (book_url : string) : M (option Metadata) :=
  raw_html <- _fetch_page book_url ;;
  match raw_html with
  | None | Some EmptyString => ret None
  | Some raw =>
      match fromstring h raw with
      | None => ret None
      | Some root =>
          r <- lift (extract book_url root) ;;
          match r with
          | None => ret None
          | Some (mi, None) => ret (Some mi)
          | Some (mi, Some (key, url)) =>
              cache_identifier_to_cover_url key url ;;; ret (Some mi)
          end
      end
  end.

(** *** [identify]: the choice of a search result (lines 316-368) *)

(** [list(dict.fromkeys(book_links))]: duplicates removed, the first
    occurrence kept. *)
Definition remember (seen : list string) (x : string) : list string :=
  if existsb (String.eqb x) seen then seen else seen ++ [x].

Definition unique (l : list string) : list string := fold_left remember l [].

(** Lines 317-318 *)
Definition book_links_of (root : element) : list string :=
  unique (Dom.book_link_hrefs root).

(** The title test of line 343 on the text of a link. *)
Definition title_matches (title_lower : string) (link : element) : bool :=
  let link_text := lower h (PyStr.strip (Dom.text_content link)) in
  PyStr.contains title_lower link_text || PyStr.contains link_text title_lower.

(** The author test of lines 349-352 on the parent of a link. *)
Definition author_matches (author_lower : string) (parent : option element) : bool :=
  match parent with
  | Some p => PyStr.contains author_lower (lower h (Dom.text_content p))
  | None => false
  end.

(** What the body of the loop (lines 336-358) decides for a link: [true]
    sets [best_match] and breaks, [false] goes on to the next [href]. *)
Definition accepts (title_lower author_lower : string) (parent : option element) (link : element) : bool :=
  if title_matches title_lower link then
    if negb (PyStr.is_empty author_lower)
    then author_matches author_lower parent
    else true
  else false.

(** How the loop of lines 331-358 ends. *)
Inductive scan_end : Type :=
| Aborted
| Finished (best_match : option string).

(** The loop of lines 331-358 over [book_links[:20]]. *)
Fixpoint scan (root : element) (title_lower author_lower : string) (hrefs : list string) : M scan_end :=
  match hrefs with
  | [] => ret (Finished None)
  | href :: rest =>
      stop <- is_set ;;
      if stop then ret Aborted
      else
        link_elems <- lift (Dom.links_with_href (xpath_pasted h) root href) ;;
        match link_elems with
        | [] => scan root title_lower author_lower rest
        | (parent, link) :: _ =>
            if accepts title_lower author_lower parent link
            then ret (Finished (Some href))
            else scan root title_lower author_lower rest
        end
  end.

(** Lines 367-368 *)
Definition absolute_url (best_match : string) : string :=
  if PyStr.startswith best_match "http" then best_match
  else (BASE_URL ++ best_match)%string.

(** Lines 360-363 *)
Definition or_first (book_links : list string) (best_match : option string) : option string :=
  match best_match with
  | Some (String _ _ as b) => Some b
  | _ =>
      match book_links with
      | first :: _ => Some first
      | [] => None
      end
  end.

(** The choice of the page to read (lines 316-368) on a parsed search
    page: the absolute URL chosen; [None] when there is no book link, when
    the scan was aborted, or when the link chosen is empty. *)
Definition select_best_candidate (root : element) (title_tokens author_tokens : string) : M (option string) :=
  let book_links := book_links_of root in
  match book_links with
  | [] => ret None
  | _ :: _ =>
      let title_lower := lower h title_tokens in
      let author_lower :=
        if negb (PyStr.is_empty author_tokens) then lower h author_tokens else EmptyString in
      e <- scan root title_lower author_lower (firstn 20 book_links) ;;
      match e with
      | Aborted => ret None
      | Finished best_match =>
          match or_first book_links best_match with
          | Some (String _ _ as b) => ret (Some (absolute_url b))
          | _ => ret None
          end
      end
  end.

(** [identifiers = identifiers or {}] *)
Definition or_empty (identifiers : option (list (string * string))) : list (string * string) :=
  match identifiers with Some d => d | None => [] end.

(** Lines 276-279 and 370-375: a record of [parse_book_page] is cleaned
    and put into the queue.  (A record has a title, so [if mi:] holds for
    every record.) *)
Definition emit (check_abort : bool) (mi : option Metadata) : M unit :=
  match mi with
  | Some mi =>
      stop <- (if check_abort then is_set else ret false) ;;
      if stop then ret tt
      else put (QMetadata (clean_downloaded_metadata h mi))
  | None => ret tt
  end.

(** [identify(log, result_queue, abort, title, authors, identifiers,
    timeout)] (lines 265-375) *)
Definition identify (title : option string) (authors : option (list string))
    (identifiers : option (list (string * string))) : M unit :=
  let identifiers := or_empty identifiers in
  match dict_find identifiers "livelib" with
  | Some (String _ _ as livelib_id) =>
      let book_url := (BASE_URL ++ "/book/" ++ livelib_id)%string in
      mi <- parse_book_page book_url ;;
      emit false mi
  | _ =>
      match title with
      | None | Some EmptyString => ret tt
      | Some title =>
          let title_tokens := PyStr.join " " (get_title_tokens h title) in
          let author_tokens :=
            match authors with
            | Some ((_ :: _) as authors) => PyStr.join " " (get_author_tokens h authors)
            | _ => EmptyString
            end in
          let search_query :=
            if negb (PyStr.is_empty author_tokens)
            then (title_tokens ++ " " ++ author_tokens)%string
            else title_tokens in
          let encoded_query := quote h search_query in
          let search_url := (BASE_URL ++ "/find/books/" ++ encoded_query)%string in
          raw_html <- _fetch_page search_url ;;
          match raw_html with
          | None | Some EmptyString => ret tt
          | Some raw =>
              match fromstring h raw with
              | None => ret tt
              | Some root =>
                  best_match <- select_best_candidate root title_tokens author_tokens ;;
                  match best_match with
                  | Some url =>
                      mi <- parse_book_page url ;;
                      emit true mi
                  | None => ret tt
                  end
              end
          end
      end
  end.

(** [download_cover(log, result_queue, abort, title, authors, identifiers,
    timeout, get_best_cover)] (lines 377-419); [title] and [authors] are
    not read.  The handler of lines 400-401 catches whatever the parse or
    [_extract_json_ld] raises; [cover_url] is then left as it was. *)
Definition download_cover (title : option string) (authors : option (list string))
    (identifiers : option (list (string * string))) : M unit :=
  let identifiers := or_empty identifiers in
  let livelib_id :=
    match dict_find identifiers "livelib" with
    | Some (String _ _ as id) => Some id
    | _ => None
    end in
  cover_url <-
    match livelib_id with
    | Some id => cached_identifier_to_cover_url ("livelib:" ++ id)%string
    | None => ret VNone
    end ;;
  cover_url <-
    match livelib_id with
    | Some id =>
        if negb (truthy cover_url) then
          let book_url := (BASE_URL ++ "/book/" ++ id)%string in
          raw_html <- _fetch_page book_url ;;
          match raw_html with
          | None | Some EmptyString => ret cover_url
          | Some raw =>
              match fromstring h raw with
              | None => ret cover_url
              | Some root =>
                  match _extract_json_ld root with
                  | Ret json_ld =>
                      match if_json_ld json_ld with
                      | Some d => ret (dict_get d "image")
                      | None => ret cover_url
                      end
                  | Raise _ => ret cover_url
                  end
              end
          end
        else ret cover_url
    | None => ret cover_url
    end ;;
  if negb (truthy cover_url) then ret tt
  else
    match cover_url with
    | VStr url =>
        cover_data <- browser_read url ;;
        match cover_data with
        | Some (String _ _ as data) => put (QCover data)
        | _ => ret tt
        end
    | _ => ret tt
    end.

(** [get_cached_cover_url(identifiers)] (lines 56-62) *)
Definition get_cached_cover_url (identifiers : list (string * string)) : M (option value) :=
  match dict_find identifiers "livelib" with
  | Some (String _ _ as livelib_id) =>
      url <- cached_identifier_to_cover_url ("livelib:" ++ livelib_id)%string ;;
      ret (Some url)
  | _ => ret None
  end.

End Plugin.

(* ================================================================= *)
(** ** Concrete pages and a concrete host, for the examples *)

Module Examples.

(** [str.lower] on ASCII text. *)
Definition ascii_lower_char (c : ascii) : ascii :=
  let n := nat_of_ascii c in
  if ((65 <=? n) && (n <=? 90))%nat then ascii_of_nat (n + 32) else c.

Fixpoint ascii_lower (s : string) : string :=
  match s with
  | String c s' => String (ascii_lower_char c) (ascii_lower s')
  | EmptyString => EmptyString
  end.

Definition digit_value (c : ascii) : Z := Z.of_nat (nat_of_ascii c - 48).

(** The number a string of digits 0-9 writes, most significant first. *)
Fixpoint int_of_digits_acc (acc : Z) (d : string) : Z :=
  match d with
  | String c d' => int_of_digits_acc (10 * acc + digit_value c)%Z d'
  | EmptyString => acc
  end.

Definition int_of_digits (d : string) : Z := int_of_digits_acc 0%Z d.

(** The digits [int] converts: one at least, 4300 at most (the limit the
    interpreter starts with). *)
Definition convertible (d : string) : bool :=
  PyStr.all_digits d && negb (PyStr.is_empty d) && (String.length d <=? 4300)%nat.

(** [int(s)] on the text of the examples: white space around an optional
    sign and digits 0-9. *)
Definition ascii_int (s : string) : option Z :=
  match PyStr.strip s with
  | String "-" d => if convertible d then Some (- int_of_digits d)%Z else None
  | String "+" d => if convertible d then Some (int_of_digits d) else None
  | d => if convertible d then Some (int_of_digits d) else None
  end.

(** [json.loads] over a table of texts and their values; any other text is
    malformed. *)
Definition json_table (jsons : list (string * value)) (s : string) : outcome value :=
  match dict_find jsons s with
  | Some v => Ret v
  | None => Raise JSONDecodeError
  end.

(** The one kind of [href] with a double quote in the examples has it as
    its last character: pasted, it leaves a literal followed by a quote
    that opens another literal and is never closed, which lxml refuses. *)
Definition refused (root : element) (href : string) : outcome (list (option element * element)) :=
  Raise XPathEvalError.

(** A host over a fixed web: [web] maps a URL to the bytes served there,
    [docs] the bytes of a page to its tree, [jsons] the text of a script to
    its value, [wide_digit] which characters outside ASCII are decimal
    digits.  Titles and authors are used whole as search tokens; [abort]
    tells whether the flag is set. *)
Definition host_over (web : list (string * bytes)) (docs : list (bytes * element))
    (jsons : list (string * value)) (wide_digit : string -> bool) (abort : bool) : host :=
  mkHost
    (dict_find web)
    (dict_find docs)
    (json_table jsons)
    (fun _ => None)
    ascii_int
    wide_digit
    ascii_lower
    refused
    (fun title => [title])
    (fun authors => firstn 1 authors)
    (fun mi => mi)
    (fun s => s)
    (fun s => Some s)
    (fun _ => abort).

(** The host of most examples: their text has no decimal digit outside
    ASCII, and the flag is not set. *)
Definition test_host (web : list (string * bytes)) (docs : list (bytes * element))
    (jsons : list (string * value)) : host :=
  host_over web docs jsons (fun _ => false) false.

(** The Arabic-Indic digits, U+0660 to U+0669, as UTF-8. *)
Definition arabic_digit (ch : string) : bool :=
  existsb (String.eqb ch) (map (fun k => PyStr.of_codes [217; 160 + k]) (seq 0 10)).

Definition arabic_host : host := host_over [] [] [] arabic_digit false.

Definition a_href (href : string) (text : option string) (tail : option string) : element :=
  Element "a" [("href", href)] text [] tail.

Definition ld_script (src : string) : element :=
  Element "script" [("type", "application/ld+json")] (Some src) [] None.

Definition page (head_children body_children : list element) : element :=
  Element "html" []
    None
    [Element "head" [] None head_children None;
     Element "body" [] None body_children None]
    None.

(** Scenario B of the specification: no structured block, a heading and
    three author links. *)
Definition page_B : element :=
  page []
    [Element "h1" [] (Some "Война и мир") [] None;
     a_href "/author/1" (Some "Лев Толстой") None;
     a_href "/author/1" (Some "Лев Толстой") None;
     a_href "/author/2" (Some "А. Иванов") None].










(** Four author links: the first holds a picture and no text, the second
    has white space around its text, the fourth stands in a side bar. *)
Definition page_four_links : element :=
  page []
    [Element "h1" [] (Some "Война и мир") [] None;
     Element "a" [("href", "/author/1")] None
       [Element "img" [("src", "/a1.jpg")] None [] None] None;
     a_href "/author/1" (Some " Лев Толстой ") None;
     a_href "/author/2" (Some "А. Иванов") None;
     a_href "/author/9" (Some "Реклама") None].

(** Three author links: the text of the first is blank, that of the second
    is interrupted by a [b] element. *)
Definition page_split : element :=
  page []
    [Element "h1" [] (Some "Война и мир") [] None;
     a_href "/author/1" (Some "  ") None;
     Element "a" [("href", "/author/1")] (Some "Лев ")
       [Element "b" [] (Some "Николаевич") [] (Some " Толстой")] None;
     a_href "/author/2" (Some "А. Иванов") None].

(** Genre links with white space outside ASCII: a no-break space (U+00A0)
    after the text of the first, and nothing but one in the second. *)
Definition nbsp : string := PyStr.of_codes [194; 160].

Definition page_nbsp : element :=
  page []
    [a_href "/genre/2" (Some ("Роман" ++ nbsp)%string) None;
     a_href "/genre/3" (Some nbsp) None;
     a_href "/genre/1" (Some "Классика") None].


(** Scenario C of the specification, behind a series link without text (a
    cover picture). *)
Definition series_picture : element :=
  Element "a" [("href", "/series/7")] None [Element "img" [("src", "/s7.jpg")] None [] None] None.

Definition series_named : element :=
  a_href "/series/7" (Some "Обитаемый остров") (Some "#2 в серии").

Definition page_C : element :=
  page []
    [Element "h1" [] (Some "Обитаемый остров") [] None;
     a_href "/author/3" (Some "Аркадий Стругацкий") None;
     series_picture;
     series_named].

(** A page whose series link is followed by the number 0, and one where it
    is followed by a number of 4301 digits. *)
Definition page_numbered (after_link : string) : element :=
  page []
    [Element "h1" [] (Some "Обитаемый остров") [] None;
     a_href "/author/3" (Some "Аркадий Стругацкий") None;
     a_href "/series/7" (Some "Обитаемый остров") (Some after_link)].

Fixpoint ones (n : nat) : string :=
  match n with
  | O => EmptyString
  | S n' => String "1" (ones n')
  end.

(** Structured data with a rating. *)
Definition quoted (s : string) : string := (PyStr.dquote ++ s ++ PyStr.dquote)%string.

Definition ld_text (rating_value : string) : string :=
  ("{" ++ quoted "@type" ++ ": " ++ quoted "Book" ++ ", " ++
   quoted "name" ++ ": " ++ quoted "Angel" ++ ", " ++
   quoted "author" ++ ": {" ++ quoted "name" ++ ": " ++ quoted "T. Ustinova" ++ "}, " ++
   quoted "aggregateRating" ++ ": {" ++ quoted "ratingValue" ++ ": " ++ rating_value ++
   "}}")%string.

Definition ld_value (rating_value : value) : value :=
  VDict [("@type", VStr "Book");
         ("name", VStr "Angel");
         ("author", VDict [("name", VStr "T. Ustinova")]);
         ("aggregateRating", VDict [("ratingValue", rating_value)])].

Definition page_rated (rating_value : string) : element :=
  page [ld_script (ld_text rating_value)] [Element "h1" [] (Some "Angel") [] None].

(** The float 4.5 *)
Definition float_4_5 : spec_float := S754_finite false 5066549580791808 (-50).

(** The integer 10^400 *)
Definition huge : Z := (10 ^ 400)%Z.
Definition huge_text : string := PyStr.str_of_int huge.

Definition rated_host : host :=
  test_host
    [("https://www.livelib.ru/book/1", "zero");
     ("https://www.livelib.ru/book/2", "good");
     ("https://www.livelib.ru/book/3", "huge")]
    [("zero", page_rated "0");
     ("good", page_rated "4.5");
     ("huge", page_rated huge_text)]
    [(ld_text "0", ld_value (VInt 0));
     (ld_text "4.5", ld_value (VFloat float_4_5));
     (ld_text huge_text, ld_value (VInt huge))].

(** Scenario A of the specification: structured data with the title, one
    author and the rating 4.2 (the binary64 float nearest to it). *)
Definition float_4_2 : spec_float := S754_finite false 4728779608739021 (-50).
Definition float_8_4 : spec_float := S754_finite false 4728779608739021 (-49).

Definition ld_text_A : string :=
  ("{" ++ quoted "@type" ++ ": " ++ quoted "Book" ++ ", " ++
   quoted "name" ++ ": " ++ quoted "Ангел пролетел" ++ ", " ++
   quoted "author" ++ ": {" ++ quoted "name" ++ ": " ++ quoted "Татьяна Устинова" ++ "}, " ++
   quoted "aggregateRating" ++ ": {" ++ quoted "ratingValue" ++ ": 4.2}}")%string.

Definition block_A : dict :=
  [("@type", VStr "Book");
   ("name", VStr "Ангел пролетел");
   ("author", VDict [("name", VStr "Татьяна Устинова")]);
   ("aggregateRating", VDict [("ratingValue", VFloat float_4_2)])].

Definition ld_value_A : value := VDict block_A.

Definition page_A : element := page [ld_script ld_text_A] [].

Definition host_A : host :=
  test_host [("https://www.livelib.ru/book/1000464086", "page A")]
            [("page A", page_A)]
            [(ld_text_A, ld_value_A)].

(** The page of scenario A with a cover image in its structured data, and
    a host that serves the page and the image. *)
Definition ld_text_cover : string :=
  ("{" ++ quoted "@type" ++ ": " ++ quoted "Book" ++ ", " ++
   quoted "name" ++ ": " ++ quoted "Ангел пролетел" ++ ", " ++
   quoted "author" ++ ": {" ++ quoted "name" ++ ": " ++ quoted "Татьяна Устинова" ++ "}, " ++
   quoted "image" ++ ": " ++ quoted "https://img.livelib.ru/cover.jpg" ++ "}")%string.

Definition ld_value_cover : value :=
  VDict [("@type", VStr "Book");
         ("name", VStr "Ангел пролетел");
         ("author", VDict [("name", VStr "Татьяна Устинова")]);
         ("image", VStr "https://img.livelib.ru/cover.jpg")].

Definition page_cover : element := page [ld_script ld_text_cover] [].

Definition host_cover : host :=
  test_host [("https://www.livelib.ru/book/1000464086", "page with cover");
             ("https://img.livelib.ru/cover.jpg", "JPEG data")]
            [("page with cover", page_cover)]
            [(ld_text_cover, ld_value_cover)].

(** A search that finds nothing: the page served has no link. *)
Definition host_no_results : host :=
  test_host [("https://www.livelib.ru/find/books/Angel", "no results")]
            [("no results", page [] [])]
            [].

(** A search page: two results whose text holds the title; the author is
    only beside the second. *)
Definition search_page : element :=
  page []
    [Element "div" [] None [a_href "/book/11" (Some "Angel") (Some " Smith")] None;
     Element "div" [] None [a_href "/book/12" (Some "Angel") (Some " Ustinova")] None].

(** A search page with five results, none about the title. *)
Definition search_page_D : element :=
  page []
    [Element "div" [] None [a_href "/book/21" (Some "One") None] None;
     Element "div" [] None [a_href "/book/22" (Some "Two") None] None;
     Element "div" [] None [a_href "/book/23" (Some "Three") None] None;
     Element "div" [] None [a_href "/book/24" (Some "Four") None] None;
     Element "div" [] None [a_href "/book/25" (Some "Five") None] None].

Definition plain_host : host := test_host [] [] [].

(** A host whose abort flag is set. *)
Definition aborting_host : host := host_over [] [] [] (fun _ => false) true.

(** The search page with another first result, whose [href] ends in a
    double quote. *)
Definition quoted_href : string := ("/book/11" ++ PyStr.dquote)%string.

Definition search_page_quoted : element :=
  page []
    [Element "div" [] None [a_href quoted_href (Some "Other") None] None;
     Element "div" [] None [a_href "/book/12" (Some "Angel") (Some " Ustinova")] None].

End Examples.

(* ================================================================= *)
(** ** Notions the statements use *)

(** Identifier, then URL, then identifier again:
    [id_from_url(get_book_url({'livelib': i}))].  Without a URL
    [id_from_url] is handed [None], which [re.search] refuses. *)
Definition round_trip (h : host) (i : string) : outcome (option string) :=
  match get_book_url [("livelib", i)] with
  | Some url => Ret (id_from_url h url)
  | None => Raise TypeError
  end.


(** The exact value of a finite float, as a rational. *)
Definition float_value (x : spec_float) : option Q :=
  match x with
  | S754_zero _ => Some 0%Q
  | S754_finite s m e => Some (inject_Z (cond_Zopp s (Zpos m)) * 2 ^ e)%Q
  | S754_infinity _ | S754_nan => None
  end.

(** A JSON number and its exact value: an integer, or a binary64 float. *)
Definition numeric (v : value) (r : Q) : Prop :=
  match v with
  | VInt z => r = inject_Z z
  | VFloat f => valid_binary prec64 emax64 f = true /\ float_value f = Some r
  | _ => False
  end.

(** Duplicates removed, the first occurrence kept: written by recursion on
    the list, to compare the loops of the source with. *)
Fixpoint keep_first (l : list string) : list string :=
  match l with
  | [] => []
  | x :: l' => x :: filter (fun y => negb (String.eqb y x)) (keep_first l')
  end.

(** The texts a markup loop keeps: stripped, the empty ones dropped. *)
Definition stripped_nonempty (raw : list string) : list string :=
  filter (fun s => negb (PyStr.is_empty s)) (map PyStr.strip raw).

(** [x not in seen] *)
Definition absent_from (seen : list string) (x : string) : bool :=
  negb (existsb (String.eqb x) seen).

(** A link without text: its text content is blank. *)
Definition no_text (link : element) : Prop :=
  PyStr.strip (Dom.text_content link) = EmptyString.

(** What a record carries of a parsed series index: nothing for 0. *)
Definition index_kept (i : option Z) : option Z :=
  match i with
  | Some n => if (n =? 0)%Z then None else Some n
  | None => None
  end.

(** What [identify] may add to the queue: nothing, or one record. *)
Definition at_most_one_record (before after : list queue_item) : Prop :=
  after = before \/ exists mi, after = before ++ [QMetadata mi].

(** What the loop of lines 78-84 makes of one script: it returns the dict
    the script parses to when that is typed ['Book']; it goes on to the next
    script when the text is malformed or parses to something else; it is
    left by any other exception of [json.loads]. *)
Inductive script_verdict : Type :=
| Block (data : dict)
| Skipped
| Failed (e : exn).

Definition book_block (h : host) (script : string) : script_verdict :=
  match json_loads h script with
  | Ret (VDict data) =>
      match dict_get data "@type" with
      | VStr "Book" => Block data
      | _ => Skipped
      end
  | Ret _ => Skipped
  | Raise JSONDecodeError => Skipped
  | Raise e => Failed e
  end.

(** [title_tokens] and [author_tokens] of lines 287-290. *)
Definition title_tokens_of (h : host) (title : string) : string :=
  PyStr.join " " (get_title_tokens h title).

Definition author_tokens_of (h : host) (authors : option (list string)) : string :=
  match authors with
  | Some ((_ :: _) as authors) => PyStr.join " " (get_author_tokens h authors)
  | _ => EmptyString
  end.

(** The search query and the search URL of lines 287-301. *)
Definition search_query_of (h : host) (title : string) (authors : option (list string)) : string :=
  let title_tokens := PyStr.join " " (get_title_tokens h title) in
  let author_tokens :=
    match authors with
    | Some ((_ :: _) as authors) => PyStr.join " " (get_author_tokens h authors)
    | _ => EmptyString
    end in
  if negb (PyStr.is_empty author_tokens)
  then (title_tokens ++ " " ++ author_tokens)%string
  else title_tokens.

Definition search_url_of (h : host) (title : string) (authors : option (list string)) : string :=
  (BASE_URL ++ "/find/books/" ++ quote h (search_query_of h title authors))%string.

(** The state after one more request. *)
Definition requested (url : string) (w : world) : world :=
  mkWorld (requests w ++ [url]) (result_queue w) (cover_urls w) (polls w).

(** What [download_cover] may add to the queue: nothing, or one cover. *)
Definition at_most_one_cover (before after : list queue_item) : Prop :=
  after = before \/
  exists data, data <> EmptyString /\ after = before ++ [QCover data].

(** Induction on a document tree: a property that holds of an element
    whenever it holds of its children holds of every element. *)
Fixpoint element_induction (P : element -> Prop)
    (step : forall t a tx cs tl, Forall P cs -> P (Element t a tx cs tl))
    (e : element) : P e :=
  match e with
  | Element t a tx cs tl =>
      step t a tx cs tl
        ((fix go (l : list element) : Forall P l :=
            match l with
            | [] => Forall_nil P
            | c :: l' => Forall_cons c (element_induction P step c) (go l')
            end) cs)
  end.

(** The item a fetched cover gives: nothing for no data. *)
Definition cover_items (h : host) (url : string) : list queue_item :=
  match open_novisit h url with
  | Some (String c d) => [QCover (String c d)]
  | _ => []
  end.

(** What the scan decides for a candidate [href]: the loop body's verdict
    on the first link with that [href] and on its parent. *)
Definition candidate_accepted (h : host) (root : element) (title_lower author_lower href : string) : bool :=
  match Dom.links_with_href (xpath_pasted h) root href with
  | Ret ((parent, link) :: _) => accepts h title_lower author_lower parent link
  | _ => false
  end.

(** The text of a candidate holds the title, or the title holds it. *)
Definition candidate_title_matches (h : host) (root : element) (title_lower href : string) : bool :=
  match Dom.links_with_href (xpath_pasted h) root href with
  | Ret ((_, link) :: _) => title_matches h title_lower link
  | _ => false
  end.

(** The block around a candidate holds the author. *)
Definition candidate_author_matches (h : host) (root : element) (author_lower href : string) : bool :=
  match Dom.links_with_href (xpath_pasted h) root href with
  | Ret ((parent, _) :: _) => author_matches h author_lower parent
  | _ => false
  end.

(** No [href] of the list holds a double quote. *)
Definition plain_hrefs (hrefs : list string) : Prop :=
  forall href, In href hrefs -> PyStr.contains PyStr.dquote href = false.

(** The abort flag is never seen set. *)
Definition never_aborted (h : host) : Prop := forall n, abort_is_set h n = false.

(** The texts that stand directly inside the elements [p] holds of: their
    text node children, in document order.  Text inside an element nested
    in them is not among these. *)
Definition texts_directly_in (p : element -> bool) (root : element) : list string :=
  map snd (filter (fun n => p (fst n)) (Dom.text_nodes root)).

(** An element with the tag [tg]. *)
Definition tagged (tg : string) (e : element) : bool := String.eqb (Dom.tag e) tg.

(** A link whose [href] holds [part]. *)
Definition link_to (part : string) (e : element) : bool :=
  tagged "a" e && PyStr.contains part (Dom.attr_string e "href").

(** A link to a series or to a publisher's series. *)
Definition series_link (e : element) : bool :=
  link_to "/series/" e || link_to "/pubseries/" e.

(** The elements [p] holds of, in document order. *)
Definition elements_where (p : element -> bool) (root : element) : list element :=
  filter p (Dom.elements root).

(** A run of decimal digits: digits 0-9 and characters the interpreter
    holds to be decimal digits ([wide]), one after the other. *)
Inductive digit_run (wide : string -> bool) : string -> Prop :=
| run_end : digit_run wide EmptyString
| run_ascii (c : ascii) (d : string) :
    PyStr.isdigit c = true -> digit_run wide d -> digit_run wide (String c d)
| run_wide (ch d : string) :
    ch <> EmptyString -> wide ch = true -> digit_run wide d -> digit_run wide (ch ++ d)%string.

(** The lower-cased queries of lines 327-328. *)
Definition title_lower_of (h : host) (title_tokens : string) : string := lower h title_tokens.

Definition author_lower_of (h : host) (author_tokens : string) : string :=
  if negb (PyStr.is_empty author_tokens) then lower h author_tokens else EmptyString.

(* ================================================================= *)
(** ** Strings: facts about the helpers *)

Lemma take_length (n : nat) (s : string) :
  PyStr.take (String.length (PyStr.take n s)) s = PyStr.take n s.
Proof.
  revert s. induction n as [|n IH]; intros [|c s]; cbn; try reflexivity.
  now rewrite IH.
Qed.

Lemma drop_length (n : nat) (s : string) :
  String.length (PyStr.drop n s) <= String.length s.
Proof.
  revert s. induction n as [|n IH]; intros [|c s]; cbn; try lia.
  specialize (IH s). lia.
Qed.

Lemma take_digits_from_skip (wide : string -> bool) (k : nat) (s : string) :
  PyStr.take_digits_from wide k s =
  (PyStr.take k s ++ PyStr.take_digits wide (PyStr.drop k s))%string.
Proof.
  revert k. induction s as [|c s IH]; intros [|k]; try reflexivity.
  cbn [PyStr.take_digits_from PyStr.take PyStr.drop]. rewrite IH. reflexivity.
Qed.

(** The run of digits at the head of a text, digit by digit. *)
Lemma take_digits_step (wide : string -> bool) (s : string) :
  PyStr.take_digits wide s =
  match PyStr.digit_len wide s with
  | O => EmptyString
  | S k => (PyStr.take (S k) s ++ PyStr.take_digits wide (PyStr.drop (S k) s))%string
  end.
Proof.
  destruct s as [|c s]; [reflexivity|].
  unfold PyStr.take_digits at 1. cbn [PyStr.take_digits_from].
  destruct (PyStr.digit_len wide (String c s)) as [|k]; [reflexivity|].
  rewrite take_digits_from_skip. reflexivity.
Qed.

Lemma take_digits_none (wide : string -> bool) (s : string) :
  PyStr.take_digits wide s = EmptyString <-> PyStr.digit_len wide s = 0.
Proof.
  rewrite take_digits_step. destruct (PyStr.digit_len wide s) as [|k] eqn:Hd; [tauto|].
  split; [|discriminate]. destruct s as [|c s]; [discriminate Hd | discriminate].
Qed.

Lemma take_digits_all (wide : string -> bool) (s : string) :
  PyStr.all_digits s = true -> PyStr.take_digits wide s = s.
Proof.
  induction s as [|c s IH]; cbn; intros H; [reflexivity|].
  apply andb_true_iff in H as [Hc Hs].
  unfold PyStr.take_digits. cbn. rewrite Hc. f_equal. now apply IH.
Qed.

Lemma take_digits_from_split (wide : string -> bool) (k : nat) (t : string) :
  exists rest, t = (PyStr.take_digits_from wide k t ++ rest)%string /\
               PyStr.digit_len wide rest = 0.
Proof.
  revert k. induction t as [|c t IH]; intros k.
  - exists EmptyString. destruct k; now split.
  - destruct k as [|k]; cbn [PyStr.take_digits_from].
    + destruct (PyStr.digit_len wide (String c t)) as [|k] eqn:Hd.
      * exists (String c t). now split.
      * destruct (IH k) as (rest & Ht & Hr). exists rest. cbn. now rewrite <- Ht.
    + destruct (IH k) as (rest & Ht & Hr). exists rest. cbn. now rewrite <- Ht.
Qed.

(** What is taken is a run of digits, and what is left does not go on with
    one. *)
Lemma take_digits_split (wide : string -> bool) (t : string) :
  exists rest, t = (PyStr.take_digits wide t ++ rest)%string /\
               PyStr.digit_len wide rest = 0.
Proof. apply take_digits_from_split. Qed.

Lemma head_char_nonempty (c : ascii) (s : string) :
  PyStr.head_char (String c s) <> EmptyString.
Proof.
  unfold PyStr.head_char, PyStr.utf8_len.
  destruct (nat_of_ascii c <? 192)%nat; [discriminate|].
  destruct (nat_of_ascii c <? 224)%nat; [discriminate|].
  destruct (nat_of_ascii c <? 240)%nat; discriminate.
Qed.

Lemma take_digits_run (wide : string -> bool) (s : string) :
  digit_run wide (PyStr.take_digits wide s).
Proof.
  remember (String.length s) as n eqn:Hn.
  assert (Hle : String.length s <= n) by lia. clear Hn.
  revert s Hle. induction n as [|n IH]; intros s Hle.
  - destruct s; [constructor | cbn in Hle; lia].
  - rewrite take_digits_step.
    destruct (PyStr.digit_len wide s) as [|k] eqn:Hd; [constructor|].
    destruct s as [|c s]; [discriminate|].
    assert (Hrest : digit_run wide (PyStr.take_digits wide (PyStr.drop (S k) (String c s)))).
    { apply IH. cbn [PyStr.drop]. pose proof (drop_length k s). cbn in Hle. lia. }
    unfold PyStr.digit_len in Hd.
    destruct (PyStr.isdigit c) eqn:Hc.
    + injection Hd as <-. cbn. now constructor.
    + destruct (nat_of_ascii c <? 128)%nat; [discriminate|].
      destruct (wide (PyStr.head_char (String c s))) eqn:Hw; [|discriminate].
      rewrite <- Hd. unfold PyStr.head_char at 1 2. rewrite take_length.
      fold (PyStr.head_char (String c s)).
      apply run_wide; [apply head_char_nonempty | exact Hw |].
      rewrite Hd. exact Hrest.
Qed.

Lemma contains_nonempty (needle hay : string) :
  needle <> EmptyString -> PyStr.contains needle hay = true -> hay <> EmptyString.
Proof.
  intros Hn Hc ->. simpl in Hc.
  destruct needle; [now apply Hn | discriminate].
Qed.

(* ================================================================= *)
(** ** The pattern [lit(\d+)] *)

Lemma prefix_split (lit s : string) :
  prefix lit s = true -> s = (lit ++ PyStr.drop (String.length lit) s)%string.
Proof.
  revert s. induction lit as [|a lit IH]; intros s H; cbn.
  - now destruct s.
  - destruct s as [|b s]; cbn in H; [discriminate|].
    destruct (Ascii.ascii_dec a b) as [->|]; [|discriminate].
    cbn. f_equal. now apply IH.
Qed.

Lemma prefix_append (lit s : string) : prefix lit (lit ++ s) = true.
Proof.
  induction lit as [|a lit IH]; cbn; [now destruct s|].
  destruct (Ascii.ascii_dec a a) as [_|N]; [exact IH | now elim N].
Qed.

Lemma drop_append (lit s : string) : PyStr.drop (String.length lit) (lit ++ s) = s.
Proof. induction lit as [|a lit IH]; cbn; [now destruct s | exact IH]. Qed.

(** A match at the head of the text. *)
Lemma match_here (wide : string -> bool) (lit s d : string) :
  PyStr.match_lit_digits wide lit s = Some d ->
  exists post, s = (lit ++ d ++ post)%string /\ d <> EmptyString /\
               PyStr.take_digits wide (d ++ post) = d /\
               PyStr.digit_len wide post = 0.
Proof.
  unfold PyStr.match_lit_digits.
  destruct (prefix lit s) eqn:Hp; [|discriminate].
  apply prefix_split in Hp.
  destruct (take_digits_split wide (PyStr.drop (String.length lit) s)) as (post & Hs & Hpost).
  destruct (PyStr.take_digits wide (PyStr.drop (String.length lit) s)) as [|c d'] eqn:Ht;
    [discriminate|].
  intros H. injection H as <-. exists post.
  split; [now rewrite <- Hs|]. split; [discriminate|]. split; [|exact Hpost].
  now rewrite <- Hs.
Qed.

(** No match at the head of the text: [lit], when it stands there, is not
    followed by a digit. *)
Lemma no_match_here (wide : string -> bool) (lit s : string) :
  PyStr.match_lit_digits wide lit s = None <->
  (forall post, s = (lit ++ post)%string -> PyStr.digit_len wide post = 0).
Proof.
  unfold PyStr.match_lit_digits. split.
  - intros H post ->. rewrite prefix_append, drop_append in H.
    apply take_digits_none. destruct (PyStr.take_digits wide post); [reflexivity | discriminate].
  - intros H. destruct (prefix lit s) eqn:Hp; [|reflexivity].
    apply prefix_split in Hp. apply H, take_digits_none in Hp. now rewrite Hp.
Qed.

(** A match found: the text is [pre ++ lit ++ d ++ post], where [d] is the
    whole run of digits at that place, not empty, and no occurrence of
    [lit] further left is followed by a digit. *)
Lemma re_search_found (wide : string -> bool) (lit s d : string) :
  PyStr.re_search_lit_digits wide lit s = Some d ->
  exists pre post, s = (pre ++ lit ++ d ++ post)%string /\ d <> EmptyString /\
                   PyStr.take_digits wide (d ++ post) = d /\
                   PyStr.digit_len wide post = 0 /\
                   (forall p1 p2, s = (p1 ++ lit ++ p2)%string ->
                                  String.length p1 < String.length pre ->
                                  PyStr.digit_len wide p2 = 0).
Proof.
  assert (here : forall s0, PyStr.match_lit_digits wide lit s0 = Some d ->
            exists pre post, s0 = (pre ++ lit ++ d ++ post)%string /\ d <> EmptyString /\
                   PyStr.take_digits wide (d ++ post) = d /\
                   PyStr.digit_len wide post = 0 /\
                   (forall p1 p2, s0 = (p1 ++ lit ++ p2)%string ->
                                  String.length p1 < String.length pre ->
                                  PyStr.digit_len wide p2 = 0)).
  { intros s0 Hm. destruct (match_here _ _ _ _ Hm) as (post & Hs & Hne & Ht & Hp).
    exists EmptyString, post. repeat split; try assumption.
    intros p1 p2 _ Hlt. cbn in Hlt. lia. }
  induction s as [|a s IH]; cbn.
  - destruct (PyStr.match_lit_digits wide lit "") eqn:Hm; [|discriminate].
    intros H. injection H as ->. now apply here.
  - destruct (PyStr.match_lit_digits wide lit (String a s)) eqn:Hm.
    + intros H. injection H as ->. now apply here.
    + intros H. destruct (IH H) as (pre & post & Hs & Hne & Ht & Hp & Hleft).
      exists (String a pre), post. cbn. rewrite <- Hs.
      repeat split; try assumption.
      intros [|b p1] p2 E Hlt.
      * cbn in E. now apply (proj1 (no_match_here wide lit (String a s)) Hm).
      * cbn in E. injection E as _ E. apply (Hleft p1 p2 E). cbn in Hlt. lia.
Qed.

(** No match: nowhere in the text is [lit] followed by a digit. *)
Lemma re_search_absent (wide : string -> bool) (lit s : string) :
  PyStr.re_search_lit_digits wide lit s = None <->
  (forall pre post, s = (pre ++ lit ++ post)%string -> PyStr.digit_len wide post = 0).
Proof.
  induction s as [|a s IH]; cbn.
  - destruct (PyStr.match_lit_digits wide lit "") as [d|] eqn:Hm.
    + split; [discriminate|]. intros H.
      destruct (match_here _ _ _ _ Hm) as (post & Hs & Hne & Ht & _).
      specialize (H EmptyString (d ++ post)%string Hs).
      apply take_digits_none in H. rewrite Ht in H. now elim Hne.
    + split; [|reflexivity]. intros _ pre post E.
      destruct pre; [|discriminate]. now apply (proj1 (no_match_here wide lit "") Hm).
  - destruct (PyStr.match_lit_digits wide lit (String a s)) as [d|] eqn:Hm.
    + split; [discriminate|]. intros H.
      destruct (match_here _ _ _ _ Hm) as (post & Hs & Hne & Ht & _).
      specialize (H EmptyString (d ++ post)%string Hs).
      apply take_digits_none in H. rewrite Ht in H. now elim Hne.
    + rewrite IH. split.
      * intros H [|b pre] post E.
        -- now apply (proj1 (no_match_here wide lit (String a s)) Hm).
        -- cbn in E. injection E as _ E. now apply (H pre post).
      * intros H pre post ->. now apply (H (String a pre) post).
Qed.

Lemma take_all (n : nat) (s : string) : String.length s <= n -> PyStr.take n s = s.
Proof.
  revert s. induction n as [|n IH]; intros [|c s] H; cbn in *; try reflexivity; try lia.
  rewrite IH; [reflexivity | lia].
Qed.

Lemma drop_all (s : string) : PyStr.drop (String.length s) s = EmptyString.
Proof. induction s as [|c s IH]; cbn; [reflexivity | exact IH]. Qed.

Lemma take_take_append (n : nat) (s x : string) :
  (String.length s < n -> x = EmptyString) ->
  PyStr.take n (PyStr.take n s ++ x) = PyStr.take n s.
Proof.
  revert s. induction n as [|n IH]; intros s H; [reflexivity|].
  destruct s as [|c s].
  - cbn in *. rewrite H by lia. reflexivity.
  - cbn. rewrite IH; [reflexivity|]. intros Hl. apply H. cbn. lia.
Qed.

Lemma take_append (a x : string) : PyStr.take (String.length a) (a ++ x) = a.
Proof. induction a as [|c a IH]; cbn; [now destruct x | now rewrite IH]. Qed.

(** The digit at the head of a text is the digit at the head of the run of
    digits the text begins with. *)
Lemma digit_len_run (wide : string -> bool) (s : string) (k : nat) :
  PyStr.digit_len wide s = S k ->
  let a := PyStr.take (S k) s in
  let r := PyStr.take_digits wide (PyStr.drop (S k) s) in
  String.length a = S k /\
  PyStr.digit_len wide (a ++ r) = S k /\
  PyStr.take (S k) (a ++ r) = a /\ PyStr.drop (S k) (a ++ r) = r.
Proof.
  intros Hd. cbn zeta. destruct s as [|c s]; [discriminate|].
  unfold PyStr.digit_len in Hd.
  destruct (PyStr.isdigit c) eqn:Hc.
  - injection Hd as <-. cbn. rewrite Hc. repeat split; now destruct (PyStr.take_digits wide s).
  - destruct (nat_of_ascii c <? 128)%nat eqn:Ha; [discriminate|].
    destruct (wide (PyStr.head_char (String c s))) eqn:Hw; [|discriminate].
    set (n := PyStr.utf8_len c) in *.
    assert (Hh : PyStr.head_char (String c s) = PyStr.take n (String c s)) by reflexivity.
    rewrite Hh in Hd, Hw.
    assert (Ha' : PyStr.take (S k) (String c s) = PyStr.take n (String c s)).
    { rewrite <- Hd. apply take_length. }
    rewrite Ha'.
    assert (Hx : String.length (String c s) < n ->
                 PyStr.take_digits wide (PyStr.drop (S k) (String c s)) = EmptyString).
    { intros Hl. rewrite <- Hd, take_all by lia. now rewrite drop_all. }
    set (r := PyStr.take_digits wide (PyStr.drop (S k) (String c s))) in *.
    assert (Hn : exists n', n = S n').
    { unfold n, PyStr.utf8_len.
      destruct (nat_of_ascii c <? 192)%nat; [now eexists|].
      destruct (nat_of_ascii c <? 224)%nat; [now eexists|].
      destruct (nat_of_ascii c <? 240)%nat; now eexists. }
    destruct Hn as (n' & Hn).
    assert (Hhead : PyStr.head_char (PyStr.take n (String c s) ++ r) = PyStr.take n (String c s)).
    { assert (Et : PyStr.take n (String c s) = String c (PyStr.take n' s))
        by (rewrite Hn; reflexivity).
      transitivity (PyStr.take n (PyStr.take n (String c s) ++ r)).
      - rewrite Et. reflexivity.
      - now apply take_take_append. }
    split; [exact Hd|]. split; [|split].
    + assert (E : exists rest, (PyStr.take n (String c s) ++ r)%string = String c rest).
      { rewrite Hn. cbn. now eexists. }
      destruct E as (rest & E). unfold PyStr.digit_len.
      rewrite E at 1. rewrite Hc, Ha, Hhead, Hw. exact Hd.
    + rewrite <- Hd. apply take_append.
    + rewrite <- Hd. apply drop_append.
Qed.

Lemma take_digits_idem (wide : string -> bool) (s : string) :
  PyStr.take_digits wide (PyStr.take_digits wide s) = PyStr.take_digits wide s.
Proof.
  remember (String.length s) as n eqn:Hn.
  assert (Hle : String.length s <= n) by lia. clear Hn.
  revert s Hle. induction n as [|n IH]; intros s Hle.
  - destruct s; [reflexivity | cbn in Hle; lia].
  - rewrite (take_digits_step wide s).
    destruct (PyStr.digit_len wide s) as [|k] eqn:Hd; [reflexivity|].
    destruct (digit_len_run wide s k Hd) as (Hl & Hd' & Ht & Hdr).
    rewrite take_digits_step, Hd', Ht, Hdr. f_equal.
    apply IH. destruct s as [|c s]; [discriminate|]. cbn [PyStr.drop].
    pose proof (drop_length k s). cbn in Hle. lia.
Qed.

(* ================================================================= *)
(** ** Identifier and URL *)

(** The canonical URL of a run of digits gives the run back. *)
Lemma id_from_run_url (h : host) (i : string) :
  i <> EmptyString -> PyStr.take_digits (isdecimal h) i = i ->
  id_from_url h (BASE_URL ++ "/book/" ++ i)%string = Some i.
Proof.
  intros Hne Hd.
  unfold id_from_url, BASE_URL. cbn.
  unfold PyStr.match_lit_digits. cbn.
  change (PyStr.take_digits_from (isdecimal h) 0 i) with (PyStr.take_digits (isdecimal h) i).
  rewrite Hd.
  destruct i; [now elim Hne | reflexivity].
Qed.

Lemma id_from_book_url (h : host) (i : string) :
  i <> EmptyString -> PyStr.all_digits i = true ->
  id_from_url h (BASE_URL ++ "/book/" ++ i)%string = Some i.
Proof.
  intros Hne Hd. apply id_from_run_url; [exact Hne | now apply take_digits_all].
Qed.

(** C9, as amended: for every non-empty identifier made of the digits 0-9
    only, the identifier comes back from its canonical URL:
    [id_from_url(get_book_url({'livelib': i})) = i]. *)
Theorem round_trip_digits (h : host) (i : string) :
  i <> EmptyString -> PyStr.all_digits i = true ->
  get_book_url [("livelib", i)] = Some (BASE_URL ++ "/book/" ++ i)%string /\
  round_trip h i = Ret (Some i).
Proof.
  intros Hne Hd.
  assert (Hurl : get_book_url [("livelib", i)] = Some (BASE_URL ++ "/book/" ++ i)%string).
  { unfold get_book_url. cbn. destruct i; [now elim Hne | reflexivity]. }
  split; [exact Hurl|].
  unfold round_trip. rewrite Hurl. f_equal. now apply id_from_book_url.
Qed.

Lemma round_trip_digits_witness :
  get_book_url [("livelib", "1000464086")] = Some "https://www.livelib.ru/book/1000464086" /\
  round_trip Examples.plain_host "1000464086" = Ret (Some "1000464086").
Proof.
  apply (round_trip_digits Examples.plain_host "1000464086"); [discriminate | reflexivity].
Defined.

(** C9 as stated fails: the identifier of a page of the site, with the
    slug the site appends to the number, does not come back. *)
Lemma round_trip_slug :
  round_trip Examples.plain_host "1000464086-angel-proletel" = Ret (Some "1000464086").
Proof. reflexivity. Qed.

(* ================================================================= *)
(** ** Covers *)

(** C10: without a ['livelib'] identifier [download_cover] opens no URL,
    puts nothing into the queue and leaves the state as it was, whatever
    the title and the authors. *)
Theorem download_cover_needs_id (h : host) (title : option string)
    (authors : option (list string)) (identifiers : option (list (string * string)))
    (w : world) :
  dict_find (or_empty identifiers) "livelib" = None ->
  download_cover h title authors identifiers w = (Ret tt, w) /\
  requests (snd (download_cover h title authors identifiers w)) = requests w /\
  result_queue (snd (download_cover h title authors identifiers w)) = result_queue w.
Proof.
  intros Hid.
  assert (E : download_cover h title authors identifiers w = (Ret tt, w)).
  { unfold download_cover. rewrite Hid. reflexivity. }
  rewrite E. auto.
Qed.

Lemma download_cover_needs_id_witness :
  download_cover Examples.rated_host (Some "Angel") (Some ["T. Ustinova"])
    (Some [("isbn", "9785699123456")]) empty_world = (Ret tt, empty_world).
Proof.
  apply (download_cover_needs_id Examples.rated_host (Some "Angel") (Some ["T. Ustinova"])
           (Some [("isbn", "9785699123456")]) empty_world).
  reflexivity.
Defined.

(* ================================================================= *)
(** ** The extraction core *)

Lemma extract_record (h : host) (book_url : string) (root : element)
    (mi : Metadata) (c : option (string * value)) :
  extract h book_url root = Ret (Some (mi, c)) ->
  exists f, resolve_fields h root = Ret f /\ missing_required f = false /\
            mi = build_metadata h (id_from_url h book_url) f.
Proof.
  unfold extract. destruct (resolve_fields h root) as [f|e]; [|discriminate].
  destruct (missing_required f) eqn:Hm; [discriminate|].
  intros H. injection H as <- _. now exists f.
Qed.

Lemma resolve_fields_parts (h : host) (root : element) (f : fields) :
  resolve_fields h root = Ret f ->
  exists json_ld,
    _extract_json_ld h root = Ret json_ld /\
    title f = resolve_title json_ld root /\
    authors f = resolve_authors json_ld root /\
    genres f = resolve_genres json_ld root /\
    resolve_series h root = Ret (series f, series_index f) /\
    rating_from_json_ld h json_ld = Ret (rating f) /\
    cover_url f = field_from_json_ld "image" json_ld.
Proof.
  unfold resolve_fields.
  destruct (_extract_json_ld h root) as [json_ld|e]; [|discriminate].
  destruct (rating_from_json_ld h json_ld) as [r|e] eqn:Hr; [|discriminate].
  destruct (resolve_series h root) as [[name index]|e]; [|discriminate].
  intros H. injection H as <-. exists json_ld. cbn. rewrite Hr. repeat split; reflexivity.
Qed.




(** C6 fails on the code: a rating that is an integer too large for a
    float makes [float] raise [OverflowError], which the handler of lines
    160-161 does not catch; it leaves [parse_book_page] and [identify]. *)
Theorem identify_lets_overflow_through :
  identify Examples.rated_host None None (Some [("livelib", "3")]) empty_world =
  (Raise OverflowError, mkWorld ["https://www.livelib.ru/book/3"] [] [] 0).
Proof. vm_compute. reflexivity. Qed.

(* ================================================================= *)
(** ** The markup loops: strip, drop the empty, keep the first of equals *)

Lemma filter_ext_in' {A : Type} (p q : A -> bool) (l : list A) :
  (forall x, In x l -> p x = q x) -> filter p l = filter q l.
Proof.
  induction l as [|a l IH]; intros H; cbn; [reflexivity|].
  rewrite (H a (or_introl eq_refl)), IH; [reflexivity|].
  intros x Hx. apply H. now right.
Qed.

Lemma filter_twice {A : Type} (p q : A -> bool) (l : list A) :
  filter p (filter q l) = filter (fun x => q x && p x) l.
Proof.
  induction l as [|a l IH]; cbn; [reflexivity|].
  destruct (q a); cbn; [destruct (p a)|]; now rewrite IH.
Qed.

Lemma absent_from_snoc (seen : list string) (item x : string) :
  absent_from (seen ++ [item]) x = negb (String.eqb x item) && absent_from seen x.
Proof.
  unfold absent_from. rewrite existsb_app. cbn. rewrite orb_false_r.
  rewrite negb_orb. apply andb_comm.
Qed.

Lemma fold_append_new (raw seen : list string) :
  fold_left append_new raw seen =
  seen ++ filter (absent_from seen) (keep_first (stripped_nonempty raw)).
Proof.
  revert seen. induction raw as [|r raw IH]; intros seen; cbn.
  - now rewrite app_nil_r.
  - rewrite IH. unfold append_new, stripped_nonempty. cbn.
    destruct (PyStr.is_empty (PyStr.strip r)) eqn:He; cbn; [reflexivity|].
    fold (absent_from seen (PyStr.strip r)).
    fold (stripped_nonempty raw).
    destruct (absent_from seen (PyStr.strip r)) eqn:Hs; cbn.
    + rewrite <- app_assoc. cbn. do 2 f_equal.
      rewrite filter_twice. apply filter_ext_in'. intros x _.
      apply absent_from_snoc.
    + f_equal. rewrite filter_twice. apply filter_ext_in'. intros x _.
      destruct (String.eqb x (PyStr.strip r)) eqn:Hx; cbn; [|reflexivity].
      apply String.eqb_eq in Hx. subst x. exact Hs.
Qed.

Lemma append_new_loop (raw : list string) :
  fold_left append_new raw [] = keep_first (stripped_nonempty raw).
Proof.
  rewrite fold_append_new. cbn.
  induction (keep_first (stripped_nonempty raw)) as [|x l IH]; cbn; [reflexivity|].
  now rewrite IH.
Qed.

Lemma keep_first_in (l : list string) (x : string) :
  In x (keep_first l) <-> In x l.
Proof.
  induction l as [|a l IH]; cbn; [tauto|].
  rewrite filter_In, IH. split.
  - intros [H | [H _]]; auto.
  - intros [H | H]; auto.
    destruct (String.eqb x a) eqn:E.
    + apply String.eqb_eq in E. auto.
    + right. split; [exact H | reflexivity].
Qed.

Lemma keep_first_nodup (l : list string) : NoDup (keep_first l).
Proof.
  induction l as [|a l IH]; cbn; constructor.
  - rewrite filter_In. intros [_ H]. now rewrite String.eqb_refl in H.
  - now apply NoDup_filter.
Qed.

Lemma keep_first_length (l : list string) :
  List.length (keep_first l) <= List.length l.
Proof.
  induction l as [|a l IH]; cbn; [lia|].
  pose proof (filter_length_le (fun y => negb (String.eqb y a)) (keep_first l)). lia.
Qed.

Lemma stripped_nonempty_length (l : list string) :
  List.length (stripped_nonempty l) <= List.length l.
Proof.
  unfold stripped_nonempty.
  pose proof (filter_length_le (fun s => negb (PyStr.is_empty s)) (map PyStr.strip l)) as H.
  now rewrite length_map in H.
Qed.

Lemma stripped_nonempty_in (l : list string) (x : string) :
  In x (stripped_nonempty l) <->
  x <> EmptyString /\ exists raw, In raw l /\ x = PyStr.strip raw.
Proof.
  unfold stripped_nonempty. rewrite filter_In, in_map_iff. split.
  - intros [(raw & <- & Hin) He]. split.
    + intros E. rewrite E in He. discriminate.
    + now exists raw.
  - intros [Hne (raw & Hin & ->)]. split.
    + now exists raw.
    + destruct (PyStr.strip raw); [now elim Hne | reflexivity].
Qed.

(* ================================================================= *)
(** ** Authors from the markup *)

Lemma authors_from_html_spec (root : element) :
  authors_from_html root =
  keep_first (stripped_nonempty (firstn 3 (Dom.author_link_texts root))).
Proof. apply append_new_loop. Qed.

Lemma genres_from_html_spec (root : element) :
  genres_from_html root = keep_first (stripped_nonempty (Dom.genre_link_texts root)).
Proof. apply append_new_loop. Qed.

Lemma VStr_injective : Finite.Injective VStr.
Proof. intros x y H. now injection H. Qed.


Lemma author_link_texts_direct (root : element) :
  Dom.author_link_texts root = texts_directly_in (link_to "/author/") root.
Proof. reflexivity. Qed.

Lemma genre_link_texts_direct (root : element) :
  Dom.genre_link_texts root = texts_directly_in (link_to "/genre/") root.
Proof. reflexivity. Qed.

Lemma authors_from_markup (json_ld : option dict) (root : element) :
  authors_from_json_ld json_ld = [] ->
  resolve_authors json_ld root =
  map VStr (keep_first (stripped_nonempty
                          (firstn 3 (texts_directly_in (link_to "/author/") root)))).
Proof.
  intros Hld. unfold resolve_authors, authors_fallback. rewrite Hld.
  now rewrite authors_from_html_spec, author_link_texts_direct.
Qed.

Lemma genres_from_links (json_ld : option dict) (root : element) :
  genres_from_json_ld json_ld = [] ->
  resolve_genres json_ld root =
  map VStr (keep_first (stripped_nonempty (texts_directly_in (link_to "/genre/") root))).
Proof.
  intros Hld. unfold resolve_genres, genres_fallback. rewrite Hld.
  now rewrite genres_from_html_spec, genre_link_texts_direct.
Qed.

(** C7, as amended: without structured author data the authors are read
    from the first three text nodes, at most, that stand directly inside
    author links (links to [/author/]) -- not from the first three links: a
    link has as many such text nodes as its own text is cut into by inner
    elements, none when it has no text of its own.  These texts are
    stripped, the empty ones dropped, and each kept once in the order of
    its first appearance; the three links of scenario B give two authors. *)
Theorem authors_from_first_three_links (json_ld : option dict) (root : element) :
  authors_from_json_ld json_ld = [] ->
  resolve_authors json_ld root =
    map VStr (keep_first (stripped_nonempty
                            (firstn 3 (texts_directly_in (link_to "/author/") root)))) /\
  List.length (resolve_authors json_ld root) <= 3 /\
  NoDup (resolve_authors json_ld root) /\
  (forall a, In (VStr a) (resolve_authors json_ld root) <->
             a <> EmptyString /\
             exists raw, In raw (firstn 3 (texts_directly_in (link_to "/author/") root)) /\
                         a = PyStr.strip raw) /\
  (texts_directly_in (link_to "/author/") Examples.page_B =
     ["Лев Толстой"; "Лев Толстой"; "А. Иванов"] /\
   resolve_authors None Examples.page_B = [VStr "Лев Толстой"; VStr "А. Иванов"]).
Proof.
  intros Hld. rewrite (authors_from_markup json_ld root Hld).
  set (texts := firstn 3 (texts_directly_in (link_to "/author/") root)).
  split; [reflexivity|]. split; [|split; [|split]].
  - rewrite length_map.
    pose proof (keep_first_length (stripped_nonempty texts)).
    pose proof (stripped_nonempty_length texts).
    pose proof (firstn_le_length 3 (texts_directly_in (link_to "/author/") root)).
    fold texts in H1. lia.
  - apply Finite.Injective_map_NoDup; [exact VStr_injective | apply keep_first_nodup].
  - intros a. rewrite in_map_iff. split.
    + intros (x & Hx & Hin). injection Hx as ->.
      now apply stripped_nonempty_in, keep_first_in.
    + intros H. exists a. split; [reflexivity|].
      now apply keep_first_in, stripped_nonempty_in.
  - split; vm_compute; reflexivity.
Qed.

Lemma authors_from_first_three_links_witness :
  resolve_authors None Examples.page_four_links =
  map VStr (keep_first (stripped_nonempty
                          (firstn 3 (texts_directly_in (link_to "/author/")
                                       Examples.page_four_links)))).
Proof.
  exact (proj1 (authors_from_first_three_links None Examples.page_four_links eq_refl)).
Defined.

(** C7 as stated fails.  On the first page there are four author links;
    the first has no text of its own, and the text of the fourth is among
    the authors (stripped, like the others).  On the second page the first
    three text nodes come from two links: the blank text of the first is
    dropped, the text of the second, cut in two by an inner element, gives
    two authors, and the third link is not read. *)
Lemma authors_not_from_first_three_links :
  map Dom.text_content (elements_where (link_to "/author/") Examples.page_four_links) =
    [""; " Лев Толстой "; "А. Иванов"; "Реклама"] /\
  resolve_authors None Examples.page_four_links =
    [VStr "Лев Толстой"; VStr "А. Иванов"; VStr "Реклама"] /\
  map Dom.text_content (elements_where (link_to "/author/") Examples.page_split) =
    ["  "; "Лев Николаевич Толстой"; "А. Иванов"] /\
  resolve_authors None Examples.page_split = [VStr "Лев"; VStr "Толстой"].
Proof. repeat split; vm_compute; reflexivity. Qed.

(* ================================================================= *)
(** ** The fallback from structured data to markup *)








(* ================================================================= *)
(** ** The series *)

Lemma series_link_elems_where (root : element) :
  Dom.series_link_elems root = elements_where series_link root.
Proof.
  unfold Dom.series_link_elems, Dom.xpath_elems, elements_where, series_link, link_to, tagged.
  apply filter_ext_in'. intros e _. unfold Dom.href_contains.
  apply andb_orb_distrib_r.
Qed.

Lemma series_from_links_named (h : host) (links : list element) (name : string)
    (index : option Z) :
  series_from_links h links = Ret (Some name, index) ->
  exists before link after,
    links = before ++ link :: after /\ Forall no_text before /\
    PyStr.strip (Dom.text_content link) = name /\ name <> EmptyString /\
    series_index_of h link = Ret index.
Proof.
  induction links as [|l links IH]; cbn; [discriminate|].
  destruct (PyStr.strip (Dom.text_content l)) as [|ch s] eqn:Ht; cbn.
  - intros H. destruct (IH H) as (before & link & after & -> & Hb & Hrest).
    exists (l :: before), link, after. split; [reflexivity|]. split; [|exact Hrest].
    constructor; [exact Ht | exact Hb].
  - destruct (series_index_of h l) as [i|e] eqn:Hi; [|discriminate].
    intros H. injection H as <- <-. exists [], l, links.
    repeat split; [constructor | exact Ht | discriminate | exact Hi].
Qed.

Lemma series_from_links_none (h : host) (links : list element) (index : option Z) :
  series_from_links h links = Ret (None, index) ->
  Forall no_text links /\ index = None.
Proof.
  induction links as [|l links IH]; cbn.
  - intros H. injection H as <-. now split.
  - destruct (PyStr.strip (Dom.text_content l)) as [|ch s] eqn:Ht; cbn.
    + intros H. destruct (IH H) as [Hall Hi]. split; [|exact Hi].
      constructor; [exact Ht | exact Hall].
    + destruct (series_index_of h l); discriminate.
Qed.

Lemma series_from_links_raise (h : host) (links : list element) (e : exn) :
  series_from_links h links = Raise e ->
  exists link, In link links /\ series_index_of h link = Raise e.
Proof.
  induction links as [|l links IH]; cbn; [discriminate|].
  destruct (PyStr.strip (Dom.text_content l)) as [|ch s]; cbn.
  - intros H. destruct (IH H) as (link & Hin & Hl). exists link. auto.
  - destruct (series_index_of h l) as [i|e0] eqn:Hi; [discriminate|].
    intros H. injection H as <-. exists l. auto.
Qed.

Lemma series_index_raise (h : host) (link : element) (e : exn) :
  series_index_of h link = Raise e ->
  e = ValueError /\
  exists t d, Dom.tail link = Some t /\
              PyStr.re_search_lit_digits (isdecimal h) "#" t = Some d /\
              py_int h d = None.
Proof.
  unfold series_index_of.
  destruct (Dom.tail link) as [t|]; [|discriminate].
  destruct (PyStr.re_search_lit_digits (isdecimal h) "#" t) as [d|] eqn:Hre; [|discriminate].
  destruct (py_int h d) as [n|] eqn:Hn; [discriminate|].
  intros H. injection H as <-. split; [reflexivity|]. now exists t, d.
Qed.

(** C8, as amended: the series name is the stripped text content of the
    first series or publisher-series link whose text is not blank; the
    index is looked up only with a name, and is the integer [int] reads
    from the digits of the first [#<digits>] in the text that follows that
    link: the first [#] that a digit follows, with the whole run of digits
    after it.  The index is left out (the name kept) when there is no such
    pattern, and also when the integer is 0. *)
Theorem series_from_first_link_with_text (h : host) (book_url : string) (root : element) :
  (forall name index, resolve_series h root = Ret (Some name, index) ->
     exists before link after,
       elements_where series_link root = before ++ link :: after /\
       Forall no_text before /\
       PyStr.strip (Dom.text_content link) = name /\ name <> EmptyString /\
       series_index_of h link = Ret index) /\
  (forall index, resolve_series h root = Ret (None, index) ->
     Forall no_text (elements_where series_link root) /\ index = None) /\
  (forall link n, series_index_of h link = Ret (Some n) ->
     exists t pre d post,
       Dom.tail link = Some t /\ t = (pre ++ "#" ++ d ++ post)%string /\
       d <> EmptyString /\ digit_run (isdecimal h) d /\
       PyStr.digit_len (isdecimal h) post = 0 /\
       (forall p1 p2, t = (p1 ++ "#" ++ p2)%string ->
                      String.length p1 < String.length pre ->
                      PyStr.digit_len (isdecimal h) p2 = 0) /\
       py_int h d = Some n) /\
  (forall link,
     series_index_of h link = Ret None <->
     (forall t pre post, Dom.tail link = Some t -> t = (pre ++ "#" ++ post)%string ->
                         PyStr.digit_len (isdecimal h) post = 0)) /\
  (forall mi c, extract h book_url root = Ret (Some (mi, c)) ->
     exists name index,
       resolve_series h root = Ret (name, index) /\
       mi_series mi = name /\ mi_series_index mi = index_kept index).
Proof.
  unfold resolve_series. rewrite series_link_elems_where.
  split; [|split; [|split; [|split]]].
  - intros name index. apply series_from_links_named.
  - intros index. apply series_from_links_none.
  - intros link n. unfold series_index_of.
    destruct (Dom.tail link) as [t|]; [|discriminate].
    destruct (PyStr.re_search_lit_digits (isdecimal h) "#" t) as [d|] eqn:Hre; [|discriminate].
    destruct (py_int h d) as [n0|] eqn:Hn; [|discriminate].
    intros H. injection H as <-.
    destruct (re_search_found _ _ _ _ Hre) as (pre & post & Ht & Hne & Hd & Hp & Hleft).
    exists t, pre, d, post. repeat split; try assumption.
    rewrite <- Hd. apply take_digits_run.
  - intros link. unfold series_index_of.
    destruct (Dom.tail link) as [t|] eqn:Ht.
    + destruct (PyStr.re_search_lit_digits (isdecimal h) "#" t) as [d|] eqn:Hre.
      * split.
        -- destruct (py_int h d); discriminate.
        -- intros H. assert (Hnone : PyStr.re_search_lit_digits (isdecimal h) "#" t = None).
           { apply re_search_absent. intros pre post E. exact (H t pre post eq_refl E). }
           rewrite Hnone in Hre. discriminate.
      * split; [|reflexivity]. intros _ t0 pre post E0 E. injection E0 as <-.
        now apply (proj1 (re_search_absent (isdecimal h) "#" t) Hre pre post).
    + split; [|reflexivity]. intros _ t pre post E. discriminate.
  - intros mi c H. destruct (extract_record _ _ _ _ _ H) as (f & Hf & _ & ->).
    destruct (resolve_fields_parts _ _ _ Hf) as (_ & _ & _ & _ & _ & Hs & _).
    unfold resolve_series in Hs. rewrite series_link_elems_where in Hs.
    exists (series f), (series_index f). split; [exact Hs|]. cbn. split; [reflexivity|].
    destruct (series f) as [name|] eqn:Hn.
    + destruct (series_from_links_named _ _ _ _ Hs) as (_ & _ & _ & _ & _ & _ & Hne & _).
      destruct name; [now elim Hne|]. cbn. unfold index_kept.
      destruct (series_index f) as [n|]; [|reflexivity].
      now destruct (n =? 0)%Z.
    + destruct (series_from_links_none _ _ _ Hs) as [_ ->]. reflexivity.
Qed.

Lemma series_from_first_link_with_text_witness :
  exists before link after,
    elements_where series_link Examples.page_C = before ++ link :: after /\
    Forall no_text before /\
    PyStr.strip (Dom.text_content link) = "Обитаемый остров" /\
    "Обитаемый остров" <> EmptyString /\
    series_index_of Examples.plain_host link = Ret (Some 2%Z).
Proof.
  refine (proj1 (series_from_first_link_with_text Examples.plain_host
                   "https://www.livelib.ru/book/5" Examples.page_C)
                "Обитаемый остров" (Some 2%Z) _).
  vm_compute. reflexivity.
Defined.

(** C8 as stated fails.  The first series link of the first page has no
    text (it holds a picture), and the name is taken from the second.  On
    the second page the link is followed by [#0]: the pattern is there, the
    index is 0, and the record carries the name without an index. *)
Lemma series_not_from_first_link :
  elements_where series_link Examples.page_C =
    [Examples.series_picture; Examples.series_named] /\
  Dom.text_content Examples.series_picture = EmptyString /\
  resolve_series Examples.plain_host Examples.page_C =
    Ret (Some "Обитаемый остров", Some 2%Z) /\
  resolve_series Examples.plain_host (Examples.page_numbered " #0") =
    Ret (Some "Обитаемый остров", Some 0%Z) /\
  exists mi c,
    extract Examples.plain_host "https://www.livelib.ru/book/5"
      (Examples.page_numbered " #0") = Ret (Some (mi, c)) /\
    mi_series mi = Some "Обитаемый остров" /\ mi_series_index mi = None.
Proof.
  split; [vm_compute; reflexivity|]. split; [vm_compute; reflexivity|].
  split; [vm_compute; reflexivity|]. split; [vm_compute; reflexivity|].
  eexists. eexists. split; [vm_compute; reflexivity|]. split; reflexivity.
Qed.

(* ================================================================= *)
(** ** The choice of a search result *)

Lemma remember_prefix (l seen : list string) :
  exists more, fold_left remember l seen = seen ++ more.
Proof.
  revert seen. induction l as [|x l IH]; intros seen; cbn.
  - exists []. now rewrite app_nil_r.
  - unfold remember at 2. destruct (existsb (String.eqb x) seen).
    + apply IH.
    + destruct (IH (seen ++ [x])) as (more & ->). exists (x :: more).
      now rewrite <- app_assoc.
Qed.

Lemma remember_in (l seen : list string) (x : string) :
  In x (fold_left remember l seen) -> In x seen \/ In x l.
Proof.
  revert seen. induction l as [|y l IH]; intros seen; cbn; [auto|].
  intros H. apply IH in H as [H | H]; [|auto].
  unfold remember in H. destruct (existsb (String.eqb y) seen); [auto|].
  apply in_app_or in H as [H | [H | []]]; auto.
Qed.

(** The first candidate is the first book link of the document. *)
Lemma first_candidate (root : element) (first : string) (rest : list string) :
  book_links_of root = first :: rest ->
  exists others, Dom.book_link_hrefs root = first :: others.
Proof.
  unfold book_links_of, unique.
  destruct (Dom.book_link_hrefs root) as [|x l]; cbn; [discriminate|].
  destruct (remember_prefix l [x]) as (more & ->). cbn.
  intros H. injection H as <- _. now exists l.
Qed.

Lemma candidate_nonempty (root : element) (href : string) :
  In href (book_links_of root) -> href <> EmptyString.
Proof.
  intros H. apply remember_in in H as [[] | H].
  unfold Dom.book_link_hrefs, Dom.xpath_elems in H.
  apply in_map_iff in H as (e & <- & He).
  apply filter_In in He as [_ He]. apply andb_true_iff in He as [_ He].
  unfold Dom.href_contains in He.
  now apply (contains_nonempty "/book/"); [discriminate|].
Qed.

Lemma candidate_accepted_parts (h : host) (root : element) (tl al href : string) :
  candidate_accepted h root tl al href =
  candidate_title_matches h root tl href &&
  (PyStr.is_empty al || candidate_author_matches h root al href).
Proof.
  unfold candidate_accepted, candidate_title_matches, candidate_author_matches, accepts.
  destruct (Dom.links_with_href (xpath_pasted h) root href) as [[|[parent link] l]|e];
    try reflexivity.
  destruct (title_matches h tl link); [|reflexivity].
  now destruct (PyStr.is_empty al).
Qed.

Lemma candidate_rejected (h : host) (root : element) (tl al href : string) :
  candidate_title_matches h root tl href = false \/
  (al <> EmptyString /\ candidate_author_matches h root al href = false) ->
  candidate_accepted h root tl al href = false.
Proof.
  rewrite candidate_accepted_parts. intros [-> | [Hne ->]]; [reflexivity|].
  destruct al; [now elim Hne|]. cbn. apply andb_false_r.
Qed.

Lemma candidate_passes (h : host) (root : element) (tl al href : string) :
  candidate_title_matches h root tl href = true ->
  al = EmptyString \/ candidate_author_matches h root al href = true ->
  candidate_accepted h root tl al href = true.
Proof.
  rewrite candidate_accepted_parts. intros -> [-> | ->]; [reflexivity|].
  cbn. apply orb_true_r.
Qed.

(** One turn of the loop when the flag is down and the [href] is plain. *)
Lemma scan_step (h : host) (root : element) (tl al href : string) (rest : list string) (w : world) :
  never_aborted h -> PyStr.contains PyStr.dquote href = false ->
  scan h root tl al (href :: rest) w =
  if candidate_accepted h root tl al href
  then (Ret (Finished (Some href)),
        mkWorld (requests w) (result_queue w) (cover_urls w) (S (polls w)))
  else scan h root tl al rest
         (mkWorld (requests w) (result_queue w) (cover_urls w) (S (polls w))).
Proof.
  intros Hab Hq. cbn. unfold bind, is_set, lift, ret. rewrite Hab.
  unfold candidate_accepted, Dom.links_with_href. rewrite Hq.
  match goal with |- context [filter ?p ?l] => destruct (filter p l) as [|[parent link] l'] end.
  - reflexivity.
  - now destruct (accepts h tl al parent link).
Qed.

(** The scan goes past every rejected candidate and ends at the first one
    accepted. *)
Lemma scan_finds (h : host) (root : element) (tl al : string)
    (before : list string) (b : string) (after : list string) (w : world) :
  never_aborted h -> plain_hrefs (before ++ [b]) ->
  (forall x, In x before -> candidate_accepted h root tl al x = false) ->
  candidate_accepted h root tl al b = true ->
  fst (scan h root tl al (before ++ b :: after) w) = Ret (Finished (Some b)).
Proof.
  intros Hab. revert w. induction before as [|x before IH]; intros w Hp Hrej Hacc.
  - cbn [app]. rewrite scan_step; [|exact Hab | apply Hp; now left].
    now rewrite Hacc.
  - cbn [app]. rewrite scan_step; [|exact Hab | apply Hp; now left].
    rewrite (Hrej x (or_introl eq_refl)). apply IH.
    + intros y Hy. apply Hp. now right.
    + intros y Hy. apply Hrej. now right.
    + exact Hacc.
Qed.

Lemma scan_finds_none (h : host) (root : element) (tl al : string)
    (hrefs : list string) (w : world) :
  never_aborted h -> plain_hrefs hrefs ->
  (forall x, In x hrefs -> candidate_accepted h root tl al x = false) ->
  fst (scan h root tl al hrefs w) = Ret (Finished None).
Proof.
  intros Hab. revert w. induction hrefs as [|x hrefs IH]; intros w Hp Hrej.
  - reflexivity.
  - rewrite scan_step; [|exact Hab | apply Hp; now left].
    rewrite (Hrej x (or_introl eq_refl)). apply IH.
    + intros y Hy. apply Hp. now right.
    + intros y Hy. apply Hrej. now right.
Qed.

Lemma select_after_scan (h : host) (root : element) (title_tokens author_tokens : string)
    (first : string) (rest : list string) (w : world) (best_match : option string) :
  book_links_of root = first :: rest ->
  fst (scan h root (title_lower_of h title_tokens) (author_lower_of h author_tokens)
         (firstn 20 (first :: rest)) w) = Ret (Finished best_match) ->
  fst (select_best_candidate h root title_tokens author_tokens w) =
  match or_first (first :: rest) best_match with
  | Some (String c s) => Ret (Some (absolute_url (String c s)))
  | _ => Ret None
  end.
Proof.
  intros Hlinks Hscan. unfold select_best_candidate. rewrite Hlinks.
  unfold bind. unfold title_lower_of, author_lower_of in Hscan.
  destruct (scan h root (lower h title_tokens)
              (if negb (PyStr.is_empty author_tokens) then lower h author_tokens else "")
              (firstn 20 (first :: rest)) w) as [[e|e] w'] eqn:Hs; cbn in Hscan; [|discriminate].
  injection Hscan as ->.
  destruct (or_first (first :: rest) best_match) as [[|c s]|]; reflexivity.
Qed.

Lemma in_firstn {A : Type} (n : nat) (l : list A) (x : A) :
  In x (firstn n l) -> In x l.
Proof.
  revert l. induction n as [|n IH]; intros [|a l]; cbn; try tauto.
  intros [H | H]; [now left | right; now apply IH].
Qed.

(** C2, as amended: as long as the scan is not cancelled and no [href] it
    looks up holds a double quote, the scan over the first 20 candidates
    ends at the first one whose text matches the title and, when there is
    an author query, whose surrounding block holds the author.  A candidate
    that matches the title but fails the author check does not end it: the
    candidates after it are still tried, and the fallback to the first
    candidate applies only when none is accepted. *)
Theorem scan_stops_at_first_accepted (h : host) (root : element)
    (title_tokens author_tokens : string) (first : string) (rest : list string)
    (before : list string) (b : string) (after : list string) (w : world) :
  let tl := title_lower_of h title_tokens in
  let al := author_lower_of h author_tokens in
  never_aborted h ->
  book_links_of root = first :: rest ->
  firstn 20 (first :: rest) = before ++ b :: after ->
  plain_hrefs (before ++ [b]) ->
  (forall x, In x before ->
     candidate_title_matches h root tl x = false \/
     (al <> EmptyString /\ candidate_author_matches h root al x = false)) ->
  candidate_title_matches h root tl b = true ->
  (al = EmptyString \/ candidate_author_matches h root al b = true) ->
  fst (select_best_candidate h root title_tokens author_tokens w) =
  Ret (Some (absolute_url b)).
Proof.
  intros tl al Hab Hlinks Hsplit Hp Hrej Ht Ha.
  assert (Hb : b <> EmptyString).
  { apply (candidate_nonempty root). rewrite Hlinks.
    apply (in_firstn 20). rewrite Hsplit.
    apply in_or_app. right. now left. }
  rewrite (select_after_scan h root title_tokens author_tokens first rest w (Some b) Hlinks).
  - cbn. destruct b; [now elim Hb | reflexivity].
  - fold tl al. rewrite Hsplit. apply scan_finds; try assumption.
    + intros x Hx. apply candidate_rejected. now apply Hrej.
    + now apply candidate_passes.
Qed.

Lemma scan_stops_at_first_accepted_witness :
  fst (select_best_candidate Examples.plain_host Examples.search_page "Angel" "Ustinova"
         empty_world) =
  Ret (Some (absolute_url "/book/12")).
Proof.
  apply (scan_stops_at_first_accepted Examples.plain_host Examples.search_page
           "Angel" "Ustinova" "/book/11" ["/book/12"] ["/book/11"] "/book/12" []
           empty_world).
  - intros n. reflexivity.
  - reflexivity.
  - reflexivity.
  - intros href [<- | [<- | []]]; reflexivity.
  - intros x [<- | []]. right. split; [discriminate | reflexivity].
  - reflexivity.
  - right. reflexivity.
Defined.

(** C2 as stated fails: the first candidate matches the title and fails
    the author check, yet the scan goes on and the second candidate is
    chosen, not the first.  Nor does the scan always come to a candidate:
    with the abort flag set nothing is chosen, and a [href] that ends in a
    double quote makes the lookup of line 336 raise. *)
Lemma scan_goes_on_after_title_match :
  book_links_of Examples.search_page = ["/book/11"; "/book/12"] /\
  candidate_title_matches Examples.plain_host Examples.search_page "angel" "/book/11" = true /\
  candidate_author_matches Examples.plain_host Examples.search_page "ustinova" "/book/11" = false /\
  select_best_candidate Examples.plain_host Examples.search_page "Angel" "Ustinova" empty_world =
    (Ret (Some "https://www.livelib.ru/book/12"), mkWorld [] [] [] 2) /\
  select_best_candidate Examples.aborting_host Examples.search_page "Angel" "Ustinova"
    empty_world = (Ret None, mkWorld [] [] [] 1) /\
  book_links_of Examples.search_page_quoted = [Examples.quoted_href; "/book/12"] /\
  select_best_candidate Examples.plain_host Examples.search_page_quoted "Angel" "Ustinova"
    empty_world = (Raise XPathEvalError, mkWorld [] [] [] 1).
Proof. repeat split; vm_compute; reflexivity. Qed.

(** C5, as amended: when none of the candidates scanned passes the title
    test (and, with an author query, the author test), the scan is not
    cancelled and no [href] it looks up holds a double quote, the page
    chosen is the first candidate, the first book link of the document
    (made absolute). *)
Theorem fallback_to_first_candidate (h : host) (root : element)
    (title_tokens author_tokens : string) (first : string) (rest : list string) (w : world) :
  let tl := title_lower_of h title_tokens in
  let al := author_lower_of h author_tokens in
  never_aborted h ->
  book_links_of root = first :: rest ->
  plain_hrefs (firstn 20 (first :: rest)) ->
  (forall x, In x (firstn 20 (first :: rest)) ->
     candidate_title_matches h root tl x = false \/
     (al <> EmptyString /\ candidate_author_matches h root al x = false)) ->
  fst (select_best_candidate h root title_tokens author_tokens w) =
    Ret (Some (absolute_url first)) /\
  exists others, Dom.book_link_hrefs root = first :: others.
Proof.
  intros tl al Hab Hlinks Hp Hrej. split; [|now apply (first_candidate root first rest)].
  assert (Hf : first <> EmptyString).
  { apply (candidate_nonempty root). rewrite Hlinks. now left. }
  rewrite (select_after_scan h root title_tokens author_tokens first rest w None Hlinks).
  - cbn. destruct first; [now elim Hf | reflexivity].
  - fold tl al. apply scan_finds_none; try assumption.
    intros x Hx. apply candidate_rejected. now apply Hrej.
Qed.

Lemma fallback_to_first_candidate_witness :
  fst (select_best_candidate Examples.plain_host Examples.search_page_D "Angel" ""
         empty_world) =
    Ret (Some (absolute_url "/book/21")) /\
  exists others, Dom.book_link_hrefs Examples.search_page_D = "/book/21" :: others.
Proof.
  apply (fallback_to_first_candidate Examples.plain_host Examples.search_page_D "Angel" ""
           "/book/21" ["/book/22"; "/book/23"; "/book/24"; "/book/25"] empty_world).
  - intros n. reflexivity.
  - reflexivity.
  - intros href [<- | [<- | [<- | [<- | [<- | []]]]]]; reflexivity.
  - intros x [<- | [<- | [<- | [<- | [<- | []]]]]]; left; reflexivity.
Defined.

(** C5 as stated fails.  No result of this page matches the title, and the
    first link is not chosen: its [href] ends in a double quote, which ends
    the XPath literal of line 336 early, and the lookup raises.  Nor is the
    first link chosen when the scan is cancelled. *)
Lemma no_fallback_after_quoted_href :
  book_links_of Examples.search_page_quoted = [Examples.quoted_href; "/book/12"] /\
  title_matches Examples.plain_host "zzz"
    (Examples.a_href Examples.quoted_href (Some "Other") None) = false /\
  candidate_title_matches Examples.plain_host Examples.search_page_quoted "zzz" "/book/12" =
    false /\
  select_best_candidate Examples.plain_host Examples.search_page_quoted "Zzz" "" empty_world =
    (Raise XPathEvalError, mkWorld [] [] [] 1) /\
  select_best_candidate Examples.aborting_host Examples.search_page_D "Angel" "" empty_world =
    (Ret None, mkWorld [] [] [] 1).
Proof. repeat split; vm_compute; reflexivity. Qed.

(* ================================================================= *)
(** ** The rating: doubling a binary64 float is exact *)

Lemma shr_52 (m : positive) :
  iter_pos shr_1 52 (Build_shr_record (Zpos (m * 4503599627370496)) false false) =
  Build_shr_record (Zpos m) false false.
Proof. rewrite Pos.mul_comm. reflexivity. Qed.

Lemma shr_51 (m : positive) :
  iter_pos shr_1 51 (Build_shr_record (Zpos (m * 4503599627370496)) false false) =
  Build_shr_record (Zpos (xO m)) false false.
Proof. rewrite Pos.mul_comm. reflexivity. Qed.

Lemma digits_2_52 (m : positive) :
  Zpos (digits2_pos (m * 4503599627370496)) = (Zpos (digits2_pos m) + 52)%Z.
Proof. rewrite Pos.mul_comm. cbn [Pos.mul]. cbn [digits2_pos]. lia. Qed.

Lemma double_normal (s : bool) (m : positive) (e : Z) :
  Zpos (digits2_pos m) = 53%Z -> (-1074 <= e)%Z -> (e + 1 <= 971)%Z ->
  float_double (S754_finite s m e) = S754_finite s m (e + 1).
Proof.
  intros Hd He1 He2.
  unfold float_double, float_two, SFmul, binary_round_aux, shr_fexp.
  unfold Zdigits2 at 1. rewrite digits_2_52, Hd.
  unfold fexp at 1, emin, prec64, emax64.
  replace (Z.max (53 + 52 + (e + -51) - 53) (3 - 1024 - 53) - (e + -51))%Z with 52%Z by lia.
  unfold shr_record_of_loc, shr at 1. rewrite shr_52.
  cbn [shr_m loc_of_shr_record round_nearest_even Zdigits2].
  rewrite Hd. unfold fexp, emin.
  replace (Z.max (53 + (e + -51 + 52) - 53) (3 - 1024 - 53) - (e + -51 + 52))%Z with 0%Z by lia.
  cbn [shr shr_record_of_loc shr_m].
  replace (e + -51 + 52)%Z with (e + 1)%Z by lia.
  replace (e + 1 <=? 1024 - 53)%Z with true by (symmetry; apply Z.leb_le; lia).
  now destruct s.
Qed.

Lemma double_subnormal (s : bool) (m : positive) :
  (Zpos (digits2_pos m) < 53)%Z ->
  float_double (S754_finite s m (-1074)) = S754_finite s (xO m) (-1074).
Proof.
  intros Hd.
  unfold float_double, float_two, SFmul, binary_round_aux, shr_fexp.
  unfold Zdigits2 at 1. rewrite digits_2_52.
  unfold fexp at 1, emin, prec64, emax64.
  replace (Z.max (Z.pos (digits2_pos m) + 52 + (-1074 + -51) - 53) (3 - 1024 - 53) - (-1074 + -51))%Z
    with 51%Z by lia.
  unfold shr_record_of_loc, shr at 1. rewrite shr_51.
  cbn [shr_m loc_of_shr_record round_nearest_even Zdigits2 digits2_pos].
  unfold fexp, emin.
  replace (Z.max (Z.pos (Pos.succ (digits2_pos m)) + (-1074 + -51 + 51) - 53) (3 - 1024 - 53) -
           (-1074 + -51 + 51))%Z with 0%Z by lia.
  cbn [shr shr_record_of_loc shr_m].
  cbn. now destruct s.
Qed.

Lemma digits2_lower (m : positive) :
  (2 ^ (Zpos (digits2_pos m) - 1) <= Zpos m)%Z.
Proof.
  induction m as [m IH | m IH |]; cbn [digits2_pos].
  - rewrite Pos2Z.inj_succ. replace (Z.succ (Zpos (digits2_pos m)) - 1)%Z
      with (Z.succ (Zpos (digits2_pos m) - 1)) by lia.
    rewrite Z.pow_succ_r by lia. lia.
  - rewrite Pos2Z.inj_succ. replace (Z.succ (Zpos (digits2_pos m)) - 1)%Z
      with (Z.succ (Zpos (digits2_pos m) - 1)) by lia.
    rewrite Z.pow_succ_r by lia. lia.
  - cbn. lia.
Qed.

Lemma two_not_zero : ~ (2 == 0)%Q.
Proof. discriminate. Qed.

(** A normal float of value at most 5 has an exponent of at most -50. *)
Lemma small_exponent (m : positive) (e : Z) :
  Zpos (digits2_pos m) = 53%Z ->
  (inject_Z (Zpos m) * 2 ^ e <= 5)%Q -> (e <= -50)%Z.
Proof.
  intros Hd Hle.
  destruct (Z_le_gt_dec e (-50)) as [H | H]; [exact H | exfalso].
  assert (H1 : ((1 # 562949953421312) <= 2 ^ e)%Q).
  { apply Qle_trans with (2 ^ (-49))%Q; [now vm_compute|].
    apply Qpower_le_compat_l; [lia | discriminate]. }
  assert (H2 : ((4503599627370496 # 1) <= inject_Z (Zpos m))%Q).
  { pose proof (digits2_lower m) as H2. rewrite Hd in H2.
    rewrite Zle_Qle in H2. exact H2. }
  revert Hle H1 H2. generalize (2 ^ e)%Q (inject_Z (Zpos m)). intros X M Hle H1 H2.
  nra.
Qed.

Lemma double_exact (f : spec_float) (r : Q) :
  valid_binary prec64 emax64 f = true -> float_value f = Some r ->
  (0 < r)%Q -> (r <= 5)%Q ->
  float_truthy f = true /\
  exists q, float_value (float_double f) = Some q /\ (q == 2 * r)%Q.
Proof.
  intros Hv Hr Hpos Hle. destruct f as [s | s | | s m e]; cbn in Hr; try discriminate.
  - injection Hr as <-. now apply Qlt_irrefl in Hpos.
  - injection Hr as <-. split; [reflexivity|].
    pose proof (Qpower_0_lt 2 e eq_refl) as H2e.
    destruct s; cbn [cond_Zopp Z.opp] in *.
    { exfalso. assert (Hm : (inject_Z (Z.neg m) < 0)%Q) by (change 0%Q with (inject_Z 0); rewrite <- Zlt_Qlt; lia).
      revert Hpos H2e Hm. generalize (2 ^ e)%Q (inject_Z (Z.neg m)). intros X M. nra. }
    cbn in Hv. apply andb_true_iff in Hv as [Hc Hb].
    unfold canonical_mantissa, fexp, emin, prec64, emax64 in Hc.
    apply Z.eqb_eq in Hc. apply Z.leb_le in Hb. unfold prec64, emax64 in Hb.
    destruct (Z.eq_dec (Zpos (digits2_pos m)) 53) as [Hd | Hd].
    + pose proof (small_exponent m e Hd Hle) as He.
      rewrite double_normal by lia. eexists. split; [reflexivity|].
      cbn [cond_Zopp]. rewrite Qpower_plus by exact two_not_zero.
      change (2 ^ 1)%Q with 2%Q. ring.
    + assert (He : e = (-1074)%Z) by lia. subst e.
      rewrite double_subnormal by lia. eexists. split; [reflexivity|].
      cbn [cond_Zopp]. change (Zpos m~0) with (2 * Zpos m)%Z.
      rewrite inject_Z_mult. change (inject_Z 2) with 2%Q. ring.
Qed.

Lemma rating_step (h : host) (d rd : dict) (v : value) :
  dict_get d "aggregateRating" = VDict rd -> dict_find rd "ratingValue" = Some v ->
  rating_from_json_ld h (Some d) =
  match py_float h v with
  | Ret x => Ret (Some x)
  | Raise ValueError | Raise TypeError => Ret None
  | Raise e => Raise e
  end.
Proof.
  intros Hd Hv. unfold rating_from_json_ld, if_json_ld.
  destruct d as [|item d]; [discriminate|]. cbn [truthy]. rewrite Hd.
  destruct rd as [|item' rd]; [discriminate|].
  unfold dict_get_default. now rewrite Hv.
Qed.

Lemma finite_value_not_zero (s : bool) (m : positive) (e : Z) :
  ~ (inject_Z (cond_Zopp s (Zpos m)) * 2 ^ e == 0)%Q.
Proof.
  intros H. apply Qmult_integral in H as [H | H].
  - destruct s; discriminate.
  - now apply (Qpower_not_0 2 e two_not_zero).
Qed.

Lemma extract_rating (h : host) (book_url : string) (root : element)
    (mi : Metadata) (c : option (string * value)) (x : option spec_float) :
  extract h book_url root = Ret (Some (mi, c)) ->
  forall json_ld, _extract_json_ld h root = Ret json_ld ->
  rating_from_json_ld h json_ld = Ret x ->
  mi_rating mi = match x with
                 | Some r => if float_truthy r then Some (float_double r) else None
                 | None => None
                 end.
Proof.
  intros H json_ld Hld Hx. destruct (extract_record _ _ _ _ _ H) as (f & Hf & _ & ->).
  destruct (resolve_fields_parts _ _ _ Hf) as (block & Hb & _ & _ & _ & _ & Hr & _).
  rewrite Hld in Hb. injection Hb as <-.
  rewrite Hx in Hr. injection Hr as ->. reflexivity.
Qed.

(** C3, as amended: when the aggregate rating of the structured data is a
    number [r] with [0 < r <= 5], the record returned carries the rating
    [2 * r] exactly, which lies in (0, 10]; when [r] is 0 the record carries
    no rating. *)
Theorem rating_is_doubled (h : host) (book_url : string) (root : element)
    (d rd : dict) (v : value) (r : Q) (mi : Metadata) (c : option (string * value)) :
  _extract_json_ld h root = Ret (Some d) ->
  dict_get d "aggregateRating" = VDict rd ->
  dict_find rd "ratingValue" = Some v ->
  numeric v r -> (0 <= r)%Q -> (r <= 5)%Q ->
  extract h book_url root = Ret (Some (mi, c)) ->
  ((r == 0)%Q -> mi_rating mi = None) /\
  ((0 < r)%Q ->
   exists out q, mi_rating mi = Some out /\ float_value out = Some q /\
                 (q == 2 * r)%Q /\ (0 < q)%Q /\ (q <= 10)%Q).
Proof.
  intros Hld Hd Hv Hnum H0 H5 Hex.
  pose proof (rating_step h d rd v Hd Hv) as Hstep.
  destruct v as [| | z | f | | |]; cbn in Hnum; try contradiction.
  - (* an integer *)
    subst r. change 0%Q with (inject_Z 0) in H0. change 5%Q with (inject_Z 5) in H5.
    rewrite <- Zle_Qle in H0, H5.
    assert (Hz : z = 0%Z \/ z = 1%Z \/ z = 2%Z \/ z = 3%Z \/ z = 4%Z \/ z = 5%Z) by lia.
    destruct Hz as [-> | [-> | [-> | [-> | [-> | ->]]]]];
      rewrite (extract_rating _ _ _ _ _ _ Hex _ Hld Hstep);
      (split; [intros E; try reflexivity; discriminate
              | intros E; try (now apply Qlt_irrefl in E);
                eexists; eexists; repeat split; first [reflexivity | now vm_compute]]).
  - (* a float *)
    destruct Hnum as [Hvalid Hval]. cbn in Hstep.
    rewrite (extract_rating _ _ _ _ _ _ Hex _ Hld Hstep). split.
    + intros E. destruct f as [s | s | | s m e]; cbn in Hval; try discriminate.
      * reflexivity.
      * injection Hval as <-. now apply finite_value_not_zero in E.
    + intros Hpos. destruct (double_exact f r Hvalid Hval Hpos H5) as (-> & q & Hq & Hqr).
      exists (float_double f), q. repeat split; try assumption; lra.
Qed.

Lemma rating_is_doubled_witness :
  exists mi c,
    extract Examples.rated_host "https://www.livelib.ru/book/2" (Examples.page_rated "4.5") =
      Ret (Some (mi, c)) /\
    exists out q, mi_rating mi = Some out /\ float_value out = Some q /\
                  (q == 2 * (inject_Z 5066549580791808 * 2 ^ (-50)))%Q /\
                  (0 < q)%Q /\ (q <= 10)%Q.
Proof.
  eexists. eexists. split; [reflexivity|].
  refine (proj2 (rating_is_doubled Examples.rated_host "https://www.livelib.ru/book/2"
                   (Examples.page_rated "4.5") _ _ (VFloat Examples.float_4_5)
                   (inject_Z 5066549580791808 * 2 ^ (-50))%Q _ _
                   eq_refl eq_refl eq_refl (conj eq_refl eq_refl) _ _ eq_refl) _);
    now vm_compute.
Defined.

(** C3 as stated fails at [r = 0]: the record carries no rating, not the
    rating 0. *)
Lemma rating_zero_is_dropped :
  _extract_json_ld Examples.rated_host (Examples.page_rated "0") =
    Ret (Some [("@type", VStr "Book"); ("name", VStr "Angel");
               ("author", VDict [("name", VStr "T. Ustinova")]);
               ("aggregateRating", VDict [("ratingValue", VInt 0)])]) /\
  exists mi c,
    extract Examples.rated_host "https://www.livelib.ru/book/1" (Examples.page_rated "0") =
      Ret (Some (mi, c)) /\
    mi_rating mi = None.
Proof. split; [reflexivity|]. eexists. eexists. split; reflexivity. Qed.

(* ================================================================= *)
(** ** Further properties of [identify] and [download_cover] *)

(** [download_cover] raises nothing: each of its steps that can fail is
    inside a handler (lines 64-73, 395-401, 409-419). *)
Theorem download_cover_raises_nothing (h : host) (title : option string)
    (authors : option (list string)) (identifiers : option (list (string * string)))
    (w : world) :
  fst (download_cover h title authors identifiers w) = Ret tt.
Proof.
  unfold download_cover, bind, ret, cached_identifier_to_cover_url, _fetch_page,
    browser_read, put.
  destruct (dict_find (or_empty identifiers) "livelib") as [[|ch id]|]; cbn.
  - reflexivity.
  - destruct (truthy (dict_get (cover_urls w) (String "l" (String "i" (String "v"
               (String "e" (String "l" (String "i" (String "b" (String ":"
               (String ch id))))))))))) eqn:Hc; cbn.
    + rewrite Hc. cbn.
      destruct (dict_get (cover_urls w) _); try reflexivity. cbn.
      destruct (open_novisit h s) as [[|c' d]|]; reflexivity.
    + destruct (open_novisit h _) as [[|c' raw]|]; cbn; try (rewrite Hc; reflexivity).
      destruct (fromstring h (String c' raw)) as [root|]; cbn; try (rewrite Hc; reflexivity).
      destruct (_extract_json_ld h root) as [json_ld|e]; cbn; try (rewrite Hc; reflexivity).
      destruct (if_json_ld json_ld) as [d|]; cbn; try (rewrite Hc; reflexivity).
      destruct (truthy (dict_get d "image")); cbn; [|reflexivity].
      destruct (dict_get d "image"); try reflexivity. cbn.
      destruct (open_novisit h s) as [[|c'' d']|]; reflexivity.
  - reflexivity.
Qed.

(** Cancellation (section 8 of the specification): with the abort flag set
    at the first look, no candidate is considered and nothing is chosen. *)
Theorem aborted_scan_chooses_nothing (h : host) (root : element)
    (title_tokens author_tokens : string) (w : world) :
  abort_is_set h (polls w) = true ->
  fst (select_best_candidate h root title_tokens author_tokens w) = Ret None.
Proof.
  intros Hab. unfold select_best_candidate.
  destruct (book_links_of root) as [|first rest]; [reflexivity|].
  cbn. unfold bind, is_set. now rewrite Hab.
Qed.

Lemma aborted_scan_chooses_nothing_witness :
  fst (select_best_candidate Examples.aborting_host Examples.search_page "Angel" ""
         empty_world) = Ret None.
Proof.
  apply aborted_scan_chooses_nothing. reflexivity.
Defined.

(** Scenario E of the specification: when the detail page cannot be
    fetched, [identify] puts nothing into the queue and raises nothing. *)
Theorem identify_without_page (h : host) (title : option string)
    (authors : option (list string)) (livelib_id : string) (w : world) :
  livelib_id <> EmptyString ->
  open_novisit h (BASE_URL ++ "/book/" ++ livelib_id)%string = None ->
  identify h title authors (Some [("livelib", livelib_id)]) w =
  (Ret tt, mkWorld (requests w ++ [(BASE_URL ++ "/book/" ++ livelib_id)%string])
                   (result_queue w) (cover_urls w) (polls w)).
Proof.
  intros Hne Hfetch. destruct livelib_id as [|ch id]; [now elim Hne|].
  unfold identify, parse_book_page, bind, _fetch_page, browser_read.
  cbn in Hfetch |- *. now rewrite Hfetch.
Qed.

Lemma identify_without_page_witness :
  identify Examples.plain_host None None (Some [("livelib", "7")]) empty_world =
  (Ret tt, mkWorld ["https://www.livelib.ru/book/7"] [] [] 0).
Proof.
  apply (identify_without_page Examples.plain_host None None "7" empty_world);
    [discriminate | reflexivity].
Defined.

(** A computation that leaves the result queue as it is. *)
Lemma bind_keeps_queue {A B : Type} (m : M A) (k : A -> M B) :
  (forall w, result_queue (snd (m w)) = result_queue w) ->
  (forall a w, result_queue (snd (k a w)) = result_queue w) ->
  forall w, result_queue (snd (bind m k w)) = result_queue w.
Proof.
  intros Hm Hk w. unfold bind. specialize (Hm w).
  destruct (m w) as [[a|e] w']; cbn in *; [now rewrite Hk | exact Hm].
Qed.

Lemma parse_book_page_keeps_queue (h : host) (book_url : string) (w : world) :
  result_queue (snd (parse_book_page h book_url w)) = result_queue w.
Proof.
  unfold parse_book_page. apply bind_keeps_queue; [reflexivity|].
  intros [[|ch raw]|] w0; try reflexivity.
  destruct (fromstring h (String ch raw)) as [root|]; [|reflexivity].
  apply bind_keeps_queue; [reflexivity|].
  intros [[mi [[key url]|]]|] w1; reflexivity.
Qed.

Lemma scan_keeps_queue (h : host) (root : element) (tl al : string) (hrefs : list string)
    (w : world) :
  result_queue (snd (scan h root tl al hrefs w)) = result_queue w.
Proof.
  revert w. induction hrefs as [|href rest IH]; intros w; [reflexivity|].
  cbn [scan]. apply bind_keeps_queue; [reflexivity|].
  intros [|] w0; [reflexivity|].
  apply bind_keeps_queue; [reflexivity|].
  intros [|[parent link] l] w1; [apply IH|].
  destruct (accepts h tl al parent link); [reflexivity | apply IH].
Qed.

Lemma select_keeps_queue (h : host) (root : element) (title_tokens author_tokens : string)
    (w : world) :
  result_queue (snd (select_best_candidate h root title_tokens author_tokens w)) =
  result_queue w.
Proof.
  unfold select_best_candidate. destruct (book_links_of root) as [|first rest]; [reflexivity|].
  apply bind_keeps_queue; [intros w0; apply scan_keeps_queue|].
  intros [|best] w0; [reflexivity|].
  destruct (or_first (first :: rest) best) as [[|c s]|]; reflexivity.
Qed.

Lemma bind_then_at_most_one {A B : Type} (m : M A) (k : A -> M B) :
  (forall w, result_queue (snd (m w)) = result_queue w) ->
  (forall a w, at_most_one_record (result_queue w) (result_queue (snd (k a w)))) ->
  forall w, at_most_one_record (result_queue w) (result_queue (snd (bind m k w))).
Proof.
  intros Hm Hk w. unfold bind. specialize (Hm w).
  destruct (m w) as [[a|e] w']; cbn in *.
  - rewrite <- Hm. apply Hk.
  - left. exact Hm.
Qed.

Lemma emit_at_most_one (h : host) (check_abort : bool) (mi : option Metadata) (w : world) :
  at_most_one_record (result_queue w) (result_queue (snd (emit h check_abort mi w))).
Proof.
  destruct mi as [mi|]; [|now left]. unfold emit, bind.
  destruct check_abort; cbn.
  - destruct (abort_is_set h (polls w)); cbn; [now left | right; now eexists].
  - right. now eexists.
Qed.

(** Section 6 of the specification: one call of [identify] puts at most one
    metadata record into the queue. *)
Theorem identify_emits_at_most_one (h : host) (title : option string)
    (authors : option (list string)) (identifiers : option (list (string * string)))
    (w : world) :
  at_most_one_record (result_queue w)
    (result_queue (snd (identify h title authors identifiers w))).
Proof.
  unfold identify.
  destruct (dict_find (or_empty identifiers) "livelib") as [[|ch id]|].
  2: { apply bind_then_at_most_one; [intros w0; apply parse_book_page_keeps_queue|].
       intros mi w0. apply emit_at_most_one. }
  all: destruct title as [[|c t]|]; try (now left).
  all: apply bind_then_at_most_one; [reflexivity|].
  all: intros [[|c' raw]|] w0; try (now left).
  all: destruct (fromstring h (String c' raw)) as [root|]; [|now left].
  all: apply bind_then_at_most_one; [intros w1; apply select_keeps_queue|].
  all: intros [url|] w1; [|now left].
  all: apply bind_then_at_most_one; [intros w2; apply parse_book_page_keeps_queue|].
  all: intros mi w2; apply emit_at_most_one.
Qed.

(* ================================================================= *)
(** ** The structured block *)

Ltac split_matches :=
  repeat match goal with
         | |- context [match ?x with _ => _ end] => is_var x; destruct x
         end.

Lemma first_book_block_cons (h : host) (script : string) (rest : list string) :
  first_book_block h (script :: rest) =
  match book_block h script with
  | Block d => Ret (Some d)
  | Skipped => first_book_block h rest
  | Failed e => Raise e
  end.
Proof.
  cbn [first_book_block]. unfold book_block.
  destruct (json_loads h script) as [v|e].
  - destruct v; try reflexivity.
    generalize (first_book_block h rest) as r. intros r.
    destruct (dict_get d "@type") as [| | | |s| |]; try reflexivity.
    split_matches; reflexivity.
  - destruct e; reflexivity.
Qed.

Lemma book_block_typed (h : host) (script : string) (d : dict) :
  book_block h script = Block d ->
  json_loads h script = Ret (VDict d) /\ dict_get d "@type" = VStr "Book".
Proof.
  unfold book_block.
  destruct (json_loads h script) as [v|e]; [|destruct e; discriminate].
  destruct v; try discriminate.
  destruct (dict_get d0 "@type") as [| | | |s| |] eqn:Ht; try discriminate.
  split_matches; try discriminate.
  intros H. injection H as <-. split; [reflexivity | exact Ht].
Qed.

Lemma book_block_failed (h : host) (script : string) (e : exn) :
  book_block h script = Failed e ->
  json_loads h script = Raise e /\ e <> JSONDecodeError.
Proof.
  unfold book_block.
  destruct (json_loads h script) as [v|e0].
  - destruct v; try discriminate.
    destruct (dict_get d "@type") as [| | | |s| |]; try discriminate.
    split_matches; discriminate.
  - destruct e0; try discriminate; intros H; injection H as <-; split;
      first [reflexivity | discriminate].
Qed.

Lemma book_block_skipped (h : host) (script : string) :
  book_block h script = Skipped ->
  json_loads h script = Raise JSONDecodeError \/
  exists v, json_loads h script = Ret v /\
            forall d, v = VDict d -> dict_get d "@type" <> VStr "Book".
Proof.
  unfold book_block.
  destruct (json_loads h script) as [v|e].
  - intros H. right. exists v. split; [reflexivity|].
    intros d ->. intros Ht. rewrite Ht in H. discriminate.
  - destruct e; try discriminate. now left.
Qed.

Lemma first_book_block_found (h : host) (scripts : list string) (d : dict) :
  first_book_block h scripts = Ret (Some d) ->
  exists before script after,
    scripts = before ++ script :: after /\
    book_block h script = Block d /\
    (forall s, In s before -> book_block h s = Skipped).
Proof.
  induction scripts as [|script rest IH]; [discriminate|].
  rewrite first_book_block_cons.
  destruct (book_block h script) as [d0| |e] eqn:Hb.
  - intros H. injection H as ->. exists [], script, rest.
    repeat split; [exact Hb | intros s []].
  - intros H. destruct (IH H) as (before & s & after & -> & Hs & Hbefore).
    exists (script :: before), s, after. repeat split; [exact Hs|].
    intros s0 [<- | Hin]; [exact Hb | now apply Hbefore].
  - discriminate.
Qed.

Lemma first_book_block_none (h : host) (scripts : list string) :
  first_book_block h scripts = Ret None <->
  forall s, In s scripts -> book_block h s = Skipped.
Proof.
  induction scripts as [|script rest IH]; [split; [intros _ s [] | reflexivity]|].
  rewrite first_book_block_cons.
  destruct (book_block h script) as [d0| |e] eqn:Hb.
  - split; [discriminate|]. intros H. specialize (H script (or_introl eq_refl)).
    rewrite Hb in H. discriminate.
  - rewrite IH. split.
    + intros H s [<- | Hin]; [exact Hb | now apply H].
    + intros H s Hin. apply H. now right.
  - split; [discriminate|]. intros H. specialize (H script (or_introl eq_refl)).
    rewrite Hb in H. discriminate.
Qed.

Lemma first_book_block_raise (h : host) (scripts : list string) (e : exn) :
  first_book_block h scripts = Raise e ->
  exists before script after,
    scripts = before ++ script :: after /\
    book_block h script = Failed e /\
    (forall s, In s before -> book_block h s = Skipped).
Proof.
  induction scripts as [|script rest IH]; [discriminate|].
  rewrite first_book_block_cons.
  destruct (book_block h script) as [d0| |e0] eqn:Hb.
  - discriminate.
  - intros H. destruct (IH H) as (before & s & after & -> & Hs & Hbefore).
    exists (script :: before), s, after. repeat split; [exact Hs|].
    intros s0 [<- | Hin]; [exact Hb | now apply Hbefore].
  - intros H. injection H as ->. exists [], script, rest.
    repeat split; [exact Hb | intros s []].
Qed.

(** [_extract_json_ld] reads the [ld+json] scripts of the page in order.
    The block it returns is the parse of the first script that is a dict
    typed ['Book']; every script before it was passed over, being
    malformed ([JSONDecodeError]) or something else than such a dict; the
    block is not empty, so [if json_ld:] holds for it.  It returns [None]
    exactly when every script is passed over.  It raises exactly what
    [json.loads] raises, other than [JSONDecodeError], on the first script
    that is not passed over. *)
Theorem extract_json_ld_first_book (h : host) (root : element) :
  (forall d, _extract_json_ld h root = Ret (Some d) ->
     exists before script after,
       Dom.ld_json_scripts root = before ++ script :: after /\
       json_loads h script = Ret (VDict d) /\
       dict_get d "@type" = VStr "Book" /\
       (forall s, In s before -> book_block h s = Skipped) /\
       if_json_ld (Some d) = Some d) /\
  (_extract_json_ld h root = Ret None <->
   forall s, In s (Dom.ld_json_scripts root) -> book_block h s = Skipped) /\
  (forall e, _extract_json_ld h root = Raise e ->
     e <> JSONDecodeError /\
     exists before script after,
       Dom.ld_json_scripts root = before ++ script :: after /\
       json_loads h script = Raise e /\
       (forall s, In s before -> book_block h s = Skipped)) /\
  (forall s, book_block h s = Skipped ->
     json_loads h s = Raise JSONDecodeError \/
     exists v, json_loads h s = Ret v /\
               forall d, v = VDict d -> dict_get d "@type" <> VStr "Book").
Proof.
  split; [|split; [|split]].
  - intros d H. destruct (first_book_block_found _ _ _ H) as (before & s & after & E & Hs & Hb).
    destruct (book_block_typed _ _ _ Hs) as [Hj Ht].
    exists before, s, after. repeat split; try assumption.
    unfold if_json_ld. destruct d; [discriminate | reflexivity].
  - apply first_book_block_none.
  - intros e H. destruct (first_book_block_raise _ _ _ H) as (before & s & after & E & Hs & Hb).
    destruct (book_block_failed _ _ _ Hs) as [Hj Hne].
    split; [exact Hne|]. now exists before, s, after.
  - apply book_block_skipped.
Qed.

(* ================================================================= *)
(** ** Identifiers and URLs, again *)

(** What [id_from_url] returns is a run of decimal digits, not empty, that
    stands in the URL right after [/book/] and is not continued by a digit;
    it is taken at the first [/book/] that a digit follows.  The canonical
    URL of that identifier gives the identifier back.  A URL has no
    identifier exactly when [/book/] is nowhere in it followed by a
    digit. *)
Theorem id_from_url_is_digits (h : host) (url : string) :
  (forall i, id_from_url h url = Some i ->
     i <> EmptyString /\ digit_run (isdecimal h) i /\
     (exists pre post,
        url = (pre ++ "/book/" ++ i ++ post)%string /\
        PyStr.digit_len (isdecimal h) post = 0 /\
        forall p1 p2, url = (p1 ++ "/book/" ++ p2)%string ->
                      String.length p1 < String.length pre ->
                      PyStr.digit_len (isdecimal h) p2 = 0) /\
     get_book_url [("livelib", i)] = Some (BASE_URL ++ "/book/" ++ i)%string /\
     round_trip h i = Ret (Some i)) /\
  (id_from_url h url = None <->
   forall pre post, url = (pre ++ "/book/" ++ post)%string ->
                    PyStr.digit_len (isdecimal h) post = 0).
Proof.
  split.
  - intros i H.
    destruct (re_search_found _ _ _ _ H) as (pre & post & E & Hne & Hd & Hp & Hleft).
    assert (Hrun : PyStr.take_digits (isdecimal h) i = i).
    { rewrite <- Hd at 1. rewrite take_digits_idem. exact Hd. }
    assert (Hurl : get_book_url [("livelib", i)] = Some (BASE_URL ++ "/book/" ++ i)%string).
    { unfold get_book_url. cbn. destruct i; [now elim Hne | reflexivity]. }
    split; [exact Hne|]. split; [rewrite <- Hrun; apply take_digits_run|].
    split; [now exists pre, post|]. split; [exact Hurl|].
    unfold round_trip. rewrite Hurl. f_equal. now apply id_from_run_url.
  - apply re_search_absent.
Qed.

(** Digits outside ASCII make an identifier as well. *)
Example id_of_arabic_digits :
  id_from_url Examples.arabic_host "https://www.livelib.ru/book/١٢٣-kniga" = Some "١٢٣" /\
  round_trip Examples.arabic_host "١٢٣" = Ret (Some "١٢٣").
Proof. split; vm_compute; reflexivity. Qed.

(* ================================================================= *)
(** ** The candidates of a search page *)

Lemma fold_remember (l seen : list string) :
  fold_left remember l seen = seen ++ filter (absent_from seen) (keep_first l).
Proof.
  revert seen. induction l as [|x l IH]; intros seen; cbn [fold_left keep_first filter].
  - now rewrite app_nil_r.
  - rewrite IH. unfold remember.
    replace (absent_from seen x) with (negb (existsb (String.eqb x) seen)) by reflexivity.
    destruct (existsb (String.eqb x) seen) eqn:Hs; cbn [negb].
    + f_equal. rewrite filter_twice. apply filter_ext_in'. intros y _.
      destruct (String.eqb y x) eqn:Hy; cbn; [|reflexivity].
      apply String.eqb_eq in Hy. subst y. unfold absent_from. now rewrite Hs.
    + rewrite <- app_assoc. cbn [app]. do 2 f_equal.
      rewrite filter_twice. apply filter_ext_in'. intros y _.
      apply absent_from_snoc.
Qed.

Lemma unique_keep_first (l : list string) : unique l = keep_first l.
Proof.
  unfold unique. rewrite fold_remember. cbn.
  induction (keep_first l) as [|x k IH]; cbn; [reflexivity | now rewrite IH].
Qed.

Lemma book_link_href_parts (root : element) (href : string) :
  In href (Dom.book_link_hrefs root) ->
  exists e, In e (Dom.elements root) /\ Dom.tag e = "a" /\
            dict_find (Dom.attrib e) "href" = Some href /\
            PyStr.contains "/book/" href = true.
Proof.
  unfold Dom.book_link_hrefs, Dom.xpath_elems. rewrite in_map_iff.
  intros (e & He & Hin). apply filter_In in Hin as [Hin Hp].
  apply andb_true_iff in Hp as [Ht Hc]. apply String.eqb_eq in Ht.
  unfold Dom.href_contains in Hc. rewrite He in Hc.
  exists e. repeat split; try assumption.
  unfold Dom.attr_string in He.
  destruct (dict_find (Dom.attrib e) "href") as [v|]; [now rewrite He|].
  subst href. discriminate.
Qed.

(** Line 318: the candidates are the book links of the page with the later
    duplicates removed, in the order of their first appearance; each holds
    [/book/]. *)
Theorem candidates_without_duplicates (root : element) :
  book_links_of root = keep_first (Dom.book_link_hrefs root) /\
  NoDup (book_links_of root) /\
  (forall href, In href (book_links_of root) <-> In href (Dom.book_link_hrefs root)) /\
  (forall href, In href (book_links_of root) -> PyStr.contains "/book/" href = true).
Proof.
  assert (E : book_links_of root = keep_first (Dom.book_link_hrefs root))
    by apply unique_keep_first.
  rewrite E. split; [reflexivity|]. split; [apply keep_first_nodup|].
  split; [intros href; apply keep_first_in|].
  intros href H. apply (proj1 (keep_first_in _ _)) in H.
  now destruct (book_link_href_parts _ _ H) as (e & _ & _ & _ & Hc).
Qed.

Lemma walk_parent (e : element) :
  forall par p x, In (p, x) (Dom.walk par e) ->
    (p = par /\ x = e) \/ exists q, p = Some q /\ In x (Dom.children q).
Proof.
  induction e as [t a tx cs tl IH] using element_induction.
  intros par p x. cbn [Dom.walk].
  intros [H | H]; [injection H as <- <-; now left | right].
  set (e := Element t a tx cs tl) in *.
  assert (Hsub : forall l, incl l cs ->
            In (p, x) ((fix go (l0 : list element) : list (option element * element) :=
                          match l0 with
                          | [] => []
                          | c :: l' => Dom.walk (Some e) c ++ go l'
                          end) l) ->
            exists q, p = Some q /\ In x (Dom.children q)).
  { induction l as [|c l IHl]; intros Hincl Hin; [destruct Hin|].
    apply in_app_or in Hin as [Hin | Hin].
    - assert (Hc : In c cs) by (apply Hincl; now left).
      rewrite Forall_forall in IH.
      destruct (IH c Hc (Some e) p x Hin) as [[-> ->] | Hq]; [|exact Hq].
      exists e. split; [reflexivity | exact Hc].
    - apply IHl; [|exact Hin]. intros y Hy. apply Hincl. now right. }
  apply (Hsub cs); [apply incl_refl | exact H].
Qed.

(** The links the scan looks a candidate up by (line 336), for a [href]
    without a double quote: each is an [a] element with exactly that
    [href], and comes with the element it is a child of -- [getparent()] is
    [None] only for the root of the document.  For every such candidate
    there is such a link, so the [continue] of line 338 is never taken for
    it. *)
Theorem candidate_links (h : host) (root : element) (href : string) :
  PyStr.contains PyStr.dquote href = false ->
  (exists l, Dom.links_with_href (xpath_pasted h) root href = Ret l /\
     forall parent link, In (parent, link) l ->
       Dom.tag link = "a" /\ dict_find (Dom.attrib link) "href" = Some href /\
       match parent with
       | Some p => In link (Dom.children p)
       | None => link = root
       end) /\
  (In href (book_links_of root) ->
   exists parent link rest,
     Dom.links_with_href (xpath_pasted h) root href = Ret ((parent, link) :: rest)).
Proof.
  intros Hq. unfold Dom.links_with_href. rewrite Hq. split.
  - eexists. split; [reflexivity|]. intros parent link.
    rewrite filter_In. intros [Hin Hp].
    cbn [snd] in Hp. apply andb_true_iff in Hp as [Ht Hh].
    apply String.eqb_eq in Ht.
    destruct (dict_find (Dom.attrib link) "href") as [v|] eqn:Hv; [|discriminate].
    apply String.eqb_eq in Hh. subst v. repeat split; try assumption.
    destruct (walk_parent root None parent link Hin) as [[-> ->] | (q & -> & Hq')];
      [reflexivity | exact Hq'].
  - intros Hin.
    apply remember_in in Hin as [[] | Hin].
    destruct (book_link_href_parts _ _ Hin) as (e & He & Ht & Hh & _).
    unfold Dom.elements in He. apply in_map_iff in He as ([p e'] & <- & Hw).
    cbn [snd] in *.
    match goal with |- context [filter ?f ?l] =>
      assert (Hf : In (p, e') (filter f l)) end.
    { apply filter_In. split; [exact Hw|]. cbn [snd]. rewrite Ht, Hh.
      now rewrite !String.eqb_refl. }
    match goal with |- context [filter ?f ?l] =>
      destruct (filter f l) as [|[parent link] rest] end; [destruct Hf|].
    now exists parent, link, rest.
Qed.

(* ================================================================= *)
(** ** What the operations do to the state *)

Lemma extract_cache_entry (h : host) (book_url : string) (root : element)
    (mi : Metadata) (c : option (string * value)) :
  extract h book_url root = Ret (Some (mi, c)) ->
  exists json_ld,
    _extract_json_ld h root = Ret json_ld /\
    c = match id_from_url h book_url with
        | Some id =>
            if truthy (field_from_json_ld "image" json_ld)
            then Some (("livelib:" ++ id)%string, field_from_json_ld "image" json_ld)
            else None
        | None => None
        end.
Proof.
  unfold extract. destruct (resolve_fields h root) as [f|e] eqn:Hf; [|discriminate].
  destruct (missing_required f); [discriminate|].
  intros H. injection H as _ <-.
  destruct (resolve_fields_parts _ _ _ Hf) as (json_ld & Hld & _ & _ & _ & _ & _ & Hc).
  exists json_ld. split; [exact Hld|].
  rewrite Hc. destruct (id_from_url h book_url) as [id|] eqn:Hid; [|reflexivity].
  destruct (re_search_found _ _ _ _ Hid) as (_ & _ & _ & Hne & _).
  destruct id; [now elim Hne|].
  cbn. now rewrite andb_true_r.
Qed.

Lemma parse_book_page_run (h : host) (book_url : string) (w : world) :
  parse_book_page h book_url w =
  match open_novisit h book_url with
  | Some (String ch raw) =>
      match fromstring h (String ch raw) with
      | Some root =>
          match extract h book_url root with
          | Ret (Some (mi, Some (key, url))) =>
              (Ret (Some mi),
               mkWorld (requests w ++ [book_url]) (result_queue w)
                       ((key, url) :: cover_urls w) (polls w))
          | Ret (Some (mi, None)) => (Ret (Some mi), requested book_url w)
          | Ret None => (Ret None, requested book_url w)
          | Raise e => (Raise e, requested book_url w)
          end
      | None => (Ret None, requested book_url w)
      end
  | _ => (Ret None, requested book_url w)
  end.
Proof.
  unfold parse_book_page, bind, _fetch_page, browser_read, lift, ret, requested. cbn.
  destruct (open_novisit h book_url) as [[|ch raw]|]; try reflexivity.
  destruct (fromstring h (String ch raw)) as [root|]; [|reflexivity].
  destruct (extract h book_url root) as [[[mi [[key url]|]]|]|e]; reflexivity.
Qed.

Lemma parse_book_page_state (h : host) (book_url : string) (w : world) :
  let w' := snd (parse_book_page h book_url w) in
  requests w' = requests w ++ [book_url] /\
  result_queue w' = result_queue w /\
  polls w' = polls w /\
  (cover_urls w' = cover_urls w \/
   exists mi id url,
     fst (parse_book_page h book_url w) = Ret (Some mi) /\
     id_from_url h book_url = Some id /\ truthy url = true /\
     cover_urls w' = (("livelib:" ++ id)%string, url) :: cover_urls w).
Proof.
  cbn zeta. rewrite parse_book_page_run.
  destruct (open_novisit h book_url) as [[|ch raw]|]; try (cbn; now auto).
  destruct (fromstring h (String ch raw)) as [root|]; [|cbn; now auto].
  destruct (extract h book_url root) as [[[mi [[key url]|]]|]|e] eqn:Hex;
    try (cbn; now auto).
  cbn. repeat split. right.
  destruct (extract_cache_entry _ _ _ _ _ Hex) as (json_ld & _ & Hc).
  destruct (id_from_url h book_url) as [id|]; [|discriminate].
  destruct (truthy (field_from_json_ld "image" json_ld)) eqn:Ht; [|discriminate].
  injection Hc as -> ->. exists mi, id, (field_from_json_ld "image" json_ld).
  now repeat split.
Qed.

(** [parse_book_page] opens exactly one URL, the one it is given; it leaves
    the result queue and the abort flag alone; and it adds to the cover
    cache at most one entry, only when it returns a record: the cover URL
    of the structured data (a true value) under the key [livelib:<id>] of
    the identifier in the page URL. *)
Theorem parse_book_page_effects (h : host) (book_url : string) (w : world) :
  let w' := snd (parse_book_page h book_url w) in
  requests w' = requests w ++ [book_url] /\
  result_queue w' = result_queue w /\
  polls w' = polls w /\
  (cover_urls w' = cover_urls w \/
   exists mi id url,
     fst (parse_book_page h book_url w) = Ret (Some mi) /\
     id_from_url h book_url = Some id /\ truthy url = true /\
     cover_urls w' = (("livelib:" ++ id)%string, url) :: cover_urls w).
Proof. apply parse_book_page_state. Qed.

Lemma scan_run (h : host) (root : element) (tl al : string) (hrefs : list string) (w : world) :
  let r := scan h root tl al hrefs w in
  requests (snd r) = requests w /\ result_queue (snd r) = result_queue w /\
  cover_urls (snd r) = cover_urls w /\
  polls w <= polls (snd r) <= polls w + List.length hrefs /\
  (forall b, fst r = Ret (Finished (Some b)) -> In b hrefs).
Proof.
  cbn zeta. revert w. induction hrefs as [|href rest IH]; intros w.
  - cbn. repeat split; try lia. intros b H. discriminate.
  - cbn [scan]. unfold bind, is_set, lift, ret.
    destruct (abort_is_set h (polls w)).
    { cbn. repeat split; try lia. intros b H. discriminate. }
    destruct (Dom.links_with_href (xpath_pasted h) root href) as [[|[parent link] l]|e].
    + specialize (IH (mkWorld (requests w) (result_queue w) (cover_urls w) (S (polls w)))).
      cbn in IH |- *. destruct IH as (H1 & H2 & H3 & H4 & H5).
      repeat split; try assumption; try lia. intros b Hb. right. now apply H5.
    + destruct (accepts h tl al parent link).
      * cbn. repeat split; try lia. intros b Hb. injection Hb as <-. now left.
      * specialize (IH (mkWorld (requests w) (result_queue w) (cover_urls w) (S (polls w)))).
        cbn in IH |- *. destruct IH as (H1 & H2 & H3 & H4 & H5).
        repeat split; try assumption; try lia. intros b Hb. right. now apply H5.
    + cbn. repeat split; try lia. intros b H. discriminate.
Qed.

Lemma absolute_url_http (b : string) : PyStr.startswith (absolute_url b) "http" = true.
Proof.
  unfold absolute_url. destruct (PyStr.startswith b "http") eqn:E; [exact E | reflexivity].
Qed.

Lemma select_best_candidate_effects (h : host) (root : element)
    (title_tokens author_tokens : string) (w : world) :
  let r := select_best_candidate h root title_tokens author_tokens w in
  requests (snd r) = requests w /\ result_queue (snd r) = result_queue w /\
  cover_urls (snd r) = cover_urls w /\
  polls w <= polls (snd r) <= polls w + 20 /\
  (forall url, fst r = Ret (Some url) ->
     PyStr.startswith url "http" = true /\
     exists b, In b (firstn 20 (book_links_of root)) /\ url = absolute_url b).
Proof.
  cbn zeta. unfold select_best_candidate.
  destruct (book_links_of root) as [|first rest] eqn:Hl.
  { cbn. split; [|split; [|split; [|split]]]; try reflexivity; try lia.
    intros url H. discriminate. }
  unfold bind.
  pose proof (scan_run h root (lower h title_tokens)
                (if negb (PyStr.is_empty author_tokens) then lower h author_tokens else "")
                (firstn 20 (first :: rest)) w) as Hs.
  cbn zeta in Hs.
  assert (Hlen : List.length (firstn 20 (first :: rest)) <= 20).
  { rewrite length_firstn. lia. }
  destruct (scan h root (lower h title_tokens)
              (if negb (PyStr.is_empty author_tokens) then lower h author_tokens else "")
              (firstn 20 (first :: rest)) w) as [[[|best]|e] w'];
    cbn [fst snd] in *; destruct Hs as (H1 & H2 & H3 & H4 & H5).
  - cbn. split; [|split; [|split; [|split]]]; try assumption; try lia.
    intros url H. discriminate.
  - assert (Hor : forall b, or_first (first :: rest) best = Some b ->
                            In b (firstn 20 (first :: rest))).
    { intros b. unfold or_first. destruct best as [[|c s]|].
      - intros H. injection H as <-. now left.
      - intros H. injection H as <-. now apply H5.
      - intros H. injection H as <-. now left. }
    destruct (or_first (first :: rest) best) as [[|c s]|] eqn:Ho; cbn;
      (split; [|split; [|split; [|split]]]; try assumption; try lia);
      intros url H; try discriminate.
    injection H as <-. split; [apply absolute_url_http|].
    exists (String c s). split; [now apply Hor | reflexivity].
  - cbn. split; [|split; [|split; [|split]]]; try assumption; try lia.
    intros url H. discriminate.
Qed.

(** The choice of a search result changes nothing of the state but the
    count of looks at the abort flag, which it reads at most 20 times; what
    it chooses is one of the first 20 candidates, as an absolute URL. *)
Theorem select_best_candidate_bounded (h : host) (root : element)
    (title_tokens author_tokens : string) (w : world) :
  let r := select_best_candidate h root title_tokens author_tokens w in
  requests (snd r) = requests w /\ result_queue (snd r) = result_queue w /\
  cover_urls (snd r) = cover_urls w /\
  polls w <= polls (snd r) <= polls w + 20 /\
  (forall url, fst r = Ret (Some url) ->
     PyStr.startswith url "http" = true /\
     exists b, In b (firstn 20 (book_links_of root)) /\ url = absolute_url b).
Proof. apply select_best_candidate_effects. Qed.

Lemma emit_run (h : host) (check_abort : bool) (mi : option Metadata) (w : world) :
  fst (emit h check_abort mi w) = Ret tt /\
  requests (snd (emit h check_abort mi w)) = requests w /\
  cover_urls (snd (emit h check_abort mi w)) = cover_urls w.
Proof.
  destruct mi as [mi|]; [|now cbn]. unfold emit, bind, is_set, put, ret.
  destruct check_abort; cbn; [destruct (abort_is_set h (polls w))|]; now cbn.
Qed.

Lemma identify_by_id_run (h : host) (title : option string) (authors : option (list string))
    (identifiers : option (list (string * string))) (ch : ascii) (id : string) (w : world) :
  dict_find (or_empty identifiers) "livelib" = Some (String ch id) ->
  identify h title authors identifiers w =
  bind (parse_book_page h (BASE_URL ++ "/book/" ++ String ch id)%string) (emit h false) w.
Proof. intros H. unfold identify. now rewrite H. Qed.

Lemma identify_search_run (h : host) (title : option string) (authors : option (list string))
    (identifiers : option (list (string * string))) (ch : ascii) (t : string) (w : world) :
  (dict_find (or_empty identifiers) "livelib" = None \/
   dict_find (or_empty identifiers) "livelib" = Some EmptyString) ->
  title = Some (String ch t) ->
  identify h title authors identifiers w =
  match open_novisit h (search_url_of h (String ch t) authors) with
  | Some (String c raw) =>
      match fromstring h (String c raw) with
      | Some root =>
          bind (select_best_candidate h root
                  (PyStr.join " " (get_title_tokens h (String ch t)))
                  match authors with
                  | Some ((_ :: _) as authors) => PyStr.join " " (get_author_tokens h authors)
                  | _ => EmptyString
                  end)
               (fun best_match =>
                  match best_match with
                  | Some url => bind (parse_book_page h url) (emit h true)
                  | None => ret tt
                  end)
               (requested (search_url_of h (String ch t) authors) w)
      | None => (Ret tt, requested (search_url_of h (String ch t) authors) w)
      end
  | _ => (Ret tt, requested (search_url_of h (String ch t) authors) w)
  end.
Proof.
  intros Hid ->. unfold identify.
  destruct Hid as [Hid | Hid]; rewrite Hid;
    unfold bind at 1, _fetch_page, browser_read, search_url_of, search_query_of, requested;
    cbn zeta;
    (destruct (open_novisit h _) as [[|c raw]|]; [reflexivity | | reflexivity]);
    (destruct (fromstring h (String c raw)) as [root|]; reflexivity).
Qed.

Lemma identify_search_requests (h : host) (authors : option (list string))
    (identifiers : option (list (string * string))) (ch : ascii) (t : string) (w : world) :
  (dict_find (or_empty identifiers) "livelib" = None \/
   dict_find (or_empty identifiers) "livelib" = Some EmptyString) ->
  exists more,
    requests (snd (identify h (Some (String ch t)) authors identifiers w)) =
      requests w ++ search_url_of h (String ch t) authors :: more /\
    List.length more <= 1 /\
    (forall url, In url more -> PyStr.startswith url "http" = true).
Proof.
  intros Hid.
  rewrite (identify_search_run h _ authors identifiers ch t w Hid eq_refl).
  set (u := search_url_of h (String ch t) authors).
  assert (none : forall w0 : world, requests w0 = requests w ++ [u] ->
            exists more, requests w0 = requests w ++ u :: more /\
                         List.length more <= 1 /\
                         (forall url, In url more -> PyStr.startswith url "http" = true)).
  { intros w0 E. exists []. split; [exact E|]. split; [cbn; lia | intros url []]. }
  destruct (open_novisit h u) as [[|c raw]|]; try (now apply none).
  destruct (fromstring h (String c raw)) as [root|]; [|now apply none].
  unfold bind.
  match goal with |- context [select_best_candidate h root ?tt ?at' ?w0] =>
    pose proof (select_best_candidate_effects h root tt at' w0) as (Hr & _ & _ & _ & Hu);
    destruct (select_best_candidate h root tt at' w0) as [[[url|]|e] w1]
  end; cbn [fst snd] in *; try (now apply none).
  pose proof (parse_book_page_state h url w1) as (Hr1 & _).
  assert (one : forall w0 : world, requests w0 = requests w1 ++ [url] ->
            exists more, requests w0 = requests w ++ u :: more /\
                         List.length more <= 1 /\
                         (forall url, In url more -> PyStr.startswith url "http" = true)).
  { intros w0 E. exists [url]. rewrite E, Hr. cbn. rewrite <- app_assoc.
    split; [reflexivity|]. split; [cbn; lia|].
    intros url' [<- | []]. now apply (Hu url eq_refl). }
  destruct (parse_book_page h url w1) as [[mi|e] w2]; cbn [snd] in *; [|now apply one].
  apply one. now destruct (emit_run h true mi w2) as (_ & -> & _).
Qed.

(** The URLs [identify] opens.  With a [livelib] identifier: the canonical
    page of that identifier, and no other.  Without one but with a title:
    the search URL [<base>/find/books/<quoted query>] first, then at most one
    more, an absolute URL.  With neither, [identify] does nothing at all. *)
Theorem identify_requests (h : host) (title : option string)
    (authors : option (list string)) (identifiers : option (list (string * string)))
    (w : world) :
  let w' := snd (identify h title authors identifiers w) in
  match dict_find (or_empty identifiers) "livelib" with
  | Some (String ch id) =>
      requests w' = requests w ++ [(BASE_URL ++ "/book/" ++ String ch id)%string]
  | _ =>
      match title with
      | Some (String ch t) =>
          exists more,
            requests w' = requests w ++ search_url_of h (String ch t) authors :: more /\
            List.length more <= 1 /\
            (forall url, In url more -> PyStr.startswith url "http" = true)
      | _ => identify h title authors identifiers w = (Ret tt, w)
      end
  end.
Proof.
  cbn zeta.
  destruct (dict_find (or_empty identifiers) "livelib") as [[|ch id]|] eqn:Hid.
  2: { rewrite (identify_by_id_run h title authors identifiers ch id w Hid). unfold bind.
       pose proof (parse_book_page_state h (BASE_URL ++ "/book/" ++ String ch id)%string w)
         as (Hr & _).
       destruct (parse_book_page h _ w) as [[mi|e] w1]; cbn [snd] in *; [|exact Hr].
       destruct (emit_run h false mi w1) as (_ & -> & _). exact Hr. }
  - destruct title as [[|ch t]|]; try (unfold identify; rewrite Hid; reflexivity).
    apply identify_search_requests. now right.
  - destruct title as [[|ch t]|]; try (unfold identify; rewrite Hid; reflexivity).
    apply identify_search_requests. now left.
Qed.

(** With a [livelib] identifier whose page is fetched, parsed and yields a
    record, [identify] opens that page only, puts the cleaned record into
    the queue and never reads the abort flag; when the identifier is all
    digits the record carries it as its [livelib] identifier. *)
Theorem identify_by_id (h : host) (title : option string) (authors : option (list string))
    (identifiers : list (string * string)) (id raw : string) (root : element)
    (mi : Metadata) (c : option (string * value)) (w : world) :
  dict_find identifiers "livelib" = Some id -> id <> EmptyString ->
  open_novisit h (BASE_URL ++ "/book/" ++ id)%string = Some raw -> raw <> EmptyString ->
  fromstring h raw = Some root ->
  extract h (BASE_URL ++ "/book/" ++ id)%string root = Ret (Some (mi, c)) ->
  let r := identify h title authors (Some identifiers) w in
  fst r = Ret tt /\
  requests (snd r) = requests w ++ [(BASE_URL ++ "/book/" ++ id)%string] /\
  result_queue (snd r) = result_queue w ++ [QMetadata (clean_downloaded_metadata h mi)] /\
  polls (snd r) = polls w /\
  (PyStr.all_digits id = true -> dict_find (mi_identifiers mi) "livelib" = Some (VStr id)).
Proof.
  intros Hid Hne Hraw Hrne Hroot Hex. cbn zeta.
  destruct id as [|ch id]; [now elim Hne|]. destruct raw as [|c0 raw]; [now elim Hrne|].
  rewrite (identify_by_id_run h title authors (Some identifiers) ch id w Hid).
  unfold bind. rewrite parse_book_page_run, Hraw, Hroot, Hex.
  assert (Hids : PyStr.all_digits (String ch id) = true ->
                 dict_find (mi_identifiers mi) "livelib" = Some (VStr (String ch id))).
  { intros Hd. destruct (extract_record _ _ _ _ _ Hex) as (f & _ & _ & ->).
    rewrite (id_from_book_url h (String ch id)) by (assumption || discriminate).
    reflexivity. }
  destruct c as [[key url]|]; cbn; repeat split; assumption.
Qed.

(* ================================================================= *)
(** ** Covers, again *)

Lemma download_cover_hit (h : host) (title : option string) (authors : option (list string))
    (identifiers : option (list (string * string))) (id u : string) (w : world) :
  dict_find (or_empty identifiers) "livelib" = Some id -> id <> EmptyString ->
  dict_get (cover_urls w) ("livelib:" ++ id)%string = VStr u -> u <> EmptyString ->
  download_cover h title authors identifiers w =
  (Ret tt, mkWorld (requests w ++ [u]) (result_queue w ++ cover_items h u)
                   (cover_urls w) (polls w)).
Proof.
  intros Hid Hne Hc Hu. destruct id as [|ch id]; [now elim Hne|].
  destruct u as [|cu u]; [now elim Hu|].
  unfold download_cover, bind, ret, cached_identifier_to_cover_url, browser_read, put,
    cover_items.
  rewrite Hid. cbn [fst snd]. rewrite Hc. cbn.
  destruct (open_novisit h (String cu u)) as [[|c d]|]; cbn; try reflexivity;
    now rewrite app_nil_r; destruct w.
Qed.

(** With the cover URL of the identifier in the cache, [download_cover] opens
    that URL only -- the book page is not fetched again -- and puts the
    data it gets, when there is any, into the queue. *)
Theorem download_cover_from_cache (h : host) (title : option string)
    (authors : option (list string)) (identifiers : option (list (string * string)))
    (id u : string) (w : world) :
  dict_find (or_empty identifiers) "livelib" = Some id -> id <> EmptyString ->
  dict_get (cover_urls w) ("livelib:" ++ id)%string = VStr u -> u <> EmptyString ->
  download_cover h title authors identifiers w =
  (Ret tt, mkWorld (requests w ++ [u]) (result_queue w ++ cover_items h u)
                   (cover_urls w) (polls w)).
Proof. apply download_cover_hit. Qed.

(** Without a cached cover URL, [download_cover] fetches the book page of
    the identifier, takes the [image] of its structured data as the cover
    URL and opens it; the URL found is not written to the cache. *)
Theorem download_cover_from_page (h : host) (title : option string)
    (authors : option (list string)) (identifiers : option (list (string * string)))
    (id raw u : string) (root : element) (d : dict) (w : world) :
  dict_find (or_empty identifiers) "livelib" = Some id -> id <> EmptyString ->
  truthy (dict_get (cover_urls w) ("livelib:" ++ id)%string) = false ->
  open_novisit h (BASE_URL ++ "/book/" ++ id)%string = Some raw -> raw <> EmptyString ->
  fromstring h raw = Some root ->
  _extract_json_ld h root = Ret (Some d) -> dict_get d "image" = VStr u -> u <> EmptyString ->
  download_cover h title authors identifiers w =
  (Ret tt, mkWorld (requests w ++ [(BASE_URL ++ "/book/" ++ id)%string; u])
                   (result_queue w ++ cover_items h u) (cover_urls w) (polls w)).
Proof.
  intros Hid Hne Hc Hraw Hrne Hroot Hld Himg Hu.
  destruct id as [|ch id]; [now elim Hne|]. destruct raw as [|cr raw]; [now elim Hrne|].
  destruct u as [|cu u]; [now elim Hu|].
  assert (Hif : if_json_ld (Some d) = Some d).
  { unfold if_json_ld. destruct d; [discriminate | reflexivity]. }
  unfold download_cover, bind, ret, cached_identifier_to_cover_url, _fetch_page,
    browser_read, put, cover_items.
  rewrite Hid. cbn [fst snd]. rewrite Hc. cbn [negb]. cbn [fst snd requests].
  cbn in Hraw. cbn. rewrite Hraw, Hroot, Hld, Hif, Himg. cbn.
  rewrite <- app_assoc. cbn.
  destruct (open_novisit h (String cu u)) as [[|c0 d0]|]; cbn; try reflexivity;
    now rewrite app_nil_r.
Qed.

Ltac world_kept :=
  cbn;
  split; [reflexivity |
  split; [reflexivity |
  split; [first [left; reflexivity
                | right; eexists; split; [|reflexivity]; discriminate]
         | first [exists []; split; [now rewrite app_nil_r | cbn; lia]
                 | rewrite <- ?app_assoc; cbn; eexists; split; [reflexivity | cbn; lia]]]]].

(** Whatever its input, [download_cover] opens at most two URLs, puts at
    most one cover (never empty, never a metadata record) into the queue,
    and leaves the cover cache and the abort flag alone. *)
Theorem download_cover_effects (h : host) (title : option string)
    (authors : option (list string)) (identifiers : option (list (string * string)))
    (w : world) :
  let w' := snd (download_cover h title authors identifiers w) in
  cover_urls w' = cover_urls w /\ polls w' = polls w /\
  at_most_one_cover (result_queue w) (result_queue w') /\
  exists urls, requests w' = requests w ++ urls /\ List.length urls <= 2.
Proof.
  cbn zeta.
  unfold download_cover, bind, ret, cached_identifier_to_cover_url, _fetch_page,
    browser_read, put.
  destruct (dict_find (or_empty identifiers) "livelib") as [[|ch id]|]; cbn [fst snd].
  - world_kept.
  - destruct (truthy (dict_get (cover_urls w) ("livelib:" ++ String ch id))) eqn:Hc;
      cbn [negb].
    + rewrite Hc. cbn [negb].
      destruct (dict_get (cover_urls w) ("livelib:" ++ String ch id)); try world_kept.
      destruct (open_novisit h s) as [[|c d]|]; world_kept.
    + destruct (open_novisit h _) as [[|c raw]|];
        cbn [fst snd]; try (rewrite Hc; cbn [negb]; world_kept).
      destruct (fromstring h (String c raw)) as [root|];
        cbn [fst snd]; try (rewrite Hc; cbn [negb]; world_kept).
      destruct (_extract_json_ld h root) as [json_ld|e];
        cbn [fst snd]; try (rewrite Hc; cbn [negb]; world_kept).
      destruct (if_json_ld json_ld) as [d|];
        cbn [fst snd]; try (rewrite Hc; cbn [negb]; world_kept).
      destruct (truthy (dict_get d "image")); cbn [negb]; try world_kept.
      destruct (dict_get d "image"); try world_kept.
      destruct (open_novisit h s) as [[|c' d']|]; world_kept.
  - world_kept.
Qed.

Lemma identify_by_id_state (h : host) (title : option string) (authors : option (list string))
    (identifiers : list (string * string)) (id raw : string) (root : element)
    (mi : Metadata) (c : option (string * value)) (w : world) :
  dict_find identifiers "livelib" = Some id -> id <> EmptyString ->
  open_novisit h (BASE_URL ++ "/book/" ++ id)%string = Some raw -> raw <> EmptyString ->
  fromstring h raw = Some root ->
  extract h (BASE_URL ++ "/book/" ++ id)%string root = Ret (Some (mi, c)) ->
  identify h title authors (Some identifiers) w =
  (Ret tt,
   mkWorld (requests w ++ [(BASE_URL ++ "/book/" ++ id)%string])
           (result_queue w ++ [QMetadata (clean_downloaded_metadata h mi)])
           (match c with Some entry => entry :: cover_urls w | None => cover_urls w end)
           (polls w)).
Proof.
  intros Hid Hne Hraw Hrne Hroot Hex.
  destruct id as [|ch id]; [now elim Hne|]. destruct raw as [|c0 raw]; [now elim Hrne|].
  rewrite (identify_by_id_run h title authors (Some identifiers) ch id w Hid).
  unfold bind. rewrite parse_book_page_run, Hraw, Hroot, Hex.
  destruct c as [[key url]|]; reflexivity.
Qed.

(** [identify], then [download_cover]: after [identify] has read the page of
    a numeric identifier whose structured data names a cover image, the
    cover URL is in the cache under that identifier --
    [get_cached_cover_url] returns it -- and [download_cover] for the same
    identifier opens the image only, without fetching the page again. *)
Theorem identify_then_download_cover (h : host) (title title' : option string)
    (authors authors' : option (list string)) (identifiers : list (string * string))
    (id raw u : string) (root : element) (d : dict)
    (mi : Metadata) (c : option (string * value)) (w : world) :
  dict_find identifiers "livelib" = Some id ->
  id <> EmptyString -> PyStr.all_digits id = true ->
  open_novisit h (BASE_URL ++ "/book/" ++ id)%string = Some raw -> raw <> EmptyString ->
  fromstring h raw = Some root ->
  extract h (BASE_URL ++ "/book/" ++ id)%string root = Ret (Some (mi, c)) ->
  _extract_json_ld h root = Ret (Some d) -> dict_get d "image" = VStr u -> u <> EmptyString ->
  let w1 := snd (identify h title authors (Some identifiers) w) in
  fst (get_cached_cover_url identifiers w1) = Ret (Some (VStr u)) /\
  download_cover h title' authors' (Some identifiers) w1 =
  (Ret tt,
   mkWorld (requests w ++ [(BASE_URL ++ "/book/" ++ id)%string; u])
           (result_queue w ++ QMetadata (clean_downloaded_metadata h mi) :: cover_items h u)
           ((("livelib:" ++ id)%string, VStr u) :: cover_urls w)
           (polls w)).
Proof.
  intros Hid Hne Hd Hraw Hrne Hroot Hex Hld Himg Hu. cbn zeta.
  rewrite (identify_by_id_state h title authors identifiers id raw root mi c w) by assumption.
  cbn [snd].
  assert (Hc : c = Some (("livelib:" ++ id)%string, VStr u)).
  { destruct (extract_cache_entry _ _ _ _ _ Hex) as (json_ld & Hb & ->).
    rewrite Hld in Hb. injection Hb as <-.
    rewrite (id_from_book_url h id Hne Hd).
    unfold field_from_json_ld, if_json_ld.
    destruct d as [|item d]; [discriminate|]. cbn [truthy]. rewrite Himg.
    destruct u; [now elim Hu | reflexivity]. }
  subst c.
  assert (Hget : dict_get ((("livelib:" ++ id)%string, VStr u) :: cover_urls w)
                          ("livelib:" ++ id)%string = VStr u).
  { unfold dict_get, dict_get_default. cbn [dict_find]. now rewrite String.eqb_refl. }
  split.
  - unfold get_cached_cover_url. rewrite Hid.
    destruct id as [|ch id]; [now elim Hne|].
    unfold bind, cached_identifier_to_cover_url, ret. cbn [fst snd cover_urls].
    now rewrite Hget.
  - rewrite (download_cover_hit h title' authors' (Some identifiers) id u); try assumption.
    cbn [requests result_queue cover_urls polls].
    now rewrite <- !app_assoc.
Qed.

(** A search page without any book link: [identify] has opened the search
    URL only, reads no abort flag and puts nothing into the queue. *)
Theorem identify_without_candidates (h : host) (title : string)
    (authors : option (list string)) (identifiers : option (list (string * string)))
    (raw : string) (root : element) (w : world) :
  dict_find (or_empty identifiers) "livelib" = None -> title <> EmptyString ->
  open_novisit h (search_url_of h title authors) = Some raw ->
  fromstring h raw = Some root ->
  Dom.book_link_hrefs root = [] ->
  identify h (Some title) authors identifiers w =
  (Ret tt, requested (search_url_of h title authors) w).
Proof.
  intros Hid Hne Hraw Hroot Hlinks. destruct title as [|ch t]; [now elim Hne|].
  rewrite (identify_search_run h _ authors identifiers ch t w (or_introl Hid) eq_refl).
  rewrite Hraw. destruct raw as [|c raw]; [reflexivity|]. rewrite Hroot.
  unfold bind, select_best_candidate, book_links_of. now rewrite Hlinks.
Qed.

(* ================================================================= *)
(** ** More on the fields *)

Lemma author_name_true (a : value) : Forall (fun n => truthy n = true) (author_name a).
Proof.
  destruct a; cbn; try constructor.
  destruct (truthy (dict_get d "name")) eqn:E; constructor; [exact E | constructor].
Qed.

Lemma authors_from_json_ld_true (json_ld : option dict) :
  Forall (fun n => truthy n = true) (authors_from_json_ld json_ld).
Proof.
  unfold authors_from_json_ld. destruct (if_json_ld json_ld) as [d|]; [|constructor].
  destruct (truthy (dict_get d "author")); [|constructor].
  destruct (dict_get d "author") as [| | | | |l|d']; try constructor.
  - induction l as [|a l IH]; cbn; [constructor|].
    apply Forall_app. split; [apply author_name_true | exact IH].
  - apply (author_name_true (VDict d')).
Qed.

(** Every author the extraction resolves is a true value: a name of the
    structured data that is not empty, or a link text that is not blank.
    A record never lists an empty author. *)
Theorem authors_are_never_empty (h : host) (book_url : string) (root : element) :
  (forall json_ld, Forall (fun a => truthy a = true) (resolve_authors json_ld root)) /\
  (forall mi c, extract h book_url root = Ret (Some (mi, c)) ->
     Forall (fun a => truthy a = true) (mi_authors mi)).
Proof.
  assert (H : forall json_ld, Forall (fun a => truthy a = true) (resolve_authors json_ld root)).
  { intros json_ld. unfold resolve_authors, authors_fallback.
    pose proof (authors_from_json_ld_true json_ld) as Hj.
    destruct (authors_from_json_ld json_ld); [|exact Hj].
    rewrite authors_from_html_spec. apply Forall_forall. intros a Ha.
    apply in_map_iff in Ha as (s & <- & Hs).
    apply (proj1 (keep_first_in _ _)) in Hs.
    apply stripped_nonempty_in in Hs as [Hne _].
    destruct s; [now elim Hne | reflexivity]. }
  split; [exact H|].
  intros mi c Hex. destruct (extract_record _ _ _ _ _ Hex) as (f & Hf & _ & ->).
  destruct (resolve_fields_parts _ _ _ Hf) as (json_ld & _ & _ & Ha & _).
  cbn. rewrite Ha. apply H.
Qed.

(** The genres taken from the markup (no genre in the structured data) are
    the stripped texts that stand directly inside the genre links and are
    not blank, each once: unlike the authors they are not capped. *)
Theorem genres_from_markup (json_ld : option dict) (root : element) :
  genres_from_json_ld json_ld = [] ->
  resolve_genres json_ld root =
    map VStr (keep_first (stripped_nonempty (texts_directly_in (link_to "/genre/") root))) /\
  NoDup (resolve_genres json_ld root) /\
  (forall g, In g (resolve_genres json_ld root) <->
     exists s, g = VStr s /\ s <> EmptyString /\
               exists raw, In raw (texts_directly_in (link_to "/genre/") root) /\
                           s = PyStr.strip raw).
Proof.
  intros Hld. rewrite (genres_from_links json_ld root Hld).
  split; [reflexivity|]. split.
  - apply Finite.Injective_map_NoDup; [exact VStr_injective | apply keep_first_nodup].
  - intros g. rewrite in_map_iff. split.
    + intros (s & <- & Hs). exists s. split; [reflexivity|].
      now apply stripped_nonempty_in, keep_first_in.
    + intros (s & -> & Hs). exists s. split; [reflexivity|].
      now apply keep_first_in, stripped_nonempty_in.
Qed.

Lemma float_of_small_int (b : bool) : exists x, float_of_int (if b then 1 else 0) = Ret x.
Proof. destruct b; eexists; reflexivity. Qed.

Lemma rating_raise (h : host) (json_ld : option dict) (e : exn) :
  rating_from_json_ld h json_ld = Raise e ->
  e = OverflowError /\
  exists d rd z,
    if_json_ld json_ld = Some d /\ dict_get d "aggregateRating" = VDict rd /\
    dict_get_default rd "ratingValue" (VInt 0) = VInt z /\
    float_of_int z = Raise OverflowError.
Proof.
  unfold rating_from_json_ld.
  destruct (if_json_ld json_ld) as [d|]; [|discriminate].
  destruct (dict_get d "aggregateRating") as [| | | | | |[|item rd]] eqn:Hr; try discriminate.
  destruct (dict_get_default (item :: rd) "ratingValue" (VInt 0)) as [|b|z|x|s|l|d'] eqn:Hv;
    cbn [py_float]; try discriminate.
  - destruct (float_of_small_int b) as (x & ->). discriminate.
  - unfold float_of_int. destruct (binary_normalize prec64 emax64 z 0 false) eqn:Hz;
      try discriminate.
    intros H. injection H as <-. split; [reflexivity|].
    exists d, (item :: rd), z. repeat split; try assumption.
    unfold float_of_int. now rewrite Hz.
  - destruct (float_of_str h s); discriminate.
Qed.

Lemma extract_raise (h : host) (book_url : string) (root : element) (e : exn) :
  extract h book_url root = Raise e ->
  _extract_json_ld h root = Raise e \/
  (exists json_ld, _extract_json_ld h root = Ret json_ld /\
                   rating_from_json_ld h json_ld = Raise e) \/
  resolve_series h root = Raise e.
Proof.
  unfold extract, resolve_fields.
  destruct (_extract_json_ld h root) as [json_ld|e0]; [|intros H; injection H as <-; now left].
  destruct (rating_from_json_ld h json_ld) as [r|e0] eqn:Hr;
    [|intros H; injection H as <-; right; left; now exists json_ld].
  destruct (resolve_series h root) as [[name index]|e0];
    [|intros H; injection H as <-; right; now right].
  match goal with |- context [missing_required ?f] => destruct (missing_required f) end;
    discriminate.
Qed.

(** The rating step absorbs what [float] refuses: a rating value that is
    null, a list, a dict, or a string that is no number leaves the rating
    unset, and the extraction goes on; the step raises only
    [OverflowError], and only for a rating value that is an integer out of
    the range of a float.  The extraction raises in three cases and no
    other: [json.loads] raises something else than [JSONDecodeError] on a
    script; the rating step raises [OverflowError]; [int] refuses the digits
    of the series index ([ValueError]). *)
Theorem rating_errors_absorbed (h : host) (book_url : string) (root : element) :
  (forall (d rd : dict) (v : value),
     dict_get d "aggregateRating" = VDict rd -> dict_find rd "ratingValue" = Some v ->
     match v with
     | VNone | VList _ | VDict _ => True
     | VStr s => float_of_str h s = None
     | _ => False
     end ->
     rating_from_json_ld h (Some d) = Ret None) /\
  (forall json_ld e, rating_from_json_ld h json_ld = Raise e ->
     e = OverflowError /\
     exists d rd z,
       if_json_ld json_ld = Some d /\ dict_get d "aggregateRating" = VDict rd /\
       dict_get_default rd "ratingValue" (VInt 0) = VInt z /\
       float_of_int z = Raise OverflowError) /\
  (forall e, extract h book_url root = Raise e ->
     (e <> JSONDecodeError /\
      exists script, In script (Dom.ld_json_scripts root) /\ json_loads h script = Raise e) \/
     (e = OverflowError /\
      exists json_ld, _extract_json_ld h root = Ret json_ld /\
                      rating_from_json_ld h json_ld = Raise e) \/
     (e = ValueError /\
      exists link t d,
        In link (elements_where series_link root) /\ Dom.tail link = Some t /\
        PyStr.re_search_lit_digits (isdecimal h) "#" t = Some d /\ py_int h d = None)).
Proof.
  split; [|split].
  - intros d rd v Hd Hv Hkind. rewrite (rating_step h d rd v Hd Hv).
    destruct v; try contradiction; cbn [py_float]; try reflexivity.
    now rewrite Hkind.
  - apply rating_raise.
  - intros e H. destruct (extract_raise _ _ _ _ H) as [Hj | [(json_ld & Hld & Hr) | Hs]].
    + left. destruct (first_book_block_raise _ _ _ Hj) as (before & s & after & E & Hs & _).
      destruct (book_block_failed _ _ _ Hs) as [Hl Hne]. split; [exact Hne|].
      exists s. split; [|exact Hl]. rewrite E. apply in_or_app. right. now left.
    + right. left. destruct (rating_raise _ _ _ Hr) as [-> _].
      split; [reflexivity|]. now exists json_ld.
    + right. right. unfold resolve_series in Hs. rewrite series_link_elems_where in Hs.
      destruct (series_from_links_raise _ _ _ Hs) as (link & Hin & Hl).
      destruct (series_index_raise _ _ _ Hl) as (-> & t & d & Ht & Hre & Hn).
      split; [reflexivity|]. now exists link, t, d.
Qed.

(** A series index of 4301 digits: [int] refuses it, and the [ValueError]
    leaves the extraction. *)
Example long_series_index_raises :
  extract Examples.plain_host "https://www.livelib.ru/book/5"
    (Examples.page_numbered ("#" ++ Examples.ones 4301)) = Raise ValueError.
Proof. vm_compute. reflexivity. Qed.

(** [identify] by search, from end to end: the search page is fetched and
    parsed, a candidate is chosen, its page is fetched and yields a record;
    then the abort flag is read once more, and the cleaned record is put
    into the queue unless the flag is set.  Two URLs are opened: the search
    URL and the page chosen. *)
Theorem identify_by_search (h : host) (title : string) (authors : option (list string))
    (identifiers : option (list (string * string)))
    (raw : string) (root : element) (url : string) (w2 : world)
    (raw' : string) (root' : element) (mi : Metadata) (c : option (string * value))
    (w : world) :
  dict_find (or_empty identifiers) "livelib" = None -> title <> EmptyString ->
  open_novisit h (search_url_of h title authors) = Some raw -> raw <> EmptyString ->
  fromstring h raw = Some root ->
  select_best_candidate h root (title_tokens_of h title) (author_tokens_of h authors)
    (requested (search_url_of h title authors) w) = (Ret (Some url), w2) ->
  open_novisit h url = Some raw' -> raw' <> EmptyString ->
  fromstring h raw' = Some root' ->
  extract h url root' = Ret (Some (mi, c)) ->
  let r := identify h (Some title) authors identifiers w in
  fst r = Ret tt /\
  requests (snd r) = requests w ++ [search_url_of h title authors; url] /\
  result_queue (snd r) =
    (if abort_is_set h (polls w2) then result_queue w
     else result_queue w ++ [QMetadata (clean_downloaded_metadata h mi)]).
Proof.
  intros Hid Hne Hraw Hrne Hroot Hsel Hraw' Hrne' Hroot' Hex. cbn zeta.
  destruct title as [|ch t]; [now elim Hne|]. destruct raw as [|cr raw]; [now elim Hrne|].
  destruct raw' as [|cr' raw']; [now elim Hrne'|].
  rewrite (identify_search_run h _ authors identifiers ch t w (or_introl Hid) eq_refl).
  rewrite Hraw, Hroot. unfold bind.
  unfold title_tokens_of, author_tokens_of in Hsel. rewrite Hsel.
  pose proof (select_best_candidate_effects h root
                (PyStr.join " " (get_title_tokens h (String ch t)))
                match authors with
                | Some ((_ :: _) as authors) => PyStr.join " " (get_author_tokens h authors)
                | _ => EmptyString
                end
                (requested (search_url_of h (String ch t) authors) w)) as (Hr & Hq & _).
  rewrite Hsel in Hr, Hq. cbn [snd requested requests result_queue] in Hr, Hq.
  rewrite parse_book_page_run, Hraw', Hroot', Hex.
  unfold emit, bind, is_set, put, ret, requested.
  destruct c as [[key cu]|]; cbn [fst snd polls requests result_queue];
    destruct (abort_is_set h (polls w2)); cbn [fst snd requests result_queue];
    rewrite Hr, Hq, <- app_assoc; repeat split.
Qed.

(* ================================================================= *)
(** ** The further properties at concrete inputs *)

Lemma extract_json_ld_first_book_witness :
  exists before script after,
    Dom.ld_json_scripts Examples.page_A = before ++ script :: after /\
    json_loads Examples.host_A script = Ret (VDict Examples.block_A) /\
    dict_get Examples.block_A "@type" = VStr "Book" /\
    (forall s, In s before -> book_block Examples.host_A s = Skipped) /\
    if_json_ld (Some Examples.block_A) = Some Examples.block_A.
Proof.
  exact (proj1 (extract_json_ld_first_book Examples.host_A Examples.page_A) _ eq_refl).
Defined.

Lemma id_from_url_is_digits_witness :
  "1000464086" <> EmptyString /\ digit_run (fun _ => false) "1000464086" /\
  (exists pre post,
     "https://www.livelib.ru/book/1000464086-angel-proletel" =
       (pre ++ "/book/" ++ "1000464086" ++ post)%string /\
     PyStr.digit_len (fun _ => false) post = 0 /\
     forall p1 p2,
       "https://www.livelib.ru/book/1000464086-angel-proletel" = (p1 ++ "/book/" ++ p2)%string ->
       String.length p1 < String.length pre ->
       PyStr.digit_len (fun _ => false) p2 = 0) /\
  get_book_url [("livelib", "1000464086")] = Some (BASE_URL ++ "/book/" ++ "1000464086")%string /\
  round_trip Examples.plain_host "1000464086" = Ret (Some "1000464086").
Proof.
  exact (proj1 (id_from_url_is_digits Examples.plain_host
                  "https://www.livelib.ru/book/1000464086-angel-proletel")
               "1000464086" eq_refl).
Defined.

Lemma candidates_without_duplicates_witness :
  PyStr.contains "/book/" "/book/12" = true.
Proof.
  apply (proj2 (proj2 (proj2 (candidates_without_duplicates Examples.search_page)))).
  right. left. reflexivity.
Defined.

Lemma candidate_links_witness :
  exists parent link rest,
    Dom.links_with_href (xpath_pasted Examples.plain_host) Examples.search_page "/book/12" =
    Ret ((parent, link) :: rest).
Proof.
  apply (proj2 (candidate_links Examples.plain_host Examples.search_page "/book/12" eq_refl)).
  right. left. reflexivity.
Defined.

Lemma select_best_candidate_bounded_witness :
  PyStr.startswith "https://www.livelib.ru/book/12" "http" = true /\
  exists b, In b (firstn 20 (book_links_of Examples.search_page)) /\
            "https://www.livelib.ru/book/12" = absolute_url b.
Proof.
  apply (proj2 (proj2 (proj2 (proj2
           (select_best_candidate_bounded Examples.plain_host Examples.search_page
              "Angel" "Ustinova" empty_world))))).
  reflexivity.
Defined.

Lemma identify_by_id_witness :
  let r := identify Examples.host_A None None (Some [("livelib", "1000464086")]) empty_world in
  fst r = Ret tt /\
  requests (snd r) = ["https://www.livelib.ru/book/1000464086"] /\
  result_queue (snd r) =
    [QMetadata
       (mkMetadata (VStr "Ангел пролетел") [VStr "Татьяна Устинова"]
          [("livelib", VStr "1000464086")] [] None None None None
          (Some Examples.float_8_4) None)] /\
  polls (snd r) = 0 /\
  (PyStr.all_digits "1000464086" = true ->
   dict_find [("livelib", VStr "1000464086")] "livelib" = Some (VStr "1000464086")).
Proof.
  apply (identify_by_id Examples.host_A None None [("livelib", "1000464086")]
           "1000464086" "page A" Examples.page_A
           (mkMetadata (VStr "Ангел пролетел") [VStr "Татьяна Устинова"]
              [("livelib", VStr "1000464086")] [] None None None None
              (Some Examples.float_8_4) None)
           None empty_world);
    first [reflexivity | discriminate].
Defined.

Lemma download_cover_from_cache_witness :
  download_cover Examples.host_cover None None (Some [("livelib", "1000464086")])
    (mkWorld [] [] [("livelib:1000464086", VStr "https://img.livelib.ru/cover.jpg")] 0) =
  (Ret tt,
   mkWorld ["https://img.livelib.ru/cover.jpg"] [QCover "JPEG data"]
           [("livelib:1000464086", VStr "https://img.livelib.ru/cover.jpg")] 0).
Proof.
  apply (download_cover_from_cache Examples.host_cover None None
           (Some [("livelib", "1000464086")]) "1000464086" "https://img.livelib.ru/cover.jpg"
           (mkWorld [] [] [("livelib:1000464086", VStr "https://img.livelib.ru/cover.jpg")] 0));
    first [reflexivity | discriminate].
Defined.

Lemma download_cover_from_page_witness :
  download_cover Examples.host_cover None None (Some [("livelib", "1000464086")]) empty_world =
  (Ret tt,
   mkWorld ["https://www.livelib.ru/book/1000464086"; "https://img.livelib.ru/cover.jpg"]
           [QCover "JPEG data"] [] 0).
Proof.
  apply (download_cover_from_page Examples.host_cover None None
           (Some [("livelib", "1000464086")]) "1000464086" "page with cover"
           "https://img.livelib.ru/cover.jpg" Examples.page_cover
           [("@type", VStr "Book"); ("name", VStr "Ангел пролетел");
            ("author", VDict [("name", VStr "Татьяна Устинова")]);
            ("image", VStr "https://img.livelib.ru/cover.jpg")] empty_world);
    first [reflexivity | discriminate].
Defined.

Lemma identify_then_download_cover_witness :
  let w1 := snd (identify Examples.host_cover None None (Some [("livelib", "1000464086")])
                   empty_world) in
  fst (get_cached_cover_url [("livelib", "1000464086")] w1) =
    Ret (Some (VStr "https://img.livelib.ru/cover.jpg")) /\
  download_cover Examples.host_cover None None (Some [("livelib", "1000464086")]) w1 =
  (Ret tt,
   mkWorld ["https://www.livelib.ru/book/1000464086"; "https://img.livelib.ru/cover.jpg"]
           [QMetadata
              (mkMetadata (VStr "Ангел пролетел") [VStr "Татьяна Устинова"]
                 [("livelib", VStr "1000464086")] [] None None None None None None);
            QCover "JPEG data"]
           [("livelib:1000464086", VStr "https://img.livelib.ru/cover.jpg")] 0).
Proof.
  apply (identify_then_download_cover Examples.host_cover None None None None
           [("livelib", "1000464086")] "1000464086" "page with cover"
           "https://img.livelib.ru/cover.jpg" Examples.page_cover
           [("@type", VStr "Book"); ("name", VStr "Ангел пролетел");
            ("author", VDict [("name", VStr "Татьяна Устинова")]);
            ("image", VStr "https://img.livelib.ru/cover.jpg")]
           (mkMetadata (VStr "Ангел пролетел") [VStr "Татьяна Устинова"]
              [("livelib", VStr "1000464086")] [] None None None None None None)
           (Some ("livelib:1000464086", VStr "https://img.livelib.ru/cover.jpg"))
           empty_world);
    first [reflexivity | discriminate].
Defined.

Lemma identify_without_candidates_witness :
  identify Examples.host_no_results (Some "Angel") None None empty_world =
  (Ret tt, requested "https://www.livelib.ru/find/books/Angel" empty_world).
Proof.
  apply (identify_without_candidates Examples.host_no_results "Angel" None None
           "no results" (Examples.page [] []) empty_world);
    first [reflexivity | discriminate].
Defined.

Lemma authors_are_never_empty_witness :
  Forall (fun a => truthy a = true) [VStr "Лев Толстой"; VStr "А. Иванов"].
Proof.
  refine (proj2 (authors_are_never_empty Examples.plain_host "https://www.livelib.ru/book/5"
                   Examples.page_B)
                (mkMetadata (VStr "Война и мир") [VStr "Лев Толстой"; VStr "А. Иванов"]
                   [("livelib", VStr "5")] [] None None None None None None)
                None _).
  vm_compute. reflexivity.
Defined.

Lemma genres_from_markup_witness :
  resolve_genres None Examples.page_nbsp = [VStr "Роман"; VStr "Классика"].
Proof.
  exact (proj1 (genres_from_markup None Examples.page_nbsp eq_refl)).
Defined.

Lemma rating_errors_absorbed_witness :
  rating_from_json_ld Examples.plain_host
    (Some [("@type", VStr "Book"); ("aggregateRating", VDict [("ratingValue", VStr "n/a")])]) =
  Ret None.
Proof.
  exact (proj1 (rating_errors_absorbed Examples.plain_host "https://www.livelib.ru/book/5"
                  Examples.page_B)
               [("@type", VStr "Book"); ("aggregateRating", VDict [("ratingValue", VStr "n/a")])]
               [("ratingValue", VStr "n/a")] (VStr "n/a") eq_refl eq_refl eq_refl).
Defined.

Lemma identify_by_search_witness :
  let r := identify
             (Examples.test_host
                [("https://www.livelib.ru/find/books/Angel Ustinova", "results");
                 ("https://www.livelib.ru/book/12", "page B")]
                [("results", Examples.search_page); ("page B", Examples.page_B)] [])
             (Some "Angel") (Some ["Ustinova"]) None empty_world in
  fst r = Ret tt /\
  requests (snd r) =
    ["https://www.livelib.ru/find/books/Angel Ustinova"; "https://www.livelib.ru/book/12"] /\
  result_queue (snd r) =
    [QMetadata
       (mkMetadata (VStr "Война и мир") [VStr "Лев Толстой"; VStr "А. Иванов"]
          [("livelib", VStr "12")] [] None None None None None None)].
Proof.
  apply (identify_by_search
           (Examples.test_host
              [("https://www.livelib.ru/find/books/Angel Ustinova", "results");
               ("https://www.livelib.ru/book/12", "page B")]
              [("results", Examples.search_page); ("page B", Examples.page_B)] [])
           "Angel" (Some ["Ustinova"]) None "results" Examples.search_page
           "https://www.livelib.ru/book/12"
           (mkWorld ["https://www.livelib.ru/find/books/Angel Ustinova"] [] [] 2)
           "page B" Examples.page_B
           (mkMetadata (VStr "Война и мир") [VStr "Лев Толстой"; VStr "А. Иванов"]
              [("livelib", VStr "12")] [] None None None None None None)
           None empty_world);
    first [reflexivity | discriminate].
Defined.
